(* ===== verification/_CoqProject ===== *)
-Q . S2P
Prelude.v
JsString.v
JsNumber.v
JsValue.v
Router.v
JsDate.v
Storage.v
Json.v
AngularJwt.v
TokenService.v
AuthGuard.v
OrderService.v
OrderDetail.v
Http.v
Header.v
Client.v
OrderRef.v
