(* ===== verification/Prelude.v ===== *)
(** * Verification of the session and latest-order logic of OnlineShoppingPlatform

    ** The program

    The Angular client keeps a session derived from a bearer token, gates
    protected routes on it, remembers the latest order across reloads, and
    normalises the order-detail payload.  Five TypeScript files hold this
    logic:
    - [src/frontend/src/app/services/token.service.ts] ([TokenService]):
      the token in [localStorage] under ["access-token"], [getUserId()]
      ([parseInt] of the payload's [userId], 0 without one) and
      [isTokenExpired()], both through angular-jwt's [JwtHelperService];
    - [src/frontend/src/app/guards/auth.guard.ts] ([AuthGuard],
      [AuthGuardFn]): allow when the token is not expired and the id is
      positive, otherwise [router.navigate(['/login'])] and refuse;
    - [src/src/app/services/order.service.ts] ([OrderService], a root
      singleton): [latestOrderId], restored from ["latestOrderId"] by the
      constructor and written by [placeOrder]'s [tap]; the other methods
      only build HTTP requests;
    - [.../detail-order/order.detail.component.ts]
      ([OrderDetailComponent.getOrderDetails]): fetches the order, assigns
      [response.id] to the shared [latestOrderId], copies the payload into
      [orderResponse], builds the two dates with [new Date(y, m - 1, d)] and
      prefixes each product thumbnail with [<apiBaseUrl>/products/images/];
    - [src/src/app/components/header/header.component.ts]
      ([HeaderComponent]): the popover's profile, latest-order
      ([['/orders', latestOrderId]] when truthy) and logout items.
    The components interact through the browser's storage, the
    [OrderService] singleton shared by the header, the order page and the
    page that places orders (not in [src/]), and the router.

    ** The development

    - [Prelude] (this file): completions ([Normal]/[Throw]) for code that
      may throw, the [handler] state-and-exception monad (the state reached
      before a [throw] is kept, as in JavaScript) with its [let*] and
      [let!] notations, and the shared hint databases [js], [js_simpl].
    - [JsString], [JsNumber], [JsValue], [JsDate], [Json]: the ECMA-262
      semantics the code relies on, on the values it handles: strings as
      UTF-16 code units; Numbers as exact decimals with the double range
      limits, [Number::toString], [StringToNumber], [parseInt], [>] and
      [===]; values, property reads and strict-mode writes, [in],
      [ToBoolean], [ToString], [ToNumber]; [new Date(y, m, d)] ([MakeDay],
      [MakeDate], [UTC], [TimeClip]) and the local getters; [JSON.parse].
    - [Router]: the navigation requests and [console.error] calls, as
      logs, and the [id] parameter the order route [/orders/:id] reads.
    - [Storage]: the [WebStorage] class (getItem, setItem, removeItem), its
      laws [WebStorageLaws], and the instance on [gmap jstr jstr].
    - [AngularJwt]: the [JwtHelper] interface [TokenService] uses, its laws,
      and the instance modelling [@auth0/angular-jwt] (split on ["."],
      base64url, UTF-8, [JSON.parse], the [exp] claim); the library is not
      in [src/], so it follows the spec and the library's algorithm.
    - [TokenService], [AuthGuard], [OrderService], [OrderDetail],
      [Header]: one Module per TypeScript class, its state as a Record and
      each method as a Definition of the same name; a method that mutates
      state and may throw is a [handler] over the state it touches.
      [UserService] (not in the repository) is a Class the header's
      theorems take as a parameter.
    - [Http]: the transport as a subscriber of [HttpClient] sees it (spec,
      section 5; framework code outside [src/]): a subscription per
      request, which receives one response and then its completion, or
      one error.  The order pages' [GET]s and the checkout's placements
      ([POST <base>/orders], each a subscription of its own whose response
      goes through [placeOrder]'s [tap]) are both subscriptions of this
      kind.
    - [Client]: the components over one [world] (storage, shared service,
      every order-page instance with its own [orderResponse], the open
      subscriptions of the pages and of the placements, the header,
      navigation log, console, and the guard's verdicts the router
      received); [step] is an Inductive relation with one
      rule per trigger (guarded navigation, login, a placement sent, a
      notification of placement [k], a notification of page [i]'s request,
      header click, popover toggle, nav item, order-page creation, page
      load); notifications of different subscriptions interleave freely
      with every other event, as asynchronous responses do.  [run_event] is the same as a
      function, [run_events] runs a trace, and [reachable] is the closure
      from a page load.
    - [OrderRef]: the spec's OrderRefStore contract as an abstract state
      and operations ([OrderRefSpec]) and the simulation relation to the
      code's state.

    ** What is proved

    - The guard (C1 to C4): its exact allow/deny condition, the redirect on
      deny, and that a decode error escapes it.
    - The client, by rule induction on [reachable] (C5 to C7): every
      navigation the client ever requests is to ["/login"],
      ["/user-profile"] or to an order with a truthy id (C5); the
      [orderResponse] of every order page, on screen or left behind, keeps
      its declared type [OrderResponse] (its fifteen properties, in order,
      with [Date]s exactly in the two date properties) whatever responses,
      errors and exceptions came before (C6, a type invariant: every
      callback preserves it, through the [hpreserves] combinators of this
      file); the pages are exactly the instances created, every request
      in flight is a [GET] without body of the literal URL
      [apiBaseUrl + "/orders/" + String(id)] of one of them, and every
      placement in flight a [POST] to [apiBaseUrl + "/orders"] the
      checkout sent (C7).
    - Scenarios across components (C13 to C19, C22): a fetched order becomes
      the header's latest order even if the callback throws later (C13); a
      response for a page the user has left leaves the page on screen alone
      but still overwrites the shared [latestOrderId] (C14, a finding); a
      transport error is only logged (C15, a finding); a placed order
      survives a reload (C16); the latest-order item's route makes the
      order page the router creates subscribe to that very order (C17,
      through [String] in the URL and [Number] in [getOrderDetails]); after
      a logout the guard redirects to ["/login"] (C18); and, for liveness,
      from any state a login with a valid token makes the next guarded
      navigation go through: the router receives [true] from the guard
      (C19); with two placements awaiting their responses, either can be
      answered first without closing the other, and the response that
      arrives last decides the latest order in memory and in the storage
      (C22, a finding: a placement answered after a later one leaves the
      earlier order as the latest).
    - The order page (C8 to C10, C33 to C35, C38): the payload's
      normalisation (dates show exactly the payload's day, month and year
      in every time zone, thumbnails become absolute URLs, fields are
      copied); the equivalence of the callback's seventeen statements with
      filling the [OrderResponse] literal from the response (C9); its
      failures: [shipping_address] is never written, a missing date throws
      after a partial update, a short date array gives an Invalid Date
      silently, a bad route id fetches [/orders/0] or [/orders/NaN].
    - The order service (C11, C12, C36): the tap records and persists the
      id, the id survives a reload ([+String(n) = n]), and a response
      without an id leaves memory and storage out of step.
    - The latest-order reference against the spec's OrderRefStore contract
      (C20, C21, C23, OrderRef): the constructor and the header's item
      simulate [initialize] and [current] for the relation
      [OrderRef.refines] between the abstract store and the service plus
      storage, and every step of the client simulates the abstract
      operation of its event ([recordFromPlacedOrder] for a placement's
      response, [recordFromFetch] for an order page's, [initialize] for a
      reload); by induction on the events, every run of the client whose
      order responses carry integer ids refines the abstract store run on
      the same events (C20).
    - The token service (C24 to C32): the user id and expiry on every kind
      of payload (numeric claims, missing claims, primitive payloads, a
      [userId] of [10^21] read back as [1], malformed tokens, no token,
      for which the guard also redirects) and the storage round trip.
    - The header (C37): logout.
    - Library theorems the claims rest on: [parseInt(String(n)) = n] and
      [Number(String(n)) = n] (JsNumber), the calendar and [new Date]
      round trips (JsDate), that [JSON.parse]'s fuel is enough and more
      fuel changes nothing ([json_parse_fuel], Json), the thumbnails'
      rewrite by [map] alone, the spec's example run through the callback,
      and the header's other properties (its latest-order item; ids [0],
      [NaN], [null] never navigate; the popover is closed after every
      click that returns).

    ** Bounds and fuel

    - Integers are exact for [|n| < 10^21], the range where
      [Number::toString] prints plain digits; beyond it the code's
      [parseInt] of [userId] misreads the exponent form (a finding).
      Up to [2^53] every integer is a double, so there the exact decimals
      and IEEE doubles agree digit for digit; between [2^53] and [10^21]
      the claims hold of every integer double, and the model differs from
      JavaScript only in keeping the digits of a JSON literal a double
      would round.
    - Dates are proved for years within [+-270000] and offsets of at most a
      day: the time values then stay within [TimeClip]'s [8.64e15] ms.
    - [JSON.parse] runs with fuel [json_fuel = 2 * length + 2], proved
      enough for every input by [parse_fuel_enough]; [parse_fuel_mono]
      shows the result is the one any larger fuel gives, and
      [TokenService.session_fuel_enough] carries this to the token
      service: the angular-jwt helper run with any larger fuel
      ([angular_jwt_with]) gives the same session.  These are lemmas on
      the adequacy of the model, not properties of the program.

    ** Not modelled

    The network behind [HttpClient] (response bodies and the order data
    the checkout sends, built outside [src/], are arbitrary), templates and styles, [UserService] and the login page
    (only their effects on the storage), the rounding of Numbers to 53 bits (the
    claims are about integers the code round-trips exactly), daylight-saving
    changes (the time-zone offset is fixed), named properties and holes of
    arrays and functions as values.  The order
    payload's objects are
    mutated in place by the code; that sharing is not observable once the
    callback returns, so the model rebuilds them as values. *)

From Stdlib Require Import ZArith List Lia.
Import ListNotations.

(** ** ECMAScript completions

    Every operation of the client that can throw is modelled as a function
    returning a [completion]: either a normal value or an abrupt completion
    carrying the kind of the error that was thrown.  The error kinds are the
    ones the modelled code and its libraries can raise. *)

Inductive js_error :=
| TypeError        (** property access on undefined/null, [in] on a primitive *)
| SyntaxError      (** [JSON.parse] on text that is not JSON *)
| URIError         (** [decodeURIComponent] on malformed UTF-8 *)
| JwtFormatError   (** angular-jwt: the token does not have three parts *)
| Base64Error.     (** angular-jwt: illegal base64url string *)

Inductive completion (A : Type) :=
| Normal (v : A)
| Throw (e : js_error).
Arguments Normal {A} v.
Arguments Throw {A} e.

Definition cbind {A B} (c : completion A) (k : A -> completion B) : completion B :=
  match c with
  | Normal v => k v
  | Throw e => Throw e
  end.

Definition cmap {A B} (f : A -> B) (c : completion A) : completion B :=
  cbind c (fun v => Normal (f v)).

Declare Scope completion_scope.
Delimit Scope completion_scope with cmp.
Notation "'let*' x ':=' c 'in' k" := (cbind c (fun x => k))
  (at level 10, x name, c at level 100, k at level 200) : completion_scope.
Notation "'let*' ' p ':=' c 'in' k" := (cbind c (fun x => match x with p => k end))
  (at level 10, p pattern, c at level 100, k at level 200) : completion_scope.

(** A handler that mutates the component state and may then throw: the state
    it has reached when the exception is raised is kept, as in JavaScript,
    where the assignments that ran before a [throw] are not undone. *)
Definition handler (S A : Type) := S -> completion A * S.

Definition hret {S A} (v : A) : handler S A := fun s => (Normal v, s).
Definition hthrow {S A} (e : js_error) : handler S A := fun s => (Throw e, s).
Definition hbind {S A B} (h : handler S A) (k : A -> handler S B) : handler S B :=
  fun s => match h s with
           | (Normal v, s') => k v s'
           | (Throw e, s') => (Throw e, s')
           end.
Definition hlift {S A} (c : completion A) : handler S A :=
  fun s => (c, s).
Definition hmodify {S} (f : S -> S) : handler S unit := fun s => (Normal tt, f s).
Definition hget {S} : handler S S := fun s => (Normal s, s).

Declare Scope handler_scope.
Delimit Scope handler_scope with hd.
Notation "'let!' x ':=' c 'in' k" := (hbind c (fun x => k))
  (at level 10, x name, c at level 100, k at level 200) : handler_scope.

(** ** Shared lemmas and automation *)

Create HintDb js discriminated.
Create Rewrite HintDb js_simpl.

Lemma cbind_normal {A B} (v : A) (k : A -> completion B) :
  cbind (Normal v) k = k v.
Proof. reflexivity. Qed.

Lemma cbind_throw {A B} e (k : A -> completion B) :
  cbind (Throw e) k = Throw e.
Proof. reflexivity. Qed.

Lemma cbind_normal_inv {A B} (c : completion A) (k : A -> completion B) w :
  cbind c k = Normal w -> exists v, c = Normal v /\ k v = Normal w.
Proof. destruct c; simpl; [eauto | discriminate]. Qed.

Lemma cbind_throw_inv {A B} (c : completion A) (k : A -> completion B) e :
  cbind c k = Throw e -> c = Throw e \/ exists v, c = Normal v /\ k v = Throw e.
Proof. destruct c; simpl; [eauto | intros [= ->]; auto]. Qed.

Lemma hbind_normal {S A B} (h : handler S A) (k : A -> handler S B) s v s' :
  h s = (Normal v, s') -> hbind h k s = k v s'.
Proof. unfold hbind. intros ->. reflexivity. Qed.

Lemma hbind_throw {S A B} (h : handler S A) (k : A -> handler S B) s e s' :
  h s = (Throw e, s') -> hbind h k s = (Throw e, s').
Proof. unfold hbind. intros ->. reflexivity. Qed.

#[export] Hint Rewrite @cbind_normal @cbind_throw : js_simpl.

(** [h] preserves the invariant [P] of the state, whether it returns or
    throws: the state a handler leaves after an exception is the one the
    program goes on with. *)
Definition hpreserves {S A} (P : S -> Prop) (h : handler S A) : Prop :=
  forall s, P s -> P (snd (h s)).

Lemma hpreserves_hbind {S A B} (P : S -> Prop) (h : handler S A) (k : A -> handler S B) :
  hpreserves P h -> (forall v, hpreserves P (k v)) -> hpreserves P (hbind h k).
Proof.
  intros Hh Hk s Hs. unfold hbind. specialize (Hh s Hs).
  destruct (h s) as [[v|e] s']; [exact (Hk v s' Hh) | exact Hh].
Qed.

Lemma hpreserves_hlift {S A} (P : S -> Prop) (c : completion A) : hpreserves P (hlift c).
Proof. intros s Hs. exact Hs. Qed.

Lemma hpreserves_hret {S A} (P : S -> Prop) (v : A) : hpreserves P (hret v).
Proof. intros s Hs. exact Hs. Qed.

Lemma hpreserves_hmodify {S} (P : S -> Prop) (f : S -> S) :
  (forall s, P s -> P (f s)) -> hpreserves P (hmodify f).
Proof. intros Hf s Hs. exact (Hf s Hs). Qed.

#[export] Hint Resolve hbind_normal hbind_throw : js.

(** [simpl_cmp] reduces the completion and handler binds of a goal whose
    first computation is known. *)
Ltac simpl_cmp :=
  repeat (autorewrite with js_simpl in *; cbn [cbind cmap hbind hret hthrow hlift hmodify hget] in *).
