(* ===== verification/JsString.v ===== *)
(** * JavaScript strings

    A JavaScript string is a sequence of UTF-16 code units; [jstr] holds them
    as integers.  String literals of the development are written ["..."%js]
    and denote the string of their (ASCII) bytes.  This file holds the
    string primitives the modelled code relies on: concatenation (template
    literals), the whitespace set of [StrWhiteSpaceChar] used by [trim],
    [parseInt] and [Number()], digit classification, and the decimal digit
    string of a non-negative integer with its round trip. *)

From Stdlib Require Import ZArith List Lia.
From Stdlib Require Strings.Byte.
From stdpp Require Import base list countable.
From Equations Require Import Equations.
From S2P Require Import Prelude.
Import ListNotations.
Open Scope Z_scope.

Inductive jstr := JS { units : list Z }.

Definition jstr_of_bytes (l : list Byte.byte) : jstr :=
  JS (map (fun b => Z.of_N (Strings.Byte.to_N b)) l).

Definition jstr_to_bytes (j : jstr) : option (list Byte.byte) :=
  let fix go l := match l with
    | [] => Some []
    | z :: l' =>
        match Strings.Byte.of_N (Z.to_N z), go l' with
        | Some b, Some r => if 0 <=? z then Some (b :: r) else None
        | _, _ => None
        end
    end in go (units j).

Declare Scope jstr_scope.
Delimit Scope jstr_scope with js.
String Notation jstr jstr_of_bytes jstr_to_bytes : jstr_scope.

#[export] Instance jstr_eq_dec : EqDecision jstr.
Proof. solve_decision. Defined.

#[export] Instance jstr_countable : Countable jstr :=
  inj_countable' units JS (fun s => match s with JS _ => eq_refl end).

(** String concatenation, as in [`${a}${b}`] and [a + b] on strings. *)
Definition jcat (a b : jstr) : jstr := JS (units a ++ units b).
Infix "+++" := jcat (at level 60, right associativity) : jstr_scope.
Open Scope jstr_scope.

Definition jlength (s : jstr) : nat := length (units s).

(** ** Whitespace: [StrWhiteSpaceChar] = WhiteSpace | LineTerminator *)

Definition is_js_space (c : Z) : bool :=
  (c =? 9) || (c =? 10) || (c =? 11) || (c =? 12) || (c =? 13) || (c =? 32)
  || (c =? 160) || (c =? 5760) || ((8192 <=? c) && (c <=? 8202))
  || (c =? 8232) || (c =? 8233) || (c =? 8239) || (c =? 8287)
  || (c =? 12288) || (c =? 65279).

Fixpoint trim_start (l : list Z) : list Z :=
  match l with
  | c :: l' => if is_js_space c then trim_start l' else l
  | [] => []
  end.

Definition trim_both (l : list Z) : list Z := rev (trim_start (rev (trim_start l))).

(** ** Digits *)

(** The value of a code unit read as a digit of radix up to 36
    ([0-9], [a-z], [A-Z]). *)
Definition digit_value (c : Z) : option Z :=
  if (48 <=? c) && (c <=? 57) then Some (c - 48)
  else if (97 <=? c) && (c <=? 122) then Some (c - 87)
  else if (65 <=? c) && (c <=? 90) then Some (c - 55)
  else None.

Definition radix_digit (r c : Z) : option Z :=
  match digit_value c with
  | Some d => if d <? r then Some d else None
  | None => None
  end.

(** Horner evaluation of a digit list in radix [r]. *)
Definition horner (r acc : Z) (ds : list Z) : Z :=
  fold_left (fun a d => r * a + d) ds acc.

(** The decimal digits (as values 0..9) of a non-negative integer,
    most significant first, with no leading zero. *)
Lemma log2_div10_lt a : 10 <= a -> Z.log2 (a / 10) < Z.log2 a.
Proof.
  intros Ha.
  assert (Hq : 1 <= a / 10) by (apply (Z.div_le_lower_bound a 10 1); lia).
  assert (Hle : (a / 10) * 2 ^ 1 <= a) by (Z.to_euclidean_division_equations; lia).
  apply Z.log2_le_mono in Hle. rewrite Z.log2_mul_pow2 in Hle by lia. lia.
Qed.

(** The recursion is measured by [log2 n], so that the accessibility
    proof stays small and the function computes on large integers. *)
Equations? dec_digits (n : Z) : list Z by wf (Z.to_nat (Z.log2 n)) lt :=
  dec_digits n with Z_lt_dec n 10 => {
    | left _ := [n];
    | right Hge := dec_digits (n / 10) ++ [n mod 10] }.
Proof.
  pose proof (log2_div10_lt n ltac:(lia)).
  pose proof (Z.log2_nonneg (n / 10)). lia.
Qed.

Definition digit_unit (d : Z) : Z := 48 + d.

(** The decimal numeral of a non-negative integer, as a string. *)
Definition decimal_string (n : Z) : jstr := JS (map digit_unit (dec_digits n)).

(** ** Lemmas *)

Lemma horner_app r acc l1 l2 :
  horner r acc (l1 ++ l2) = horner r (horner r acc l1) l2.
Proof. unfold horner. apply fold_left_app. Qed.

Lemma dec_digits_range n : 0 <= n -> Forall (fun d => 0 <= d < 10) (dec_digits n).
Proof.
  funelim (dec_digits n); intros Hn.
  - constructor; [lia | constructor].
  - apply Forall_app. split.
    + apply H. apply Z.div_pos; lia.
    + constructor; [apply Z.mod_pos_bound; lia | constructor].
Qed.

Lemma horner_dec_digits n : 0 <= n -> horner 10 0 (dec_digits n) = n.
Proof.
  funelim (dec_digits n); intros Hn.
  - reflexivity.
  - rewrite horner_app, H by (try apply Z.div_pos; lia).
    cbn. pose proof (Z.div_mod n 10). lia.
Qed.

Lemma dec_digits_head n : 0 < n -> exists d ds, dec_digits n = d :: ds /\ 0 < d.
Proof.
  funelim (dec_digits n); intros Hn.
  - exists n, []. split; [reflexivity | lia].
  - destruct H as (d & ds & -> & Hd); [apply Z.div_str_pos; lia |].
    eexists _, _. split; [reflexivity | exact Hd].
Qed.

Lemma dec_digits_nonempty n : dec_digits n <> [].
Proof.
  funelim (dec_digits n); [discriminate|].
  intros Happ. apply app_eq_nil in Happ. destruct Happ as [_ Hc]. discriminate.
Qed.

Lemma digit_value_unit d : 0 <= d < 10 -> digit_value (digit_unit d) = Some d.
Proof.
  intros Hd. unfold digit_value, digit_unit.
  replace ((48 <=? 48 + d) && (48 + d <=? 57)) with true by (symmetry; apply andb_true_iff; lia).
  f_equal; lia.
Qed.

Lemma digit_unit_not_space d : 0 <= d < 10 -> is_js_space (digit_unit d) = false.
Proof.
  intros Hd. unfold is_js_space, digit_unit.
  repeat (apply orb_false_intro); try apply andb_false_intro1;
    apply Z.eqb_neq || apply Z.leb_gt; lia.
Qed.

#[export] Hint Resolve dec_digits_range horner_dec_digits digit_value_unit digit_unit_not_space : js.
