(* ===== verification/JsNumber.v ===== *)
(** * JavaScript numbers

    A Number value is [NaN], an infinity, or a finite value.  Finite values
    are kept exactly, as decimals [mant * 10 ^ ex] in canonical form (no
    trailing zero in the mantissa, zero as [0 * 10 ^ 0]).  Every conversion
    that produces a Number applies the range rounding of IEEE-754 doubles:
    a magnitude of at least [2^1024 - 2^970] becomes an infinity and a
    magnitude of at most [2^-1075] becomes zero.  Rounding to 53 significant
    bits is not modelled: the model agrees with the engine on every value
    that is a double, which covers every integer of magnitude up to [2^53]
    (order ids, user ids, timestamps); the sign of zero is not tracked.

    The file models [Number::toString] (radix 10), [StringToNumber] (what
    [Number(s)] and unary [+s] compute), [parseInt] without a radix,
    [ToIntegerOrInfinity], [ToBoolean] on numbers and the relational
    operator [>] on numbers, each following ECMA-262. *)

From Stdlib Require Import ZArith List Lia.
From stdpp Require Import base list.
From Equations Require Import Equations.
From S2P Require Import Prelude JsString.
Import ListNotations.
Open Scope Z_scope.

Record dec := Dec { mant : Z; ex : Z }.

Definition dzero : dec := Dec 0 0.

#[export] Instance dec_eq_dec : EqDecision dec.
Proof. solve_decision. Defined.

(** Removing the trailing zeros of a non-negative mantissa: the
    mantissa left and the number of zeros removed. *)
Equations? strip_pos (a : Z) : Z * Z by wf (Z.to_nat (Z.log2 a)) lt :=
  strip_pos a with Z_le_dec a 0 => {
    | left _ := (0, 0);
    | right Hpos with Z.eq_dec (a mod 10) 0 => {
        | left Hdiv := let '(b, z) := strip_pos (a / 10) in (b, z + 1);
        | right _ := (a, 0) } }.
Proof.
  assert (10 <= a) by (Z.to_euclidean_division_equations; lia).
  pose proof (log2_div10_lt a ltac:(lia)).
  pose proof (Z.log2_nonneg (a / 10)). lia.
Qed.

Definition strip_zeros (m e : Z) : dec :=
  if m =? 0 then dzero
  else let '(b, z) := strip_pos (Z.abs m) in Dec (Z.sgn m * b) (e + z).

Definition dnorm (d : dec) : dec := strip_zeros (mant d) (ex d).

Definition canonical (d : dec) : Prop :=
  (mant d = 0 /\ ex d = 0) \/ (mant d mod 10 <> 0).

Inductive jsnum :=
| NaN
| PosInf
| NegInf
| Fin (d : dec).

#[export] Instance jsnum_eq_dec : EqDecision jsnum.
Proof. solve_decision. Defined.


(** ** Range rounding *)

Definition ndigits (m : Z) : Z := Z.of_nat (length (dec_digits (Z.abs m))).

(** [2^1024 - 2^970]: the least magnitude that rounds to an infinity. *)
Definition overflow_bound : Z := 2 ^ 1024 - 2 ^ 970.

Definition overflows (d : dec) : bool :=
  let n := ndigits (mant d) + ex d in
  if 310 <? n then true
  else if n <? 300 then false
  else if 0 <=? ex d then overflow_bound <=? Z.abs (mant d) * 10 ^ ex d
  else overflow_bound * 10 ^ (- ex d) <=? Z.abs (mant d).

Definition underflows (d : dec) : bool :=
  let n := ndigits (mant d) + ex d in
  if mant d =? 0 then false
  else if n <? -330 then true
  else if -320 <? n then false
  else Z.abs (mant d) * 2 ^ 1075 <=? 10 ^ (- ex d).

(** The Number value of an exact decimal. *)
Definition num_of_dec (d : dec) : jsnum :=
  let c := dnorm d in
  if overflows c then (if mant c <? 0 then NegInf else PosInf)
  else if underflows c then Fin dzero
  else Fin c.

(** The Number value of an integer. *)
Definition num_of_Z (z : Z) : jsnum := num_of_dec (Dec z 0).

(** ** Number::toString (radix 10) *)

Definition dec_body (d : dec) : list Z :=
  let s := map digit_unit (dec_digits (Z.abs (mant d))) in
  let k := Z.of_nat (length s) in
  let n := k + ex d in
  if (k <=? n) && (n <=? 21) then s ++ repeat 48 (Z.to_nat (n - k))
  else if (0 <? n) && (n <=? 21) then firstn (Z.to_nat n) s ++ [46] ++ skipn (Z.to_nat n) s
  else if (-6 <? n) && (n <=? 0) then [48; 46] ++ repeat 48 (Z.to_nat (- n)) ++ s
  else
    let e1 := n - 1 in
    let etail := [101; if e1 <? 0 then 45 else 43] ++ map digit_unit (dec_digits (Z.abs e1)) in
    match s with
    | c :: [] => c :: etail
    | c :: rest => c :: 46 :: rest ++ etail
    | [] => etail
    end.

Definition num_to_string (x : jsnum) : jstr :=
  match x with
  | NaN => "NaN"
  | PosInf => "Infinity"
  | NegInf => "-Infinity"
  | Fin d =>
      if mant d =? 0 then "0"
      else if mant d <? 0 then JS (45 :: dec_body d) else JS (dec_body d)
  end.

(** ** Reading digits *)

(** The longest prefix of radix-[r] digits, as digit values, and the rest. *)
Fixpoint take_digits (r : Z) (l : list Z) : list Z * list Z :=
  match l with
  | c :: l' =>
      match radix_digit r c with
      | Some d => let '(ds, rest) := take_digits r l' in (d :: ds, rest)
      | None => ([], l)
      end
  | [] => ([], [])
  end.

(** ** StringToNumber *)

Definition infinity_units : list Z := units "Infinity".

(** [StrUnsignedDecimalLiteral] after the optional sign: [Infinity], or
    digits with an optional fraction and exponent, at least one digit in
    the mantissa.  [None] when the text is not such a literal. *)
Definition unsigned_decimal (sign : Z) (l : list Z) : option jsnum :=
  if bool_decide (l = infinity_units) then Some (if sign <? 0 then NegInf else PosInf)
  else
    let '(ids, r1) := take_digits 10 l in
    let '(fds, r2) := match r1 with
                      | c :: r1' => if c =? 46 then take_digits 10 r1' else ([], r1)
                      | [] => ([], r1)
                      end in
    let mdigits := ids ++ fds in
    let expo :=
      match r2 with
      | [] => Some 0
      | c :: r3 =>
          if (c =? 101) || (c =? 69) then
            let '(esign, r4) := match r3 with
                                | c' :: r => if c' =? 43 then (1, r)
                                             else if c' =? 45 then (-1, r) else (1, r3)
                                | [] => (1, r3)
                                end in
            match take_digits 10 r4 with
            | ((_ :: _) as eds, []) => Some (esign * horner 10 0 eds)
            | _ => None
            end
          else None
      end in
    match mdigits, expo with
    | _ :: _, Some x =>
        Some (num_of_dec (Dec (sign * horner 10 0 mdigits) (x - Z.of_nat (length fds))))
    | _, _ => None
    end.

Definition non_decimal (r : Z) (l : list Z) : option jsnum :=
  match take_digits r l with
  | ((_ :: _) as ds, []) => Some (num_of_dec (Dec (horner r 0 ds) 0))
  | _ => None
  end.

Definition string_to_number (s : jstr) : jsnum :=
  let t := trim_both (units s) in
  let r :=
    match t with
    | [] => Some (Fin dzero)
    | c :: l =>
        if c =? 48 then
          match l with
          | x :: l' =>
              if (x =? 120) || (x =? 88) then non_decimal 16 l'
              else if (x =? 111) || (x =? 79) then non_decimal 8 l'
              else if (x =? 98) || (x =? 66) then non_decimal 2 l'
              else unsigned_decimal 1 t
          | [] => unsigned_decimal 1 t
          end
        else if c =? 43 then unsigned_decimal 1 l
        else if c =? 45 then unsigned_decimal (-1) l
        else unsigned_decimal 1 t
    end in
  match r with
  | Some x => x
  | None => NaN
  end.

(** ** parseInt(string) with the radix undefined *)

(** Steps 4 and 5 of [parseInt]: the sign. *)
Definition parse_int_sign (t : list Z) : Z * list Z :=
  match t with
  | c :: r => if c =? 45 then (-1, r) else if c =? 43 then (1, r) else (1, t)
  | [] => (1, t)
  end.

(** Steps 8 to 11 with the radix undefined: a [0x]/[0X] prefix selects
    radix 16, anything else radix 10. *)
Definition parse_int_radix (t : list Z) : Z * list Z :=
  match t with
  | c :: x :: r => if (c =? 48) && ((x =? 120) || (x =? 88)) then (16, r) else (10, t)
  | _ => (10, t)
  end.

Definition parse_int_units (l : list Z) : jsnum :=
  let '(sign, t1) := parse_int_sign (trim_start l) in
  let '(radix, t2) := parse_int_radix t1 in
  match take_digits radix t2 with
  | ([], _) => NaN
  | (ds, _) => num_of_dec (Dec (sign * horner radix 0 ds) 0)
  end.

Definition parse_int (s : jstr) : jsnum := parse_int_units (units s).

(** ** Conversions and comparisons *)

(** The integer part of a finite decimal, rounded toward zero. *)
Definition dtrunc (d : dec) : Z :=
  if 0 <=? ex d then mant d * 10 ^ ex d else Z.quot (mant d) (10 ^ (- ex d)).

Definition to_integer_or_infinity (x : jsnum) : jsnum :=
  match x with
  | NaN => Fin dzero
  | Fin d => num_of_Z (dtrunc d)
  | _ => x
  end.

(** ToBoolean on a Number. *)
Definition num_truthy (x : jsnum) : bool :=
  match x with
  | NaN => false
  | Fin d => negb (mant d =? 0)
  | _ => true
  end.

Definition dcompare (a b : dec) : comparison :=
  let e := Z.min (ex a) (ex b) in
  Z.compare (mant a * 10 ^ (ex a - e)) (mant b * 10 ^ (ex b - e)).

(** [x === y] on Numbers: NaN equals nothing, [+0] and [-0] are equal. *)
Definition num_strict_eq (x y : jsnum) : bool :=
  match x, y with
  | PosInf, PosInf | NegInf, NegInf => true
  | Fin a, Fin b => match dcompare a b with Eq => true | _ => false end
  | _, _ => false
  end.

(** [x > y] on Numbers: false as soon as one side is NaN. *)
Definition num_gt (x y : jsnum) : bool :=
  match x, y with
  | NaN, _ | _, NaN => false
  | PosInf, PosInf | NegInf, _ | _, PosInf => false
  | PosInf, _ | _, NegInf => true
  | Fin a, Fin b => match dcompare a b with Gt => true | _ => false end
  end.

(** ** Addition and subtraction (Number::add, Number::subtract) *)

Definition dadd (a b : dec) : dec :=
  let e := Z.min (ex a) (ex b) in
  Dec (mant a * 10 ^ (ex a - e) + mant b * 10 ^ (ex b - e)) e.

Definition num_neg (x : jsnum) : jsnum :=
  match x with
  | NaN => NaN
  | PosInf => NegInf
  | NegInf => PosInf
  | Fin d => Fin (Dec (- mant d) (ex d))
  end.

Definition num_add (x y : jsnum) : jsnum :=
  match x, y with
  | NaN, _ | _, NaN => NaN
  | PosInf, NegInf | NegInf, PosInf => NaN
  | PosInf, _ | _, PosInf => PosInf
  | NegInf, _ | _, NegInf => NegInf
  | Fin a, Fin b => num_of_dec (dadd a b)
  end.

Definition num_sub (x y : jsnum) : jsnum := num_add x (num_neg y).

(** ** Lemmas on digits and normal forms *)

Lemma dec_digits_eq n :
  dec_digits n = if n <? 10 then [n] else dec_digits (n / 10) ++ [n mod 10].
Proof.
  rewrite dec_digits_equation_1. destruct (Z_lt_dec n 10) as [H|H]; cbn.
  - replace (n <? 10) with true by (symmetry; apply Z.ltb_lt; lia). reflexivity.
  - replace (n <? 10) with false by (symmetry; apply Z.ltb_ge; lia). reflexivity.
Qed.
Lemma strip_pos_eq a :
  strip_pos a = if a <=? 0 then (0, 0)
                else if a mod 10 =? 0 then let '(b, z) := strip_pos (a / 10) in (b, z + 1)
                else (a, 0).
Proof.
  rewrite strip_pos_equation_1. destruct (Z_le_dec a 0) as [H|H]; cbn.
  - replace (a <=? 0) with true by (symmetry; apply Z.leb_le; lia). reflexivity.
  - replace (a <=? 0) with false by (symmetry; apply Z.leb_gt; lia).
    destruct (Z.eq_dec (a mod 10) 0) as [E|E]; cbn.
    + replace (a mod 10 =? 0) with true by (symmetry; apply Z.eqb_eq; exact E). reflexivity.
    + apply Z.eqb_neq in E. rewrite E. reflexivity.
Qed.

Lemma dec_digits_times10 x : 0 < x -> dec_digits (x * 10) = dec_digits x ++ [0].
Proof.
  intros Hx. rewrite dec_digits_eq.
  replace (x * 10 <? 10) with false by (symmetry; apply Z.ltb_ge; lia).
  rewrite Z.div_mul, Z_mod_mult by lia. reflexivity.
Qed.

Lemma dec_digits_scale b z :
  0 < b -> 0 <= z -> dec_digits (b * 10 ^ z) = dec_digits b ++ repeat 0 (Z.to_nat z).
Proof.
  intros Hb Hz. pattern z. apply natlike_ind; [| |exact Hz].
  - rewrite Z.mul_1_r, app_nil_r. reflexivity.
  - intros x Hx IH. pose proof (Z.pow_pos_nonneg 10 x ltac:(lia) Hx).
    replace (b * 10 ^ Z.succ x) with (b * 10 ^ x * 10) by (rewrite Z.pow_succ_r; lia).
    rewrite dec_digits_times10, IH by nia.
    rewrite Z2Nat.inj_succ by lia. cbn [repeat]. rewrite repeat_cons, app_assoc. reflexivity.
Qed.

(** The length [k] of the digit string of a positive [a]:
    [10 ^ (k - 1) <= a < 10 ^ k]. *)
Lemma dec_digits_length a :
  0 < a -> 10 ^ (Z.of_nat (length (dec_digits a)) - 1) <= a < 10 ^ Z.of_nat (length (dec_digits a)).
Proof.
  funelim (dec_digits a); intros Ha.
  - cbn. lia.
  - rewrite length_app. cbn [length].
    assert (0 < n / 10) by (apply Z.div_str_pos; lia).
    specialize (H H0).
    set (k := Z.of_nat (length (dec_digits (n / 10)))) in *.
    assert (Hk : 1 <= k) by (destruct (dec_digits (n / 10)) eqn:E;
                              [now apply dec_digits_nonempty in E | subst k; cbn; lia]).
    rewrite Nat2Z.inj_add. change (Z.of_nat 1) with 1. fold k.
    replace (k + 1 - 1) with k by lia.
    assert (E1 : 10 ^ k = 10 ^ (k - 1) * 10)
      by (replace k with (Z.succ (k - 1)) at 1 by lia; rewrite Z.pow_succ_r by lia; lia).
    assert (E2 : 10 ^ (k + 1) = 10 ^ k * 10) by (rewrite Z.pow_add_r by lia; lia).
    rewrite E2. rewrite E1 in *. Z.to_euclidean_division_equations. nia.
Qed.

Lemma strip_pos_spec a :
  0 < a -> let '(b, z) := strip_pos a in a = b * 10 ^ z /\ 0 < b /\ b mod 10 <> 0 /\ 0 <= z.
Proof.
  funelim (strip_pos a); intros Ha; [lia| |].
  - destruct (strip_pos (a / 10)) as [b z] eqn:E.
    assert (10 <= a) by (Z.to_euclidean_division_equations; lia).
    destruct H as (Hab & Hb & Hm & Hz); [apply Z.div_str_pos; lia|].
    repeat split; try lia. rewrite Z.pow_add_r, Z.mul_assoc, <- Hab by lia.
    Z.to_euclidean_division_equations. lia.
  - repeat split; lia.
Qed.

Lemma strip_pos_scale b z :
  0 < b -> b mod 10 <> 0 -> 0 <= z -> strip_pos (b * 10 ^ z) = (b, z).
Proof.
  intros Hb Hm Hz. pattern z. apply natlike_ind; [| |exact Hz].
  - rewrite Z.mul_1_r, strip_pos_eq.
    replace (b <=? 0) with false by (symmetry; apply Z.leb_gt; lia).
    replace (b mod 10 =? 0) with false by (symmetry; apply Z.eqb_neq; lia). reflexivity.
  - intros x Hx IH. pose proof (Z.pow_pos_nonneg 10 x ltac:(lia) Hx).
    rewrite strip_pos_eq, Z.pow_succ_r by lia.
    replace (b * (10 * 10 ^ x) <=? 0) with false by (symmetry; apply Z.leb_gt; nia).
    replace (b * (10 * 10 ^ x)) with (b * 10 ^ x * 10) by ring.
    rewrite Z_mod_mult, Z.div_mul, IH by lia. reflexivity.
Qed.

Lemma dnorm_scale m e j :
  0 <= j -> dnorm (Dec (m * 10 ^ j) (e - j)) = dnorm (Dec m e).
Proof.
  intros Hj. unfold dnorm, strip_zeros; cbn [mant ex].
  pose proof (Z.pow_pos_nonneg 10 j ltac:(lia) Hj).
  destruct (Z.eq_dec m 0) as [->|Hm]; [reflexivity|].
  replace (m * 10 ^ j =? 0) with false by (symmetry; apply Z.eqb_neq; nia).
  replace (m =? 0) with false by (symmetry; apply Z.eqb_neq; lia).
  pose proof (strip_pos_spec (Z.abs m) ltac:(lia)) as Hs.
  destruct (strip_pos (Z.abs m)) as [b z] eqn:E. destruct Hs as (Hab & Hb & Hmb & Hz).
  rewrite Z.abs_mul, (Z.abs_eq (10 ^ j)), Hab, <- Z.mul_assoc, <- Z.pow_add_r, strip_pos_scale by lia.
  rewrite Z.sgn_mul, (Z.sgn_pos (10 ^ j)) by lia. f_equal; lia.
Qed.

Lemma dnorm_canonical d : canonical d -> dnorm d = d.
Proof.
  destruct d as [m e]. unfold canonical, dnorm, strip_zeros; cbn [mant ex].
  intros [[-> ->]|Hm]; [reflexivity|].
  assert (Hm0 : m <> 0) by (intros ->; apply Hm; reflexivity).
  replace (m =? 0) with false by (symmetry; apply Z.eqb_neq; exact Hm0).
  assert (Habs : Z.abs m mod 10 <> 0) by (Z.to_euclidean_division_equations; lia).
  replace (Z.abs m) with (Z.abs m * 10 ^ 0) by lia.
  rewrite strip_pos_scale by lia.
  rewrite Z.add_0_r. f_equal. lia.
Qed.

Lemma radix_digit_unit d : 0 <= d < 10 -> radix_digit 10 (digit_unit d) = Some d.
Proof.
  intros Hd. unfold radix_digit. rewrite digit_value_unit by lia.
  replace (d <? 10) with true by (symmetry; apply Z.ltb_lt; lia). reflexivity.
Qed.

(** Reading back a string of decimal digits followed by a non-digit. *)
Lemma take_digits_units ds rest :
  Forall (fun d => 0 <= d < 10) ds ->
  match rest with c :: _ => radix_digit 10 c = None | [] => True end ->
  take_digits 10 (map digit_unit ds ++ rest) = (ds, rest).
Proof.
  intros Hds Hrest. induction Hds as [|d ds Hd Hds IH]; cbn.
  - destruct rest as [|c rest]; [reflexivity|]. cbn. now rewrite Hrest.
  - rewrite radix_digit_unit by exact Hd. rewrite IH. reflexivity.
Qed.

Lemma trim_start_nonspace c l : is_js_space c = false -> trim_start (c :: l) = c :: l.
Proof. intros Hc. cbn. now rewrite Hc. Qed.

(** The normal form of a non-zero integer mantissa. *)
Lemma dnorm_nonzero n e :
  n <> 0 ->
  exists b z, dnorm (Dec n e) = Dec (Z.sgn n * b) (e + z) /\ Z.abs n = b * 10 ^ z
              /\ 0 < b /\ b mod 10 <> 0 /\ 0 <= z.
Proof.
  intros Hn. unfold dnorm, strip_zeros; cbn [mant ex].
  replace (n =? 0) with false by (symmetry; apply Z.eqb_neq; exact Hn).
  pose proof (strip_pos_spec (Z.abs n) ltac:(lia)) as Hs.
  destruct (strip_pos (Z.abs n)) as [b z]. exists b, z. tauto.
Qed.

Lemma digits_length_le a k : 0 < a < 10 ^ k -> 0 <= k -> Z.of_nat (length (dec_digits a)) <= k.
Proof.
  intros Ha Hk. pose proof (dec_digits_length a ltac:(lia)) as [Hlo _].
  destruct (Z.le_gt_cases (Z.of_nat (length (dec_digits a))) k) as [|Hgt]; [assumption|].
  assert (10 ^ k <= 10 ^ (Z.of_nat (length (dec_digits a)) - 1)) by (apply Z.pow_le_mono_r; lia).
  lia.
Qed.

Lemma num_of_Z_small n : Z.abs n < 10 ^ 21 -> num_of_Z n = Fin (dnorm (Dec n 0)).
Proof.
  intros Hn. destruct (Z.eq_dec n 0) as [->|Hn0]; [reflexivity|].
  destruct (dnorm_nonzero n 0 Hn0) as (b & z & Hd & Habs & Hb & Hbm & Hz).
  unfold num_of_Z, num_of_dec. rewrite Hd.
  assert (Hlen : Z.of_nat (length (dec_digits (Z.abs n))) <= 21) by (apply digits_length_le; lia).
  rewrite Habs, dec_digits_scale, length_app, repeat_length in Hlen by lia.
  unfold overflows, underflows, ndigits; cbn [mant ex].
  replace (Z.abs (Z.sgn n * b)) with b by (destruct (Z.sgn_spec n) as [[? ->]|[[? ->]|[? ->]]]; lia).
  replace (Z.sgn n * b =? 0) with false by (symmetry; apply Z.eqb_neq; destruct (Z.sgn_spec n) as [[? ->]|[[? ->]|[? ->]]]; lia).
  rewrite Nat2Z.inj_add, Z2Nat.id in Hlen by lia.
  pose proof (Nat2Z.is_nonneg (length (dec_digits b))).
  replace (310 <? _) with false by (symmetry; apply Z.ltb_ge; lia).
  replace (_ <? 300) with true by (symmetry; apply Z.ltb_lt; lia).
  replace (_ <? -330) with false by (symmetry; apply Z.ltb_ge; lia).
  replace (-320 <? _) with true by (symmetry; apply Z.ltb_lt; lia).
  reflexivity.
Qed.

(** [Number::toString] of a non-zero integer below [10^21] is its decimal
    numeral, with a minus sign when negative. *)
Lemma num_to_string_int n :
  n <> 0 -> Z.abs n < 10 ^ 21 ->
  num_to_string (num_of_Z n) = JS ((if n <? 0 then [45] else []) ++ map digit_unit (dec_digits (Z.abs n))).
Proof.
  intros Hn0 Hn. rewrite num_of_Z_small by exact Hn.
  destruct (dnorm_nonzero n 0 Hn0) as (b & z & -> & Habs & Hb & Hbm & Hz).
  assert (Hlen : Z.of_nat (length (dec_digits (Z.abs n))) <= 21) by (apply digits_length_le; lia).
  rewrite Habs, dec_digits_scale, length_app, repeat_length, Nat2Z.inj_add, Z2Nat.id in Hlen by lia.
  assert (Hsgn : Z.abs (Z.sgn n * b) = b /\ (Z.sgn n * b =? 0) = false /\ (Z.sgn n * b <? 0) = (n <? 0)).
  { destruct (Z.sgn_spec n) as [[? ->]|[[? ->]|[? ->]]]; [| lia |].
    - repeat split; [lia | apply Z.eqb_neq; lia |].
      rewrite (proj2 (Z.ltb_ge _ 0)), (proj2 (Z.ltb_ge n 0)) by lia. reflexivity.
    - repeat split; [lia | apply Z.eqb_neq; lia |].
      rewrite (proj2 (Z.ltb_lt _ 0)), (proj2 (Z.ltb_lt n 0)) by lia. reflexivity. }
  destruct Hsgn as (Habs' & Heq0 & Hlt0).
  cbn [num_to_string mant]. rewrite Heq0, Hlt0.
  unfold dec_body; cbn [mant ex]. rewrite Habs', length_map, Habs, dec_digits_scale by lia.
  pose proof (Nat2Z.is_nonneg (length (dec_digits b))).
  replace ((Z.of_nat (length (dec_digits b)) <=? Z.of_nat (length (dec_digits b)) + (0 + z))
           && (Z.of_nat (length (dec_digits b)) + (0 + z) <=? 21)) with true
    by (symmetry; apply andb_true_iff; split; [apply Z.leb_le | apply Z.leb_le]; lia).
  replace (Z.of_nat (length (dec_digits b)) + (0 + z) - Z.of_nat (length (dec_digits b))) with z by lia.
  rewrite map_app, map_repeat. destruct (n <? 0); reflexivity.
Qed.

Lemma parse_int_radix_decimal c l : c <> 48 -> parse_int_radix (c :: l) = (10, c :: l).
Proof.
  intros Hc. unfold parse_int_radix. destruct l as [|x r]; [reflexivity|].
  replace (c =? 48) with false by (symmetry; apply Z.eqb_neq; exact Hc). reflexivity.
Qed.

Lemma trim_both_nonspace l : Forall (fun c => is_js_space c = false) l -> trim_both l = l.
Proof.
  assert (Ht : forall l, Forall (fun c => is_js_space c = false) l -> trim_start l = l).
  { intros [|c l'] Hl; [reflexivity|]. inversion Hl; subst. now apply trim_start_nonspace. }
  intros Hl. unfold trim_both. rewrite (Ht l Hl), (Ht (rev l)) by (apply Forall_rev; exact Hl).
  apply rev_involutive.
Qed.

Lemma dec_digits_abs_head n :
  n <> 0 -> exists d ds, dec_digits (Z.abs n) = d :: ds /\ 0 < d < 10.
Proof.
  intros Hn. destruct (dec_digits_head (Z.abs n) ltac:(lia)) as (d & ds & Hds & Hd).
  pose proof (dec_digits_range (Z.abs n) ltac:(lia)) as Hr. rewrite Hds in Hr.
  inversion Hr; subst. exists d, ds. split; [exact Hds | lia].
Qed.

Lemma take_digits_all a :
  0 <= a -> take_digits 10 (map digit_unit (dec_digits a)) = (dec_digits a, []).
Proof.
  intros Ha. rewrite <- (app_nil_r (map digit_unit _)).
  apply take_digits_units; [apply dec_digits_range; exact Ha | exact I].
Qed.

Lemma digit_unit_inj_48 d : 0 < d < 10 -> digit_unit d <> 48.
Proof. unfold digit_unit. lia. Qed.

Lemma sign_abs_eq n : (if n <? 0 then -1 else 1) * Z.abs n = n.
Proof. destruct (Z.ltb_spec n 0); lia. Qed.

Lemma int_units_nonspace n :
  Forall (fun c => is_js_space c = false)
         ((if n <? 0 then [45] else []) ++ map digit_unit (dec_digits (Z.abs n))).
Proof.
  apply Forall_app. split.
  - destruct (n <? 0); repeat constructor.
  - pose proof (dec_digits_range (Z.abs n) ltac:(lia)) as Hr.
    rewrite Stdlib.Lists.List.Forall_forall in Hr |- *. intros c Hc.
    apply in_map_iff in Hc as (d & <- & Hd). apply digit_unit_not_space, Hr, Hd.
Qed.

(** [parseInt(String(n))] gives [n] back for an integer below [10^21]. *)
Lemma parse_int_num_to_string n :
  Z.abs n < 10 ^ 21 -> parse_int (num_to_string (num_of_Z n)) = num_of_Z n.
Proof.
  intros Hn. destruct (Z.eq_dec n 0) as [->|Hn0]; [reflexivity|].
  rewrite num_to_string_int by assumption. unfold parse_int, parse_int_units; cbn [units].
  destruct (dec_digits_abs_head n Hn0) as (d & ds & HD & Hd).
  pose proof (dec_digits_range (Z.abs n) ltac:(lia)) as Hr.
  assert (Hsign : parse_int_sign (trim_start ((if n <? 0 then [45] else []) ++ map digit_unit (dec_digits (Z.abs n))))
                  = (if n <? 0 then -1 else 1, map digit_unit (dec_digits (Z.abs n)))).
  { rewrite HD. destruct (n <? 0); cbn [app map].
    - rewrite trim_start_nonspace by reflexivity. reflexivity.
    - rewrite trim_start_nonspace by (apply digit_unit_not_space; lia).
      unfold parse_int_sign.
      replace (digit_unit d =? 45) with false by (symmetry; apply Z.eqb_neq; unfold digit_unit; lia).
      replace (digit_unit d =? 43) with false by (symmetry; apply Z.eqb_neq; unfold digit_unit; lia).
      reflexivity. }
  assert (Hrad : parse_int_radix (map digit_unit (dec_digits (Z.abs n)))
                 = (10, map digit_unit (dec_digits (Z.abs n)))).
  { rewrite HD. cbn [map]. apply parse_int_radix_decimal, digit_unit_inj_48; lia. }
  rewrite Hsign, Hrad, take_digits_all by lia. rewrite HD. cbn -[horner num_of_dec].
  rewrite <- HD, horner_dec_digits, sign_abs_eq by lia. reflexivity.
Qed.

(** [Number(String(n))] gives [n] back for an integer below [10^21]. *)
Lemma string_to_number_num_to_string_int n :
  Z.abs n < 10 ^ 21 -> string_to_number (num_to_string (num_of_Z n)) = num_of_Z n.
Proof.
  intros Hn. destruct (Z.eq_dec n 0) as [->|Hn0]; [reflexivity|].
  rewrite num_to_string_int by assumption. unfold string_to_number; cbn [units].
  rewrite trim_both_nonspace by apply int_units_nonspace.
  destruct (dec_digits_abs_head n Hn0) as (d & ds & HD & Hd).
  pose proof (dec_digits_range (Z.abs n) ltac:(lia)) as Hr.
  assert (Hud : forall sign, unsigned_decimal sign (map digit_unit (dec_digits (Z.abs n)))
                             = Some (num_of_dec (Dec (sign * Z.abs n) 0))).
  { intros sign. unfold unsigned_decimal.
    rewrite bool_decide_eq_false_2
      by (rewrite HD; cbn; intros [= E _]; unfold digit_unit in E; lia).
    rewrite take_digits_all by lia. rewrite HD. cbn -[horner num_of_dec].
    rewrite app_nil_r, <- HD, horner_dec_digits by lia. reflexivity. }
  rewrite HD in Hud |- *. cbn [map] in Hud |- *.
  destruct (Z.ltb_spec n 0) as [Hneg|Hpos]; cbn [app].
  - rewrite (proj2 (Z.eqb_neq 45 48)), (proj2 (Z.eqb_neq 45 43)), Z.eqb_refl by lia.
    rewrite Hud. unfold num_of_Z. do 3 f_equal. lia.
  - rewrite (proj2 (Z.eqb_neq (digit_unit d) 48)), (proj2 (Z.eqb_neq (digit_unit d) 43)),
            (proj2 (Z.eqb_neq (digit_unit d) 45)) by (unfold digit_unit; lia).
    rewrite Hud. unfold num_of_Z. do 3 f_equal. lia.
Qed.

(** The normal form of an integer keeps its value. *)
Lemma dnorm_int_value a :
  mant (dnorm (Dec a 0)) * 10 ^ ex (dnorm (Dec a 0)) = a /\ 0 <= ex (dnorm (Dec a 0)).
Proof.
  destruct (Z.eq_dec a 0) as [->|Ha]; [cbn; lia|].
  destruct (dnorm_nonzero a 0 Ha) as (b & z & -> & Habs & Hb & _ & Hz). cbn [mant ex].
  rewrite Z.add_0_l. split; [|lia]. rewrite <- Z.mul_assoc, <- Habs.
  destruct (Z.sgn_spec a) as [[? ->]|[[? ->]|[? ->]]]; lia.
Qed.

Lemma dtrunc_int a : dtrunc (dnorm (Dec a 0)) = a.
Proof.
  destruct (dnorm_int_value a) as [Hv He]. unfold dtrunc.
  replace (0 <=? ex (dnorm (Dec a 0))) with true by (symmetry; apply Z.leb_le; exact He).
  exact Hv.
Qed.

Lemma dcompare_nonneg_ex d1 d2 :
  0 <= ex d1 -> 0 <= ex d2 ->
  dcompare d1 d2 = Z.compare (mant d1 * 10 ^ ex d1) (mant d2 * 10 ^ ex d2).
Proof.
  intros H1 H2. unfold dcompare. set (e := Z.min (ex d1) (ex d2)).
  assert (He : 0 <= e) by lia.
  assert (Hp : 0 < 10 ^ e) by (apply Z.pow_pos_nonneg; lia).
  assert (Hs1 : 10 ^ ex d1 = 10 ^ (ex d1 - e) * 10 ^ e) by (rewrite <- Z.pow_add_r by lia; f_equal; lia).
  assert (Hs2 : 10 ^ ex d2 = 10 ^ (ex d2 - e) * 10 ^ e) by (rewrite <- Z.pow_add_r by lia; f_equal; lia).
  rewrite Hs1, Hs2, !Z.mul_assoc.
  destruct (Z.compare_spec (mant d1 * 10 ^ (ex d1 - e)) (mant d2 * 10 ^ (ex d2 - e))); symmetry;
    [apply Z.compare_eq_iff | apply Z.compare_lt_iff | apply Z.compare_gt_iff]; nia.
Qed.

(** [a > b] on two integers below [10^21]. *)
Lemma num_gt_int a b :
  Z.abs a < 10 ^ 21 -> Z.abs b < 10 ^ 21 -> num_gt (num_of_Z a) (num_of_Z b) = (b <? a).
Proof.
  intros Ha Hb. rewrite !num_of_Z_small by assumption. cbn [num_gt].
  destruct (dnorm_int_value a) as [Hva Hea], (dnorm_int_value b) as [Hvb Heb].
  rewrite dcompare_nonneg_ex, Hva, Hvb by assumption.
  destruct (Z.compare_spec a b); destruct (Z.ltb_spec b a); try reflexivity; lia.
Qed.

Lemma num_truthy_int n : n <> 0 -> Z.abs n < 10 ^ 21 -> num_truthy (num_of_Z n) = true.
Proof.
  intros Hn0 Hn. rewrite num_of_Z_small by exact Hn. cbn [num_truthy].
  destruct (dnorm_int_value n) as [Hv _]. destruct (Z.eqb_spec (mant (dnorm (Dec n 0))) 0) as [He|]; [|reflexivity].
  rewrite He in Hv. lia.
Qed.

Lemma dec_body_nonempty d : dec_body d <> [].
Proof.
  unfold dec_body.
  destruct ((_ <=? _) && (_ <=? 21)).
  { intros Hc. apply app_eq_nil in Hc as [Hs _]. apply map_eq_nil in Hs.
    exact (dec_digits_nonempty _ Hs). }
  destruct ((0 <? _) && (_ <=? 21)).
  { intros Hc. apply app_eq_nil in Hc as [_ Hc]. discriminate. }
  destruct ((-6 <? _) && (_ <=? 0)); [discriminate|].
  destruct (map digit_unit _) as [|c [|c' rest]]; discriminate.
Qed.

(** [String(x)] is never the empty string. *)
Lemma num_to_string_nonempty x : units (num_to_string x) <> [].
Proof.
  destruct x as [| | |d]; try discriminate. cbn [num_to_string].
  destruct (mant d =? 0); [discriminate|].
  destruct (mant d <? 0); [discriminate|]. apply dec_body_nonempty.
Qed.


(** Subtraction on integers below [10^21]. *)
Lemma num_sub_int a b :
  Z.abs a < 10 ^ 21 -> Z.abs b < 10 ^ 21 -> num_sub (num_of_Z a) (num_of_Z b) = num_of_Z (a - b).
Proof.
  intros Ha Hb. rewrite !num_of_Z_small by assumption. cbn [num_sub num_neg num_add].
  destruct (dnorm_int_value a) as [Hva Hea], (dnorm_int_value b) as [Hvb Heb].
  set (da := dnorm (Dec a 0)) in *. set (db := dnorm (Dec b 0)) in *.
  unfold dadd; cbn [mant ex]. set (e := Z.min (ex da) (ex db)).
  set (M := mant da * 10 ^ (ex da - e) + - mant db * 10 ^ (ex db - e)).
  assert (He : 0 <= e) by lia.
  assert (HM : a - b = M * 10 ^ e).
  { subst M. rewrite <- Hva, <- Hvb.
    replace (10 ^ ex da) with (10 ^ (ex da - e) * 10 ^ e) by (rewrite <- Z.pow_add_r by lia; f_equal; lia).
    replace (10 ^ ex db) with (10 ^ (ex db - e) * 10 ^ e) by (rewrite <- Z.pow_add_r by lia; f_equal; lia).
    ring. }
  unfold num_of_Z, num_of_dec. rewrite HM.
  replace (Dec (M * 10 ^ e) 0) with (Dec (M * 10 ^ e) (e - e)) by (f_equal; lia).
  rewrite dnorm_scale by exact He. reflexivity.
Qed.
