(* ===== verification/JsValue.v ===== *)
(** * JavaScript values

    The values the modelled code manipulates: primitives and the plain
    arrays and objects that [JSON.parse] builds.  An object is its list of
    own properties in insertion order, with distinct keys.  The operations
    are the ECMA-262 ones the code uses: property access [v[k]] (TypeError
    on undefined and null), the [in] operator (TypeError on a primitive),
    [hasOwnProperty], [ToBoolean] (the tests [if (x)], [x ? a : b], [!x]),
    [ToString] (template literals, [parseInt]'s argument) and [ToNumber]
    (unary [+], [-], [Date]'s arguments).  Functions are not values of the
    model: the properties an object inherits from [Object.prototype] and
    [Array.prototype] are methods, and the code only reads data keys. *)

From Stdlib Require Import ZArith List Lia.
From stdpp Require Import base list.
From S2P Require Import Prelude JsString JsNumber.
Import ListNotations.
Open Scope Z_scope.
Open Scope jstr_scope.

#[warnings="-register-all"]
Inductive jsval :=
| JUndef
| JNull
| JBool (b : bool)
| JNum (n : jsnum)
| JStr (s : jstr)
| JArr (xs : list jsval)
| JObj (props : list (jstr * jsval)).

(** An induction principle that sees the values inside arrays and objects. *)
Section JsvalInd.
Variable P : jsval -> Prop.
Hypothesis HUndef : P JUndef.
Hypothesis HNull : P JNull.
Hypothesis HBool : forall b, P (JBool b).
Hypothesis HNum : forall n, P (JNum n).
Hypothesis HStr : forall s, P (JStr s).
Hypothesis HArr : forall xs, Forall P xs -> P (JArr xs).
Hypothesis HObj : forall ps, Forall (fun kv => P (snd kv)) ps -> P (JObj ps).

Fixpoint jsval_ind' (v : jsval) : P v :=
  match v with
  | JUndef => HUndef
  | JNull => HNull
  | JBool b => HBool b
  | JNum n => HNum n
  | JStr s => HStr s
  | JArr xs =>
      HArr xs ((fix go (l : list jsval) : Forall P l :=
                  match l with
                  | [] => @Stdlib.Lists.List.Forall_nil _ _
                  | x :: l' => @Stdlib.Lists.List.Forall_cons _ _ x l' (jsval_ind' x) (go l')
                  end) xs)
  | JObj ps =>
      HObj ps ((fix go (l : list (jstr * jsval)) : Forall (fun kv => P (snd kv)) l :=
                  match l with
                  | [] => @Stdlib.Lists.List.Forall_nil _ _
                  | kv :: l' => @Stdlib.Lists.List.Forall_cons _ _ kv l' (jsval_ind' (snd kv)) (go l')
                  end) ps)
  end.
End JsvalInd.

(** ** Own properties *)

Fixpoint assoc_lookup {A} (k : jstr) (ps : list (jstr * A)) : option A :=
  match ps with
  | [] => None
  | (k', v) :: ps' => if decide (k = k') then Some v else assoc_lookup k ps'
  end.

(** Writing the data property [k] of an object: an existing key keeps its
    place, a new one is appended. *)
Fixpoint assoc_set {A} (k : jstr) (x : A) (ps : list (jstr * A)) : list (jstr * A) :=
  match ps with
  | [] => [(k, x)]
  | (k', v) :: ps' => if decide (k = k') then (k', x) :: ps' else (k', v) :: assoc_set k x ps'
  end.

(** [k] read as an array index: the canonical decimal numeral of a
    natural number. *)
Definition array_index (k : jstr) : option nat :=
  match string_to_number k with
  | Fin d => if (0 <=? mant d) && (0 <=? ex d) && bool_decide (decimal_string (dtrunc d) = k)
             then Some (Z.to_nat (dtrunc d)) else None
  | _ => None
  end.

Definition length_key : jstr := "length".

(** The own property [k] of a value that is not undefined or null (for a
    string: its indices and [length], as a String exotic object). *)
Definition own_prop (v : jsval) (k : jstr) : option jsval :=
  match v with
  | JObj ps => assoc_lookup k ps
  | JArr xs =>
      if decide (k = length_key) then Some (JNum (num_of_Z (Z.of_nat (length xs))))
      else match array_index k with
           | Some i => xs !! i
           | None => None
           end
  | JStr s =>
      if decide (k = length_key) then Some (JNum (num_of_Z (Z.of_nat (jlength s))))
      else match array_index k with
           | Some i => (fun c => JStr (JS [c])) <$> units s !! i
           | None => None
           end
  | _ => None
  end.

(** [v[k]]: a TypeError on undefined and null, [undefined] for a missing
    key. *)
Definition get_prop (v : jsval) (k : jstr) : completion jsval :=
  match v with
  | JUndef | JNull => Throw TypeError
  | _ => Normal (match own_prop v k with Some x => x | None => JUndef end)
  end.

(** [v[k] = x] in strict code (the components are ES modules).  On an
    object the data property is written ([k] is not ["__proto__"]); on an
    array an index below the length is replaced and the index equal to the
    length appends, other keys (named properties, holes) are not
    represented and leave the array as it is; on a primitive, whose wrapper
    object cannot receive the property, a TypeError. *)
Definition set_prop (v : jsval) (k : jstr) (x : jsval) : completion jsval :=
  match v with
  | JObj ps => Normal (JObj (assoc_set k x ps))
  | JArr xs =>
      match array_index k with
      | Some i => Normal (JArr (if decide (i = length xs) then xs ++ [x] else <[i := x]> xs))
      | None => Normal (JArr xs)
      end
  | _ => Throw TypeError
  end.

(** [k in v]: a TypeError when [v] is not an object. *)
Definition has_property (k : jstr) (v : jsval) : completion bool :=
  match v with
  | JObj _ | JArr _ => Normal (if own_prop v k is Some _ then true else false)
  | _ => Throw TypeError
  end.

(** [v.hasOwnProperty(k)] on a value that is not undefined or null. *)
Definition has_own_property (v : jsval) (k : jstr) : bool :=
  if own_prop v k is Some _ then true else false.

(** ** Type conversions *)

Definition to_boolean (v : jsval) : bool :=
  match v with
  | JUndef | JNull => false
  | JBool b => b
  | JNum n => num_truthy n
  | JStr s => negb (bool_decide (units s = []))
  | JArr _ | JObj _ => true
  end.

Definition to_string_key : jstr := "toString".

Fixpoint join_comma (ss : list jstr) : jstr :=
  match ss with
  | [] => ""
  | [s] => s
  | s :: ss' => s +++ "," +++ join_comma ss'
  end.

(** [ToString].  An array is joined with commas, undefined and null
    elements giving the empty string.  A plain object gives
    ["[object Object]"]; an object with an own [toString] data property
    throws, since [ToPrimitive] finds neither a callable [toString] nor a
    primitive [valueOf]. *)
Fixpoint to_string (v : jsval) : completion jstr :=
  match v with
  | JUndef => Normal "undefined"
  | JNull => Normal "null"
  | JBool true => Normal "true"
  | JBool false => Normal "false"
  | JNum n => Normal (num_to_string n)
  | JStr s => Normal s
  | JArr xs =>
      let fix go (l : list jsval) : completion (list jstr) :=
        match l with
        | [] => Normal []
        | x :: l' =>
            let r := match x with
                     | JUndef | JNull => Normal ""
                     | _ => to_string x
                     end in
            cbind r (fun s => cbind (go l') (fun ss => Normal (s :: ss)))
        end in
      cmap join_comma (go xs)
  | JObj ps =>
      match assoc_lookup to_string_key ps with
      | Some _ => Throw TypeError
      | None => Normal "[object Object]"
      end
  end.

(** [ToNumber]. *)
Definition to_number (v : jsval) : completion jsnum :=
  match v with
  | JUndef => Normal NaN
  | JNull => Normal (Fin dzero)
  | JBool b => Normal (if b then num_of_Z 1 else Fin dzero)
  | JNum n => Normal n
  | JStr s => Normal (string_to_number s)
  | JArr _ | JObj _ => cmap string_to_number (to_string v)
  end.

(** The method call [v.toString()]: a TypeError on undefined and null, the
    prototype's [toString] otherwise (which is [ToString] on the values of
    the model, an own non-callable [toString] included). *)
Definition call_toString (v : jsval) : completion jstr :=
  match v with
  | JUndef | JNull => Throw TypeError
  | _ => to_string v
  end.

(** ** Lemmas on own properties *)

Lemma assoc_lookup_set_eq {A} k (x : A) ps : assoc_lookup k (assoc_set k x ps) = Some x.
Proof.
  induction ps as [|[k' v] ps IH]; cbn; [now rewrite decide_True|].
  destruct (decide (k = k')) as [->|Hne]; cbn; [now rewrite decide_True|].
  rewrite decide_False by exact Hne. exact IH.
Qed.

Lemma assoc_lookup_set_ne {A} k k' (x : A) ps :
  k' <> k -> assoc_lookup k' (assoc_set k x ps) = assoc_lookup k' ps.
Proof.
  intros Hne. induction ps as [|[k'' v] ps IH]; cbn.
  - now rewrite decide_False.
  - destruct (decide (k = k'')) as [->|Hk]; cbn; [now rewrite !decide_False by congruence|].
    destruct (decide (k' = k'')); [reflexivity | exact IH].
Qed.

Lemma assoc_set_keys {A} k (x : A) ps :
  assoc_lookup k ps <> None -> map fst (assoc_set k x ps) = map fst ps.
Proof.
  induction ps as [|[k' v] ps IH]; cbn; [congruence|].
  destruct (decide (k = k')) as [->|Hne]; cbn; [reflexivity|]. intros Hk. now rewrite IH.
Qed.

Lemma assoc_lookup_key_in {A} k (ps : list (jstr * A)) : k ∈ map fst ps -> assoc_lookup k ps <> None.
Proof.
  induction ps as [|[k' v] ps IH]; cbn; [now intros ?%elem_of_nil|].
  destruct (decide (k = k')) as [->|Hne]; [discriminate|].
  intros [->|Hk]%elem_of_cons; [congruence | exact (IH Hk)].
Qed.

Lemma assoc_set_Forall {A} (P : jstr -> A -> Prop) k (x : A) ps :
  Forall (fun kv => P kv.1 kv.2) ps -> P k x -> Forall (fun kv => P kv.1 kv.2) (assoc_set k x ps).
Proof.
  intros Hps Hx. induction Hps as [|[k' v] ps Hv Hps IH]; cbn; [now constructor|].
  destruct (decide (k = k')) as [->|Hne]; constructor; auto.
Qed.

#[export] Hint Rewrite @assoc_lookup_set_eq : js_simpl.
