(* ===== verification/Router.v ===== *)
(** * Router and console effects

    The Angular router is observed through the navigations the components
    request: [router.navigate(commands)] appends its command array (JS
    values, such as [['/orders', orderId]]) to a log.  [console.error]
    messages are logged likewise.  Both are effects of the framework, not
    of the repository; the components' handlers thread them as state. *)

From Stdlib Require Import List.
From stdpp Require Import base.
From S2P Require Import Prelude JsString JsValue.
Import ListNotations.
#[local] Open Scope jstr_scope.

Definition commands := list jsval.

(** Navigation requests, oldest first. *)
Definition nav_log := list commands.

Definition navigate (cmds : commands) (log : nav_log) : nav_log := log ++ [cmds].

(** The argument lists of the calls to [console.error], oldest first. *)
Definition console_log := list (list jsval).

Definition console_error (args : list jsval) (log : console_log) : console_log := log ++ [args].

(** The [id] parameter of the order-detail route [/orders/:id] (the
    spec's navigation contract; the route table is not in [src/]), as
    [this.route.snapshot.paramMap.get('id')] reads it after
    [router.navigate(['/orders', v])]: the URL segment [String(v)].  Other
    navigations do not reach that page ([None]).  Segments the URL
    serializer would escape are not modelled; numbers have none. *)
Definition order_route_id (c : commands) : option jstr :=
  match c with
  | [JStr p; v] =>
      if decide (p = "/orders") then match to_string v with Normal s => Some s | Throw _ => None end
      else None
  | _ => None
  end.
