(* ===== verification/JsDate.v ===== *)
(** * JavaScript dates

    A Date holds a time value: milliseconds since the epoch in UTC, or
    [NaN] for an invalid date.  This file follows ECMA-262 (21.4.1):
    [Day], [DayFromYear], [YearFromTime], [MonthFromTime], [DateFromTime],
    [MakeDay], [MakeDate], [TimeClip], the constructor [new Date(y, m, d)]
    with three arguments, the local getters [getFullYear], [getMonth],
    [getDate], and [setUTCSeconds] on [new Date(0)].  The local time zone is
    a fixed offset [tza] in milliseconds ([LocalTZA]); daylight-saving
    transitions are not modelled.  [YearFromTime] is computed from an
    estimate corrected by one year, and [year_from_day_spec] shows that the
    result is the year the standard defines. *)

From Stdlib Require Import ZArith List Lia Bool.
From stdpp Require Import base.
From S2P Require Import Prelude JsString JsNumber JsValue.
Open Scope Z_scope.

Definition msPerDay : Z := 86400000.

(** The largest magnitude of a time value ([TimeClip]). *)
Definition max_time_value : Z := 8640000000000000.

Definition day_from_year (y : Z) : Z :=
  365 * (y - 1970) + (y - 1969) / 4 - (y - 1901) / 100 + (y - 1601) / 400.

Definition leap_year (y : Z) : bool :=
  (y mod 4 =? 0) && (negb (y mod 100 =? 0) || (y mod 400 =? 0)).

(** The day within the year on which month [m] (0 to 11) starts; [12] gives
    the length of the year. *)
Definition month_start (m : Z) (leap : bool) : Z :=
  let l := if leap then 1 else 0 in
  if m =? 0 then 0 else if m =? 1 then 31 else if m =? 2 then 59 + l
  else if m =? 3 then 90 + l else if m =? 4 then 120 + l else if m =? 5 then 151 + l
  else if m =? 6 then 181 + l else if m =? 7 then 212 + l else if m =? 8 then 243 + l
  else if m =? 9 then 273 + l else if m =? 10 then 304 + l else if m =? 11 then 334 + l
  else 365 + l.

(** [YearFromTime] on a day number: the largest [y] with
    [DayFromYear(y) <= d]. *)
Definition year_from_day (d : Z) : Z :=
  let y0 := 1970 + (400 * d) / 146097 in
  if day_from_year (y0 + 1) <=? d then y0 + 1
  else if d <? day_from_year y0 then y0 - 1
  else y0.

(** [MonthFromTime] on a day within the year. *)
Definition month_in_year (dwy : Z) (leap : bool) : Z :=
  if dwy <? month_start 1 leap then 0 else if dwy <? month_start 2 leap then 1
  else if dwy <? month_start 3 leap then 2 else if dwy <? month_start 4 leap then 3
  else if dwy <? month_start 5 leap then 4 else if dwy <? month_start 6 leap then 5
  else if dwy <? month_start 7 leap then 6 else if dwy <? month_start 8 leap then 7
  else if dwy <? month_start 9 leap then 8 else if dwy <? month_start 10 leap then 9
  else if dwy <? month_start 11 leap then 10 else 11.

Definition month_of_day (d : Z) : Z :=
  let y := year_from_day d in month_in_year (d - day_from_year y) (leap_year y).

Definition date_of_day (d : Z) : Z :=
  let y := year_from_day d in
  let dwy := d - day_from_year y in
  dwy - month_start (month_in_year dwy (leap_year y)) (leap_year y) + 1.

(** [TimeClip] of an integral time value. *)
Definition time_clip (t : Z) : jsnum :=
  if max_time_value <? Z.abs t then NaN else num_of_Z t.

(** Steps 5 to 9 of [MakeDay] on integral arguments: the day number of
    day [dt] of month [m] (any integer, counted from January of year [y]). *)
Definition day_of_ymd (y m dt : Z) : Z :=
  let ym := y + m / 12 in
  let mn := m mod 12 in
  day_from_year ym + month_start mn (leap_year ym) + dt - 1.

(** [MakeDay(year, month, date)]. *)
Definition make_day (year month date : jsnum) : jsnum :=
  match year, month, date with
  | Fin y, Fin m, Fin dt => num_of_Z (day_of_ymd (dtrunc y) (dtrunc m) (dtrunc dt))
  | _, _, _ => NaN
  end.

(** [MakeDate(day, time)] for an integral [time]. *)
Definition make_date (day : jsnum) (time : Z) : jsnum :=
  match day with
  | Fin d => num_of_Z (dtrunc d * msPerDay + time)
  | _ => NaN
  end.

(** [TimeClip(UTC(t))] for a local time value [t]. *)
Definition utc_clip (tza : Z) (t : jsnum) : jsnum :=
  match t with
  | Fin d => time_clip (dtrunc d - tza)
  | _ => NaN
  end.

(** Step 4.h of the constructor: a year whose integral part is between
    0 and 99 denotes [1900 + yi]. *)
Definition year_adjust (y : jsnum) : jsnum :=
  match y with
  | NaN => NaN
  | _ => match to_integer_or_infinity y with
         | Fin yi => if (0 <=? dtrunc yi) && (dtrunc yi <=? 99) then num_of_Z (1900 + dtrunc yi) else y
         | _ => y
         end
  end.

(** [new Date(year, month, date)]: the time value of the new Date. *)
Definition new_date3 (tza : Z) (year month date : jsval) : completion jsnum :=
  cbind (to_number year) (fun y =>
  cbind (to_number month) (fun m =>
  cbind (to_number date) (fun dt =>
    Normal (utc_clip tza (make_date (make_day (year_adjust y) m dt) 0))))).

(** The local day number of a time value. *)
Definition local_day (tza : Z) (t : Z) : Z := (t + tza) / msPerDay.

Definition getFullYear (tza : Z) (t : jsnum) : jsnum :=
  match t with
  | Fin d => num_of_Z (year_from_day (local_day tza (dtrunc d)))
  | _ => NaN
  end.

Definition getMonth (tza : Z) (t : jsnum) : jsnum :=
  match t with
  | Fin d => num_of_Z (month_of_day (local_day tza (dtrunc d)))
  | _ => NaN
  end.

Definition getDate (tza : Z) (t : jsnum) : jsnum :=
  match t with
  | Fin d => num_of_Z (date_of_day (local_day tza (dtrunc d)))
  | _ => NaN
  end.

(** [new Date(0).setUTCSeconds(s)]: the time value of the result
    ([MakeTime] truncates [s], [TimeClip] bounds the result). *)
Definition epoch_plus_seconds (s : jsnum) : jsnum :=
  match s with
  | Fin d => time_clip (dtrunc d * 1000)
  | _ => NaN
  end.

(** ** Calendar lemmas *)

Lemma day_from_year_succ y :
  day_from_year (y + 1) = day_from_year y + (if leap_year y then 366 else 365).
Proof.
  unfold day_from_year, leap_year.
  destruct (Z.eqb_spec (y mod 4) 0), (Z.eqb_spec (y mod 100) 0), (Z.eqb_spec (y mod 400) 0);
    cbn; Z.to_euclidean_division_equations; lia.
Qed.

Lemma day_from_year_lt y1 y2 : y1 < y2 -> day_from_year y1 < day_from_year y2.
Proof. unfold day_from_year. intros. Z.to_euclidean_division_equations. lia. Qed.

Lemma year_estimate_bounds d :
  day_from_year (1970 + (400 * d) / 146097 - 1) <= d < day_from_year (1970 + (400 * d) / 146097 + 2).
Proof. unfold day_from_year. split; Z.to_euclidean_division_equations; lia. Qed.

(** [year_from_day] is [YearFromTime]: the day lies in the year it names. *)
Lemma year_from_day_spec d :
  day_from_year (year_from_day d) <= d < day_from_year (year_from_day d + 1).
Proof.
  pose proof (year_estimate_bounds d) as [Hlo Hhi]. unfold year_from_day.
  set (y0 := 1970 + (400 * d) / 146097) in *.
  destruct (Z.leb_spec (day_from_year (y0 + 1)) d).
  { split; [assumption|]. now replace (y0 + 1 + 1) with (y0 + 2) by lia. }
  destruct (Z.ltb_spec d (day_from_year y0)).
  { split; [assumption|]. now replace (y0 - 1 + 1) with y0 by lia. }
  lia.
Qed.

Lemma year_from_day_unique y d :
  day_from_year y <= d < day_from_year (y + 1) -> year_from_day d = y.
Proof.
  intros [Hlo Hhi]. pose proof (year_from_day_spec d) as [Hlo' Hhi'].
  destruct (Z.lt_total (year_from_day d) y) as [Hlt|[Heq|Hgt]]; [|exact Heq|].
  - assert (day_from_year (year_from_day d + 1) <= day_from_year y).
    { destruct (Z.eq_dec (year_from_day d + 1) y) as [<-|Hne]; [lia|].
      apply Z.lt_le_incl, day_from_year_lt. lia. }
    lia.
  - assert (day_from_year (y + 1) <= day_from_year (year_from_day d)).
    { destruct (Z.eq_dec (y + 1) (year_from_day d)) as [<-|Hne]; [lia|].
      apply Z.lt_le_incl, day_from_year_lt. lia. }
    lia.
Qed.

(** Decides the comparisons of a chain of [if]s whose outcome [lia] can
    tell. *)
Ltac decide_ltb_chain :=
  cbn;
  repeat first [ rewrite (proj2 (Z.ltb_ge _ _)) by lia
               | rewrite (proj2 (Z.ltb_lt _ _)) by lia
               | rewrite (proj2 (Z.eqb_neq _ _)) by lia
               | rewrite Z.eqb_refl ];
  cbn; try lia.

Lemma month_in_year_spec m dwy leap :
  0 <= m <= 11 -> month_start m leap <= dwy < month_start (m + 1) leap ->
  month_in_year dwy leap = m.
Proof.
  intros Hm Hd.
  assert (m = 0 \/ m = 1 \/ m = 2 \/ m = 3 \/ m = 4 \/ m = 5 \/ m = 6 \/ m = 7 \/ m = 8 \/ m = 9
          \/ m = 10 \/ m = 11) as Hcases by lia.
  unfold month_in_year, month_start in *.
  destruct leap; repeat match goal with H : _ \/ _ |- _ => destruct H end; subst;
    cbv [Z.add Pos.add Pos.succ] in Hd; cbn in Hd; decide_ltb_chain.
Qed.

Lemma month_start_mono m leap :
  0 <= m <= 11 -> 0 <= month_start m leap /\ month_start m leap < month_start (m + 1) leap
                  /\ month_start (m + 1) leap <= if leap then 366 else 365.
Proof.
  intros Hm.
  assert (m = 0 \/ m = 1 \/ m = 2 \/ m = 3 \/ m = 4 \/ m = 5 \/ m = 6 \/ m = 7 \/ m = 8 \/ m = 9
          \/ m = 10 \/ m = 11) as Hcases by lia.
  unfold month_start. destruct leap; repeat match goal with H : _ \/ _ |- _ => destruct H end;
    subst; cbv [Z.add Pos.add Pos.succ]; cbn; lia.
Qed.

(** The calendar components of the day [DayFromYear(y) + month start + d - 1]
    are [y], [m] and [d]. *)
Lemma day_components y m d :
  0 <= m <= 11 -> 1 <= d <= month_start (m + 1) (leap_year y) - month_start m (leap_year y) ->
  let D := day_from_year y + month_start m (leap_year y) + d - 1 in
  year_from_day D = y /\ month_of_day D = m /\ date_of_day D = d.
Proof.
  intros Hm Hd D. pose proof (month_start_mono m (leap_year y) Hm) as (H0 & H1 & H2).
  assert (Hy : year_from_day D = y).
  { apply year_from_day_unique. rewrite day_from_year_succ. subst D.
    destruct (leap_year y); lia. }
  unfold month_of_day, date_of_day. rewrite Hy.
  replace (D - day_from_year y) with (month_start m (leap_year y) + d - 1) by (subst D; lia).
  rewrite (month_in_year_spec m) by lia. split; [reflexivity|]. split; [reflexivity | lia].
Qed.


(** ** The constructor on integer arguments *)

Lemma num_of_Z_fin z : Z.abs z < 10 ^ 21 -> exists d, num_of_Z z = Fin d /\ dtrunc d = z.
Proof. intros Hz. rewrite num_of_Z_small by exact Hz. eexists. split; [reflexivity | apply dtrunc_int]. Qed.

Lemma year_adjust_int y :
  Z.abs y < 10 ^ 21 ->
  year_adjust (num_of_Z y) = if (0 <=? y) && (y <=? 99) then num_of_Z (1900 + y) else num_of_Z y.
Proof.
  intros Hy. destruct (num_of_Z_fin y Hy) as (d & Hd & Ht). rewrite Hd. cbn [year_adjust to_integer_or_infinity].
  rewrite Ht. destruct (num_of_Z_fin y Hy) as (d' & Hd' & Ht'). rewrite Hd', Ht'. reflexivity.
Qed.

Lemma make_day_int y m dt :
  Z.abs y < 10 ^ 21 -> Z.abs m < 10 ^ 21 -> Z.abs dt < 10 ^ 21 ->
  make_day (num_of_Z y) (num_of_Z m) (num_of_Z dt) = num_of_Z (day_of_ymd y m dt).
Proof.
  intros Hy Hm Hd.
  destruct (num_of_Z_fin y Hy) as (a & -> & Ha), (num_of_Z_fin m Hm) as (b & -> & Hb),
           (num_of_Z_fin dt Hd) as (c & -> & Hc).
  cbn [make_day]. now rewrite Ha, Hb, Hc.
Qed.

Lemma make_date_int D : Z.abs (D * msPerDay) < 10 ^ 21 -> make_date (num_of_Z D) 0 = num_of_Z (D * msPerDay).
Proof.
  intros HD. assert (Z.abs D < 10 ^ 21) by (unfold msPerDay in HD; lia).
  destruct (num_of_Z_fin D ltac:(assumption)) as (a & -> & Ha). cbn [make_date]. now rewrite Ha, Z.add_0_r.
Qed.

Lemma utc_clip_int tza T : Z.abs T < 10 ^ 21 -> utc_clip tza (num_of_Z T) = time_clip (T - tza).
Proof. intros HT. destruct (num_of_Z_fin T HT) as (a & -> & Ha). cbn [utc_clip]. now rewrite Ha. Qed.

Lemma local_day_of_utc tza D : local_day tza (D * msPerDay - tza) = D.
Proof.
  unfold local_day. replace (D * msPerDay - tza + tza) with (D * msPerDay) by lia.
  apply Z.div_mul. unfold msPerDay. lia.
Qed.

(** The time value a date of the supported range gets, and its bounds. *)
Lemma calendar_day_bounds y m d :
  -270000 <= y <= 270000 -> 0 <= m <= 11 ->
  1 <= d <= month_start (m + 1) (leap_year y) - month_start m (leap_year y) ->
  Z.abs (day_from_year y + month_start m (leap_year y) + d - 1) <= 99500000.
Proof.
  intros Hy Hm Hd. pose proof (month_start_mono m (leap_year y) Hm) as (H0 & H1 & H2).
  unfold day_from_year. destruct (leap_year y); Z.to_euclidean_division_equations; lia.
Qed.

Lemma day_of_ymd_bounds y m dt :
  Z.abs y <= 2 * 10 ^ 9 -> Z.abs m <= 10 ^ 9 -> Z.abs dt <= 10 ^ 9 ->
  Z.abs (day_of_ymd y m dt) <= 10 ^ 12.
Proof.
  intros Hy Hm Hd. unfold day_of_ymd.
  assert (Hmn : 0 <= m mod 12 <= 11) by (pose proof (Z.mod_pos_bound m 12); lia).
  pose proof (month_start_mono (m mod 12) (leap_year (y + m / 12)) Hmn) as (H0 & H1 & H2).
  unfold day_from_year. destruct (leap_year _); Z.to_euclidean_division_equations; lia.
Qed.

Lemma day_of_ymd_in_year y m d :
  0 <= m <= 11 -> day_of_ymd y m d = day_from_year y + month_start m (leap_year y) + d - 1.
Proof.
  intros Hm. unfold day_of_ymd. rewrite Z.div_small, Z.mod_small by lia. now rewrite Z.add_0_r.
Qed.

(** The local getters on the time value of local midnight of day [D]. *)
Lemma local_getters tza D :
  Z.abs (D * msPerDay - tza) < 10 ^ 21 ->
  let t := num_of_Z (D * msPerDay - tza) in
  getFullYear tza t = num_of_Z (year_from_day D) /\ getMonth tza t = num_of_Z (month_of_day D) /\
  getDate tza t = num_of_Z (date_of_day D).
Proof.
  intros HT t. destruct (num_of_Z_fin _ HT) as (a & Ha & Hta). subst t. rewrite Ha.
  cbn [getFullYear getMonth getDate]. rewrite Hta, local_day_of_utc. auto.
Qed.

(** The year the constructor uses for an integral year argument. *)
Definition full_year (y : Z) : Z := if (0 <=? y) && (y <=? 99) then 1900 + y else y.

(** [new Date(y, m, d)] on integral arguments, as one formula. *)
Lemma new_date3_int tza y m d :
  Z.abs y <= 10 ^ 9 -> Z.abs m <= 10 ^ 9 -> Z.abs d <= 10 ^ 9 -> Z.abs tza <= msPerDay ->
  new_date3 tza (JNum (num_of_Z y)) (JNum (num_of_Z m)) (JNum (num_of_Z d)) =
  Normal (time_clip (day_of_ymd (full_year y) m d * msPerDay - tza)).
Proof.
  intros Hy Hm Hd Htz. unfold new_date3. cbn [to_number cbind].
  rewrite year_adjust_int by lia. fold (full_year y).
  assert (Hfy : Z.abs (full_year y) <= 2 * 10 ^ 9)
    by (unfold full_year; destruct (_ && _); lia).
  assert (Hfy21 : Z.abs (full_year y) < 10 ^ 21) by lia.
  pose proof (day_of_ymd_bounds (full_year y) m d Hfy Hm Hd) as HD.
  replace (if (0 <=? y) && (y <=? 99) then num_of_Z (1900 + y) else num_of_Z y)
    with (num_of_Z (full_year y)) by (unfold full_year; now destruct (_ && _)).
  rewrite make_day_int by lia. rewrite make_date_int by (unfold msPerDay; lia).
  rewrite utc_clip_int by (unfold msPerDay; lia). reflexivity.
Qed.

Lemma full_year_range y : -270000 <= y <= 270000 -> -270000 <= full_year y <= 270000.
Proof. unfold full_year. destruct (Z.leb_spec 0 y), (Z.leb_spec y 99); cbn; lia. Qed.

(** [new Date(y, m, d)] for a calendar date of the range the constructor
    keeps, read back through the local getters: the year is [full_year y],
    the month and the date are [m] and [d]. *)
Lemma new_date3_components tza y m d :
  -270000 <= y <= 270000 -> 0 <= m <= 11 ->
  1 <= d <= month_start (m + 1) (leap_year (full_year y)) - month_start m (leap_year (full_year y)) ->
  Z.abs tza <= msPerDay ->
  exists t, new_date3 tza (JNum (num_of_Z y)) (JNum (num_of_Z m)) (JNum (num_of_Z d)) = Normal t /\
    getFullYear tza t = num_of_Z (full_year y) /\ getMonth tza t = num_of_Z m /\
    getDate tza t = num_of_Z d.
Proof.
  intros Hy Hm Hd Htz. pose proof (full_year_range y Hy) as Hfy.
  pose proof (month_start_mono m (leap_year (full_year y)) Hm) as (H0 & H1 & H2).
  rewrite new_date3_int by (try destruct (leap_year _); lia).
  rewrite day_of_ymd_in_year by exact Hm.
  pose proof (calendar_day_bounds (full_year y) m d Hfy Hm Hd) as HD.
  unfold time_clip. rewrite (proj2 (Z.ltb_ge _ _)) by (unfold max_time_value, msPerDay in *; lia).
  eexists. split; [reflexivity|].
  destruct (local_getters tza (day_from_year (full_year y) + month_start m (leap_year (full_year y)) + d - 1))
    as (Hy' & Hm' & Hd'); [unfold msPerDay in *; lia|].
  destruct (day_components (full_year y) m d Hm Hd) as (Ey & Em & Ed).
  rewrite Hy', Hm', Hd', Ey, Em, Ed. auto.
Qed.

(** ** NaN arguments *)

Lemma make_day_nan y m d : y = NaN \/ m = NaN \/ d = NaN -> make_day y m d = NaN.
Proof. intros [-> | [-> | ->]]; [reflexivity | destruct y; reflexivity | destruct y, m; reflexivity]. Qed.

(** A NaN among the converted arguments gives an invalid date, without an
    exception. *)
Lemma new_date3_nan tza y m d ny nm nd :
  to_number y = Normal ny -> to_number m = Normal nm -> to_number d = Normal nd ->
  ny = NaN \/ nm = NaN \/ nd = NaN -> new_date3 tza y m d = Normal NaN.
Proof.
  intros Hy Hm Hd Hnan. unfold new_date3. rewrite Hy, Hm, Hd. cbn [cbind].
  rewrite make_day_nan; [reflexivity|].
  destruct Hnan as [-> | Hnan]; [left; reflexivity | right; exact Hnan].
Qed.
