(* ===== verification/Storage.v ===== *)
(** * Web Storage ([window.localStorage])

    The persistent key-value area of the browser context, shared by every
    service of the client: [TokenService] keeps the token under
    ["access-token"], [OrderService] the latest order id under
    ["latestOrderId"], [UserService] the user record.  The class
    [WebStorage] is the part of the Storage interface the code calls
    ([getItem], [setItem], [removeItem]); [WebStorageLaws] is what the
    clients rely on; the instance on [gmap jstr jstr] discharges it. *)

From Stdlib Require Import ZArith List.
From stdpp Require Import base gmap.
From S2P Require Import Prelude JsString.

Class WebStorage (St : Type) := {
  getItem : jstr -> St -> option jstr;
  setItem : jstr -> jstr -> St -> St;
  removeItem : jstr -> St -> St
}.

Class WebStorageLaws (St : Type) `{WebStorage St} := {
  getItem_setItem_eq : forall k v s, getItem k (setItem k v s) = Some v;
  getItem_setItem_ne : forall k k' v s, k <> k' -> getItem k' (setItem k v s) = getItem k' s;
  getItem_removeItem_eq : forall k s, getItem k (removeItem k s) = None;
  getItem_removeItem_ne : forall k k' s, k <> k' -> getItem k' (removeItem k s) = getItem k' s
}.

#[export] Hint Rewrite @getItem_setItem_eq @getItem_removeItem_eq : js_simpl.

(** The storage area as a finite map. *)
#[export] Instance gmap_storage : WebStorage (gmap jstr jstr) := {
  getItem k s := s !! k;
  setItem k v s := <[k := v]> s;
  removeItem k s := delete k s
}.

#[export] Instance gmap_storage_laws : WebStorageLaws (gmap jstr jstr).
Proof.
  split; intros; cbn.
  - apply lookup_insert_eq.
  - by apply lookup_insert_ne.
  - apply lookup_delete_eq.
  - by apply lookup_delete_ne.
Qed.

Section Laws.
Context {St : Type} `{WebStorageLaws St}.

(** Removing a key twice is removing it once, as the observations of
    [getItem] see it. *)
Lemma removeItem_idem k k' (s : St) :
  getItem k' (removeItem k (removeItem k s)) = getItem k' (removeItem k s).
Proof.
  destruct (decide (k = k')) as [<-|Hne].
  - by rewrite !getItem_removeItem_eq.
  - by rewrite !getItem_removeItem_ne.
Qed.
End Laws.
