(* ===== verification/Json.v ===== *)
(** * JSON.parse

    [JSON.parse] over UTF-16 code units, following ECMA-404 and the
    [JSON.parse] algorithm of ECMA-262: whitespace is tab, line feed,
    carriage return and space; strings reject raw control characters and
    decode the eight one-letter escapes and the [\uXXXX] escape; numbers are
    [-?(0|[1-9][0-9]* )(.[0-9]+)?([eE][+-]?[0-9]+)?] and become Numbers by
    [num_of_dec]; an object with a repeated key keeps the last value.  Any
    other text is a [SyntaxError].  The mutual recursion is driven by fuel
    ([json_parse_with] takes it as a parameter, [json_parse] gives it
    [json_fuel]); [json_fuel] is enough for every input and more fuel changes nothing
    (theorem [json_parse_fuel], from [parse_fuel_enough] and
    [parse_fuel_mono] by induction on the fuel). *)

From Stdlib Require Import ZArith List Lia.
From stdpp Require Import base list.
From S2P Require Import Prelude JsString JsNumber JsValue.
Import ListNotations.
Open Scope Z_scope.
Open Scope jstr_scope.

(** The outcome of a parsing step: a value and the rest of the text, a
    syntax error, or exhausted fuel. *)
Inductive pres (A : Type) :=
| POk (a : A) (rest : list Z)
| PFail
| PFuel.
Arguments POk {A} a rest.
Arguments PFail {A}.
Arguments PFuel {A}.

Definition is_json_ws (c : Z) : bool := (c =? 9) || (c =? 10) || (c =? 13) || (c =? 32).

Fixpoint skip_ws (l : list Z) : list Z :=
  match l with
  | c :: l' => if is_json_ws c then skip_ws l' else l
  | [] => []
  end.

(** [l] starts with the code units of [p]: the rest. *)
Fixpoint strip_prefix (p l : list Z) : option (list Z) :=
  match p, l with
  | [], _ => Some l
  | c :: p', d :: l' => if c =? d then strip_prefix p' l' else None
  | _ :: _, [] => None
  end.

Definition hex4 (a b c d : Z) : option Z :=
  match radix_digit 16 a, radix_digit 16 b, radix_digit 16 c, radix_digit 16 d with
  | Some x, Some y, Some z, Some w => Some (((x * 16 + y) * 16 + z) * 16 + w)
  | _, _, _, _ => None
  end.

(** The characters of a string literal after its opening quote: the code
    units of the string and the text after the closing quote. *)
Definition json_escape (e : Z) : option Z :=
  if e =? 34 then Some 34 else if e =? 92 then Some 92
  else if e =? 47 then Some 47 else if e =? 98 then Some 8
  else if e =? 102 then Some 12 else if e =? 110 then Some 10
  else if e =? 114 then Some 13 else if e =? 116 then Some 9
  else None.

Fixpoint string_chars (l : list Z) : option (list Z * list Z) :=
  match l with
  | [] => None
  | c :: r =>
      if c =? 34 then Some ([], r)
      else if c =? 92 then
        match r with
        | [] => None
        | e :: r' =>
            let unit_rest :=
              if e =? 117 then
                match r' with
                | a :: b :: c' :: d :: r'' =>
                    match hex4 a b c' d with
                    | Some u => Some (u, string_chars r'')
                    | None => None
                    end
                | _ => None
                end
              else match json_escape e with
                   | Some u => Some (u, string_chars r')
                   | None => None
                   end in
            match unit_rest with
            | Some (u, Some (cs, rest)) => Some (u :: cs, rest)
            | _ => None
            end
        end
      else if c <? 32 then None
      else match string_chars r with
           | Some (cs, rest) => Some (c :: cs, rest)
           | None => None
           end
  end.

(** A JSON number at the head of [l]. *)
Definition json_number (l : list Z) : option (jsnum * list Z) :=
  let '(sign, l1) := match l with
                     | c :: r => if c =? 45 then (-1, r) else (1, l)
                     | [] => (1, l)
                     end in
  let int_part :=
    match l1 with
    | c :: r =>
        if c =? 48 then Some ([0], r)
        else match radix_digit 10 c with
             | Some _ => Some (take_digits 10 l1)
             | None => None
             end
    | [] => None
    end in
  match int_part with
  | None => None
  | Some (ids, l2) =>
      let frac :=
        match l2 with
        | c :: r =>
            if c =? 46 then
              match take_digits 10 r with
              | ((_ :: _) as fds, l3) => Some (fds, l3)
              | _ => None
              end
            else Some ([], l2)
        | [] => Some ([], l2)
        end in
      match frac with
      | None => None
      | Some (fds, l3) =>
          let expo :=
            match l3 with
            | c :: r =>
                if (c =? 101) || (c =? 69) then
                  let '(es, r1) := match r with
                                   | c' :: r' => if c' =? 43 then (1, r') else if c' =? 45 then (-1, r')
                                                 else (1, r)
                                   | [] => (1, r)
                                   end in
                  match take_digits 10 r1 with
                  | ((_ :: _) as eds, l4) => Some (es * horner 10 0 eds, l4)
                  | _ => None
                  end
                else Some (0, l3)
            | [] => Some (0, l3)
            end in
          match expo with
          | None => None
          | Some (x, l4) =>
              Some (num_of_dec (Dec (sign * horner 10 0 (ids ++ fds))
                                    (x - Z.of_nat (length fds))), l4)
          end
      end
  end.

(** Defining a property of a JSON object: a repeated key keeps its place
    and takes the new value. *)
Fixpoint add_prop (k : jstr) (v : jsval) (ps : list (jstr * jsval)) : list (jstr * jsval) :=
  match ps with
  | [] => [(k, v)]
  | (k', v') :: ps' => if decide (k = k') then (k, v) :: ps' else (k', v') :: add_prop k v ps'
  end.

(** The literals [true], [false], [null] and numbers. *)
Definition parse_literal (l : list Z) : pres jsval :=
  match strip_prefix (units "true") l with
  | Some rest => POk (JBool true) rest
  | None =>
  match strip_prefix (units "false") l with
  | Some rest => POk (JBool false) rest
  | None =>
  match strip_prefix (units "null") l with
  | Some rest => POk JNull rest
  | None =>
  match json_number l with
  | Some (n, rest) => POk (JNum n) rest
  | None => PFail
  end end end end.

Fixpoint parse_value (fuel : nat) (l : list Z) : pres jsval :=
  match fuel with
  | O => PFuel
  | S f =>
      match skip_ws l with
      | c :: r =>
          if c =? 123 then
            match skip_ws r with
            | c' :: r' => if c' =? 125 then POk (JObj []) r' else parse_members f [] r
            | [] => parse_members f [] r
            end
          else if c =? 91 then
            match skip_ws r with
            | c' :: r' => if c' =? 93 then POk (JArr []) r' else parse_elems f [] r
            | [] => parse_elems f [] r
            end
          else if c =? 34 then
            match string_chars r with
            | Some (cs, rest) => POk (JStr (JS cs)) rest
            | None => PFail
            end
          else parse_literal (c :: r)
      | [] => parse_literal []
      end
  end
(** The elements of an array after [[] or a comma. *)
with parse_elems (fuel : nat) (acc : list jsval) (l : list Z) : pres jsval :=
  match fuel with
  | O => PFuel
  | S f =>
      match parse_value f l with
      | POk v r =>
          match skip_ws r with
          | c :: r' =>
              if c =? 44 then parse_elems f (acc ++ [v]) r'
              else if c =? 93 then POk (JArr (acc ++ [v])) r'
              else PFail
          | [] => PFail
          end
      | PFail => PFail
      | PFuel => PFuel
      end
  end
(** The members of an object after [{] or a comma. *)
with parse_members (fuel : nat) (acc : list (jstr * jsval)) (l : list Z) : pres jsval :=
  match fuel with
  | O => PFuel
  | S f =>
      match skip_ws l with
      | c :: r =>
          if c =? 34 then
            match string_chars r with
            | Some (key, r1) =>
                match skip_ws r1 with
                | c1 :: r2 =>
                    if c1 =? 58 then
                      match parse_value f r2 with
                      | POk v r3 =>
                          let acc' := add_prop (JS key) v acc in
                          match skip_ws r3 with
                          | c3 :: r4 =>
                              if c3 =? 44 then parse_members f acc' r4
                              else if c3 =? 125 then POk (JObj acc') r4
                              else PFail
                          | [] => PFail
                          end
                      | PFail => PFail
                      | PFuel => PFuel
                      end
                    else PFail
                | [] => PFail
                end
            | None => PFail
            end
          else PFail
      | [] => PFail
      end
  end.

Definition json_fuel (l : list Z) : nat := 2 * length l + 2.

(** [JSON.parse(text)]: a value followed by whitespace only, the parser
    given the fuel [fuel (units text)]; [json_parse] gives it [json_fuel]. *)
Definition json_parse_with (fuel : list Z -> nat) (text : jstr) : completion jsval :=
  match parse_value (fuel (units text)) (units text) with
  | POk v rest => match skip_ws rest with
                  | [] => Normal v
                  | _ => Throw SyntaxError
                  end
  | _ => Throw SyntaxError
  end.

Abbreviation json_parse := (json_parse_with json_fuel).

(** ** The fuel is enough *)

Lemma skip_ws_length l : (length (skip_ws l) <= length l)%nat.
Proof. induction l as [|c l IH]; cbn; [lia|]. destruct (is_json_ws c); cbn; lia. Qed.

Lemma take_digits_length r l : (length (snd (take_digits r l)) <= length l)%nat.
Proof.
  induction l as [|c l IH]; cbn; [lia|].
  destruct (radix_digit r c); [|cbn; lia]. destruct (take_digits r l) as [ds rest]; cbn in *; lia.
Qed.

Lemma strip_prefix_length p l rest : strip_prefix p l = Some rest -> (length rest <= length l)%nat.
Proof.
  revert l. induction p as [|c p IH]; intros [|d l]; cbn; try congruence; try (intros [= <-]; cbn; lia).
  destruct (c =? d); [|discriminate]. intros H. specialize (IH l H). lia.
Qed.

Lemma string_chars_length l cs rest : string_chars l = Some (cs, rest) -> (length rest < length l)%nat.
Proof.
  revert cs rest. induction l as [l IH] using (induction_ltof1 _ (@length Z)); unfold ltof in IH.
  intros cs rest. destruct l as [|c r]; cbn; [discriminate|].
  destruct (c =? 34); [intros [= _ <-]; lia|].
  destruct (c =? 92).
  - destruct r as [|e r']; [discriminate|].
    destruct (e =? 117).
    + destruct r' as [|a [|b [|c' [|d r'']]]]; try discriminate.
      destruct (hex4 a b c' d); [|discriminate].
      destruct (string_chars r'') as [[cs' rest']|] eqn:E; [|discriminate].
      intros [= _ <-]. apply IH in E; cbn in *; lia.
    + destruct (json_escape e); [|discriminate].
      destruct (string_chars r') as [[cs' rest']|] eqn:E; [|discriminate].
      intros [= _ <-]. apply IH in E; cbn in *; lia.
  - destruct (c <? 32); [discriminate|].
    destruct (string_chars r) as [[cs' rest']|] eqn:E; [|discriminate].
    intros [= _ <-]. apply IH in E; cbn in *; lia.
Qed.

Lemma json_number_length l n rest : json_number l = Some (n, rest) -> (length rest <= length l)%nat.
Proof.
  unfold json_number. intros Hn.
  repeat match goal with
  | H : context [take_digits ?r ?x] |- _ =>
      let E := fresh in pose proof (take_digits_length r x) as E; destruct (take_digits r x) as [? ?];
      cbn [snd] in E
  | H : context [match ?x with _ => _ end] |- _ => destruct x eqn:?
  | H : context [if ?b then _ else _] |- _ => destruct b eqn:?
  end; try discriminate;
  repeat match goal with
  | H : (_, _) = (_, _) |- _ => injection H as ? ?; subst
  | H : Some _ = Some _ |- _ => injection H as ?; subst
  end; cbn in *; lia.
Qed.

Lemma parse_literal_length l v rest : parse_literal l = POk v rest -> (length rest <= length l)%nat.
Proof.
  unfold parse_literal.
  destruct (strip_prefix (units "true") l) eqn:E; [intros [= _ <-]; eapply strip_prefix_length, E|].
  destruct (strip_prefix (units "false") l) eqn:E'; [intros [= _ <-]; eapply strip_prefix_length, E'|].
  destruct (strip_prefix (units "null") l) eqn:E''; [intros [= _ <-]; eapply strip_prefix_length, E''|].
  destruct (json_number l) as [[n r]|] eqn:En; [intros [= _ <-]; eapply json_number_length, En | discriminate].
Qed.

(** Splits the parser's case analysis, recording how long the rests are. *)
Ltac json_cases :=
  repeat match goal with
  | |- context [skip_ws ?x] =>
      let E := fresh "Hws" in pose proof (skip_ws_length x) as E; destruct (skip_ws x)
  | |- context [string_chars ?x] =>
      let E := fresh "Hsc" in destruct (string_chars x) as [[? ?]|] eqn:E; [apply string_chars_length in E|]
  | |- context [if ?b then _ else _] => destruct b
  end; cbn [length] in *.

(** What a parse leaves is never longer than what it was given. *)
Lemma parse_rest_length n :
  (forall l v r, parse_value n l = POk v r -> (length r <= length l)%nat) /\
  (forall acc l v r, parse_elems n acc l = POk v r -> (length r <= length l)%nat) /\
  (forall acc l v r, parse_members n acc l = POk v r -> (length r <= length l)%nat).
Proof.
  induction n as [|f (IHv & IHe & IHm)]; [repeat split; discriminate|]. split; [|split].
  - intros l v r. cbn [parse_value]. json_cases; intros Hp;
      try (apply parse_literal_length in Hp; cbn [length] in *; lia);
      try (apply IHm in Hp; lia); try (apply IHe in Hp; lia); try (injection Hp as _ <-; lia); discriminate.
  - intros acc l v r. cbn [parse_elems].
    destruct (parse_value f l) as [v0 r0| |] eqn:Hv; try discriminate. apply IHv in Hv.
    json_cases; intros Hp; try (apply IHe in Hp; lia); try (injection Hp as _ <-; lia); discriminate.
  - intros acc l v r. cbn [parse_members]. json_cases; try discriminate.
    destruct (parse_value f _) as [v0 r0| |] eqn:Hv; try discriminate. apply IHv in Hv.
    json_cases; intros Hp; try (apply IHm in Hp; lia); try (injection Hp as _ <-; lia); discriminate.
Qed.

Lemma parse_literal_not_fuel l : parse_literal l <> PFuel.
Proof.
  unfold parse_literal.
  destruct (strip_prefix _ l); [discriminate|]. destruct (strip_prefix _ l); [discriminate|].
  destruct (strip_prefix _ l); [discriminate|]. destruct (json_number l) as [[? ?]|]; discriminate.
Qed.

(** Fuel [2 * length l + 2] is enough for a value, one more for the
    elements or members after an opening bracket. *)
Lemma parse_fuel_enough n :
  (forall l, (2 * length l + 2 <= n)%nat -> parse_value n l <> PFuel) /\
  (forall acc l, (2 * length l + 3 <= n)%nat -> parse_elems n acc l <> PFuel) /\
  (forall acc l, (2 * length l + 3 <= n)%nat -> parse_members n acc l <> PFuel).
Proof.
  pose proof parse_rest_length as Hrest.
  induction n as [|f (IHv & IHe & IHm)]; [repeat split; intros; lia|]. split; [|split].
  - intros l Hn. cbn [parse_value]. json_cases; try discriminate; try apply parse_literal_not_fuel;
      first [apply IHm; lia | apply IHe; lia].
  - intros acc l Hn. cbn [parse_elems].
    destruct (parse_value f l) as [v r| |] eqn:Hv; [| discriminate | exfalso; apply (IHv l); [lia | exact Hv]].
    apply (proj1 (Hrest f)) in Hv. json_cases; try discriminate. apply IHe. lia.
  - intros acc l Hn. cbn [parse_members]. json_cases; try discriminate.
    destruct (parse_value f _) as [v r| |] eqn:Hv; [| discriminate | exfalso; eapply IHv; [|exact Hv]; lia].
    apply (proj1 (Hrest f)) in Hv. json_cases; try discriminate. apply IHm. lia.
Qed.

(** More fuel does not change a result that did not run out of fuel. *)
Lemma parse_fuel_mono n :
  (forall l m, parse_value n l <> PFuel -> parse_value (n + m) l = parse_value n l) /\
  (forall acc l m, parse_elems n acc l <> PFuel -> parse_elems (n + m) acc l = parse_elems n acc l) /\
  (forall acc l m, parse_members n acc l <> PFuel -> parse_members (n + m) acc l = parse_members n acc l).
Proof.
  induction n as [|f (IHv & IHe & IHm)]; [repeat split; intros * Hf; exfalso; apply Hf; reflexivity|]. split; [|split].
  - intros l m Hf. cbn [Nat.add parse_value] in *. json_cases; try reflexivity; auto.
  - intros acc l m Hf. cbn [Nat.add parse_elems] in *.
    destruct (parse_value f l) as [v r| |] eqn:Hv; [| |congruence]; rewrite IHv by congruence; rewrite Hv;
      [json_cases; auto | reflexivity].
  - intros acc l m Hf. cbn [Nat.add parse_members] in *. json_cases; try reflexivity.
    destruct (parse_value f _) as [v r| |] eqn:Hv; [| |congruence]; rewrite IHv by congruence; rewrite Hv;
      [json_cases; auto | reflexivity].
Qed.

(** [JSON.parse] never runs out of fuel: [json_fuel] gives a result other
    than [PFuel], and any larger fuel gives the same result, so
    [json_parse] is the parser without a fuel bound. *)
Theorem json_parse_fuel l n :
  (json_fuel l <= n)%nat ->
  parse_value (json_fuel l) l <> PFuel /\ parse_value n l = parse_value (json_fuel l) l.
Proof.
  intros Hn. assert (Hen : parse_value (json_fuel l) l <> PFuel)
    by (apply (proj1 (parse_fuel_enough (json_fuel l))); unfold json_fuel; lia).
  split; [exact Hen|]. replace n with (json_fuel l + (n - json_fuel l))%nat by lia.
  exact (proj1 (parse_fuel_mono _) l _ Hen).
Qed.

(** Any fuel above [json_fuel] parses as [json_parse] does. *)
Lemma json_parse_with_enough (fuel : list Z -> nat) text :
  (json_fuel (units text) <= fuel (units text))%nat -> json_parse_with fuel text = json_parse text.
Proof. intros Hn. unfold json_parse_with. now rewrite (proj2 (json_parse_fuel _ _ Hn)). Qed.

Lemma json_parse_fuel_sample :
  (json_fuel (units "[1, 2]") <= 100)%nat /\
  parse_value (json_fuel (units "[1, 2]")) (units "[1, 2]") <> PFuel /\
  parse_value 100 (units "[1, 2]") = parse_value (json_fuel (units "[1, 2]")) (units "[1, 2]").
Proof.
  assert (H : (json_fuel (units "[1, 2]") <= 100)%nat) by (vm_compute; lia).
  split; [exact H | exact (json_parse_fuel (units "[1, 2]") 100 H)].
Defined.
