(* ===== verification/AngularJwt.v ===== *)
(** * The JWT helper ([JwtHelperService] of [@auth0/angular-jwt])

    [TokenService] decodes the token with the library's [JwtHelperService];
    the class [JwtHelper] is what it calls ([decodeToken] and
    [isTokenExpired] at the current time) and [JwtHelperLaws] what it
    relies on: a token that does not decode makes [isTokenExpired] throw
    the same error, and the empty token decodes to [null] and counts as
    expired.  The instance [angular_jwt] models the library's algorithm:
    the token must split on ["."] into three parts; the middle part is
    base64url-decoded ([urlBase64Decode]: [-] and [_] mapped to [+] and
    [/], padding restored, length 1 modulo 4 rejected; [b64decode]'s
    table loop, which skips characters outside the table; the bytes
    rendered as [%XX] escapes and passed to [decodeURIComponent], that is,
    decoded as UTF-8 with a [URIError] on an ill-formed sequence); an
    empty payload is an error; the payload text goes to [JSON.parse].
    [isTokenExpired] reads the [exp] claim through [hasOwnProperty], sets
    the seconds of [new Date(0)] to it ([setUTCSeconds]: [ToNumber],
    truncation, [TimeClip]) and answers [!(date > now)]; a token whose
    payload is falsy or has no own [exp] never expires. *)

From Stdlib Require Import ZArith List Lia.
From stdpp Require Import base list.
From S2P Require Import Prelude JsString JsNumber JsValue JsDate Json.
Import ListNotations.
Open Scope Z_scope.
Open Scope jstr_scope.

Class JwtHelper := {
  jwt_decodeToken : jstr -> completion jsval;
  jwt_isTokenExpired : Z -> jstr -> completion bool
}.

Class JwtHelperLaws `{JwtHelper} := {
  jwt_isTokenExpired_decode_error :
    forall now t e, jwt_decodeToken t = Throw e -> jwt_isTokenExpired now t = Throw e;
  jwt_decodeToken_empty : jwt_decodeToken "" = Normal JNull;
  jwt_isTokenExpired_empty : forall now, jwt_isTokenExpired now "" = Normal true
}.

(** ** [String.prototype.split] with a one-unit separator *)

Fixpoint split_aux (sep : Z) (l cur : list Z) : list (list Z) :=
  match l with
  | [] => [rev cur]
  | c :: l' => if c =? sep then rev cur :: split_aux sep l' [] else split_aux sep l' (c :: cur)
  end.

Definition split_on (sep : Z) (l : list Z) : list (list Z) := split_aux sep l [].

(** ** Base64 *)

(** [chars.indexOf(c)] for the table
    [ABCDEFGHIJKLMNOPQRSTUVWXYZabcdefghijklmnopqrstuvwxyz0123456789+/=]. *)
Definition b64_index (c : Z) : Z :=
  if (65 <=? c) && (c <=? 90) then c - 65
  else if (97 <=? c) && (c <=? 122) then c - 71
  else if (48 <=? c) && (c <=? 57) then c + 4
  else if c =? 43 then 62
  else if c =? 47 then 63
  else if c =? 61 then 64
  else -1.

(** The [for] loop of [b64decode]: [bc] counts the table characters read,
    [bs] accumulates the bits of the current group of four. *)
Fixpoint b64_loop (l : list Z) (bc bs : Z) : list Z :=
  match l with
  | [] => []
  | c :: l' =>
      let i := b64_index c in
      if i =? -1 then b64_loop l' bc bs
      else
        let bs' := if bc mod 4 =? 0 then i else bs * 64 + i in
        let bc' := bc + 1 in
        if bc mod 4 =? 0 then b64_loop l' bc' bs'
        else Z.land 255 (Z.shiftr bs' (Z.land (-2 * bc') 6)) :: b64_loop l' bc' bs'
  end.

(** [str.replace(/=+$/, '')]. *)
Definition strip_trailing_pad (l : list Z) : list Z :=
  let fix drop (r : list Z) := match r with
                              | 61 :: r' => drop r'
                              | _ => r
                              end in
  rev (drop (rev l)).

Definition b64decode (l : list Z) : completion (list Z) :=
  let s := strip_trailing_pad l in
  if Nat.eqb (length s mod 4) 1 then Throw Base64Error
  else Normal (b64_loop s 0 0).

(** ** UTF-8 ([decodeURIComponent] of the [%XX] escapes of the bytes) *)

Definition is_cont (b : Z) : bool := (128 <=? b) && (b <=? 191).

(** A code point as UTF-16 code units. *)
Definition utf16 (cp : Z) : list Z :=
  if cp <? 65536 then [cp]
  else [55296 + Z.shiftr (cp - 65536) 10; 56320 + Z.land (cp - 65536) 1023].

Fixpoint utf8_decode (bs : list Z) : completion (list Z) :=
  match bs with
  | [] => Normal []
  | b :: r =>
      if b <? 128 then cmap (cons b) (utf8_decode r)
      else if (194 <=? b) && (b <=? 223) then
        match r with
        | c1 :: r' =>
            if is_cont c1 then cmap (app (utf16 ((b - 192) * 64 + (c1 - 128)))) (utf8_decode r')
            else Throw URIError
        | [] => Throw URIError
        end
      else if (224 <=? b) && (b <=? 239) then
        match r with
        | c1 :: c2 :: r' =>
            let cp := ((b - 224) * 64 + (c1 - 128)) * 64 + (c2 - 128) in
            if is_cont c1 && is_cont c2 && (2048 <=? cp) && negb ((55296 <=? cp) && (cp <=? 57343))
            then cmap (app (utf16 cp)) (utf8_decode r')
            else Throw URIError
        | _ => Throw URIError
        end
      else if (240 <=? b) && (b <=? 244) then
        match r with
        | c1 :: c2 :: c3 :: r' =>
            let cp := (((b - 240) * 64 + (c1 - 128)) * 64 + (c2 - 128)) * 64 + (c3 - 128) in
            if is_cont c1 && is_cont c2 && is_cont c3 && (65536 <=? cp) && (cp <=? 1114111)
            then cmap (app (utf16 cp)) (utf8_decode r')
            else Throw URIError
        | _ => Throw URIError
        end
      else Throw URIError
  end.

Definition b64_decode_unicode (l : list Z) : completion (list Z) :=
  cbind (b64decode l) utf8_decode.

Definition url_base64_decode (l : list Z) : completion (list Z) :=
  let o := map (fun c => if c =? 45 then 43 else if c =? 95 then 47 else c) l in
  match (length o mod 4)%nat with
  | 0%nat => b64_decode_unicode o
  | 2%nat => b64_decode_unicode (o ++ [61; 61])
  | 3%nat => b64_decode_unicode (o ++ [61])
  | _ => Throw Base64Error
  end.

Definition exp_key : jstr := "exp".

(** ** decodeToken and isTokenExpired

    [JSON.parse] is the parser run with the fuel [fuel]; the instance
    [angular_jwt] gives it [json_fuel], which is enough for every payload
    ([session_fuel_enough] in [TokenService]). *)

Section Helper.
Variable fuel : list Z -> nat.

Definition decode_token_with (t : jstr) : completion jsval :=
  match units t with
  | [] => Normal JNull
  | l =>
      let parts := split_on 46 l in
      if negb (Nat.eqb (length parts) 3) then Throw JwtFormatError
      else cbind (url_base64_decode (nth 1 parts []))
                 (fun decoded => match decoded with
                                 | [] => Throw JwtFormatError
                                 | _ => json_parse_with fuel (JS decoded)
                                 end)
  end.

(** [getTokenExpirationDate]: the time value of the expiry, or [None]
    (the library's [null]) when the payload is falsy or has no own [exp]. *)
Definition get_token_expiration_date_with (t : jstr) : completion (option jsnum) :=
  cbind (decode_token_with t) (fun decoded =>
    if negb (to_boolean decoded) || negb (has_own_property decoded exp_key) then Normal None
    else cbind (get_prop decoded exp_key) (fun e =>
           cbind (to_number e) (fun secs => Normal (Some (epoch_plus_seconds secs))))).

(** [isTokenExpired(token)] with no offset, at time [now] (milliseconds
    since the epoch, the value of [new Date().valueOf()]). *)
Definition is_token_expired_with (now : Z) (t : jstr) : completion bool :=
  match units t with
  | [] => Normal true
  | _ =>
      cbind (get_token_expiration_date_with t) (fun date =>
        match date with
        | None => Normal false
        | Some tv => Normal (negb (num_gt tv (num_of_Z now)))
        end)
  end.

Definition angular_jwt_with : JwtHelper := {|
  jwt_decodeToken := decode_token_with;
  jwt_isTokenExpired := is_token_expired_with
|}.
End Helper.

Abbreviation decode_token := (decode_token_with json_fuel).
Abbreviation get_token_expiration_date := (get_token_expiration_date_with json_fuel).
Abbreviation is_token_expired := (is_token_expired_with json_fuel).

#[export] Instance angular_jwt : JwtHelper := angular_jwt_with json_fuel.

(** ** The library model satisfies the laws *)

#[export] Instance angular_jwt_laws : JwtHelperLaws.
Proof.
  split; cbn; [|reflexivity|reflexivity].
  intros now t e Hdec. unfold is_token_expired, get_token_expiration_date.
  destruct (units t) eqn:Ht.
  - unfold decode_token in Hdec. rewrite Ht in Hdec. discriminate.
  - rewrite Hdec. reflexivity.
Qed.

(** ** The fuel of [JSON.parse] *)

Lemma decode_token_fuel fuel t :
  (forall l, json_fuel l <= fuel l)%nat -> decode_token_with fuel t = decode_token t.
Proof.
  intros Hf. unfold decode_token_with. destruct (units t); [reflexivity|].
  destruct (negb _); [reflexivity|]. destruct (url_base64_decode _) as [d|]; cbn [cbind]; [|reflexivity].
  destruct d; [reflexivity|]. apply json_parse_with_enough, Hf.
Qed.

Lemma is_token_expired_fuel fuel now t :
  (forall l, json_fuel l <= fuel l)%nat -> is_token_expired_with fuel now t = is_token_expired now t.
Proof.
  intros Hf. unfold is_token_expired_with, get_token_expiration_date_with.
  now rewrite decode_token_fuel by exact Hf.
Qed.

(** ** Behaviour of the library model *)

Lemma is_token_expired_decoded now t v :
  units t <> [] -> decode_token t = Normal v ->
  is_token_expired now t =
  if negb (to_boolean v) || negb (has_own_property v exp_key) then Normal false
  else cbind (get_prop v exp_key) (fun e =>
         cbind (to_number e) (fun secs =>
           Normal (negb (num_gt (epoch_plus_seconds secs) (num_of_Z now))))).
Proof.
  intros Hne Hdec. unfold is_token_expired, get_token_expiration_date.
  destruct (units t) eqn:Ht; [contradiction|]. rewrite Hdec. cbn [cbind].
  destruct (negb (to_boolean v) || negb (has_own_property v exp_key)); [reflexivity|].
  destruct (get_prop v exp_key) as [e|]; cbn [cbind]; [|reflexivity].
  destruct (to_number e); reflexivity.
Qed.

(** With a numeric [exp] claim [E] (seconds), a token decoded to an
    object is expired exactly when [E * 1000 <= now]. *)
Theorem is_token_expired_numeric_exp now t ps E :
  units t <> [] -> decode_token t = Normal (JObj ps) ->
  assoc_lookup exp_key ps = Some (JNum (num_of_Z E)) ->
  Z.abs (E * 1000) <= max_time_value -> Z.abs now <= max_time_value ->
  is_token_expired now t = Normal (E * 1000 <=? now).
Proof.
  intros Hne Hdec Hexp HE Hnow. rewrite (is_token_expired_decoded now t _ Hne Hdec).
  unfold has_own_property; cbn [to_boolean own_prop negb orb get_prop cbind to_number].
  rewrite Hexp. cbn [negb orb cbind].
  assert (HE' : Z.abs E < 10 ^ 21) by (unfold max_time_value in HE; lia).
  rewrite (num_of_Z_small E HE'). cbn [cbind to_number epoch_plus_seconds]. rewrite dtrunc_int.
  unfold time_clip. replace (max_time_value <? Z.abs (E * 1000)) with false
    by (symmetry; apply Z.ltb_ge; exact HE).
  rewrite num_gt_int by (unfold max_time_value in *; lia).
  destruct (Z.leb_spec (E * 1000) now), (Z.ltb_spec now (E * 1000)); try reflexivity; lia.
Qed.

(** A token whose payload object has no own [exp] claim never expires. *)
Theorem is_token_expired_no_exp now t ps :
  units t <> [] -> decode_token t = Normal (JObj ps) ->
  assoc_lookup exp_key ps = None ->
  is_token_expired now t = Normal false.
Proof.
  intros Hne Hdec Hexp. rewrite (is_token_expired_decoded now t _ Hne Hdec).
  unfold has_own_property; cbn [to_boolean own_prop]. rewrite Hexp. reflexivity.
Qed.

(** A non-empty token that does not split into exactly three parts is
    rejected by [decodeToken] and, through it, by [isTokenExpired]. *)
Theorem decode_token_not_three_parts now t :
  units t <> [] -> length (split_on 46 (units t)) <> 3%nat ->
  decode_token t = Throw JwtFormatError /\ is_token_expired now t = Throw JwtFormatError.
Proof.
  intros Hne Hlen.
  assert (Hd : decode_token t = Throw JwtFormatError).
  { unfold decode_token. destruct (units t) as [|c l]; [contradiction|].
    destruct (Nat.eqb_spec (length (split_on 46 (c :: l))) 3); [contradiction | reflexivity]. }
  split; [exact Hd|]. exact (@jwt_isTokenExpired_decode_error angular_jwt angular_jwt_laws now t _ Hd).
Qed.

(** ** Sample tokens used by the witnesses *)

(** Payload [{"userId":42,"exp":1700000000}]. *)
Definition sample_token : jstr :=
  "eyJhbGciOiJIUzI1NiJ9.eyJ1c2VySWQiOjQyLCJleHAiOjE3MDAwMDAwMDB9.sig".
(** Payload [{"phoneNumber":"0123"}]: no [userId], no [exp]. *)
Definition sample_token_no_claims : jstr := "x.eyJwaG9uZU51bWJlciI6IjAxMjMifQ.y".
(** Payload [null]. *)
Definition sample_token_null : jstr := "x.bnVsbA.y".

Definition sample_claims : list (jstr * jsval) :=
  [("userId", JNum (num_of_Z 42)); ("exp", JNum (num_of_Z 1700000000))].
