(* ===== verification/TokenService.v ===== *)
(** * TokenService ([frontend/src/app/services/token.service.ts])

    The service's [localStorage] field is [document.defaultView?.localStorage]:
    the window's storage area, or undefined when there is no window.  It is
    modelled as [option St], [St] being the contents of the storage area the
    service shares with the rest of the client; the writes return the new
    contents.  [getUserId] and [isTokenExpired] read the token and call the
    JWT helper, given by the [JwtHelper] interface; they are modelled as
    completions since the helper can throw and the code does not catch. *)

From Stdlib Require Import ZArith List Lia.
From stdpp Require Import base list gmap.
From S2P Require Import Prelude JsString JsNumber JsValue JsDate Storage Json AngularJwt.
Import ListNotations.
Open Scope Z_scope.
Open Scope jstr_scope.

Module TokenService.
Section TokenService.
Context {St : Type} `{WebStorage St} `{JwtHelper}.

Definition TOKEN_KEY : jstr := "access-token".

Definition userId_key : jstr := "userId".

(** [this.localStorage?.getItem(this.TOKEN_KEY) ?? null] *)
Definition getToken (ls : option St) : option jstr :=
  match ls with
  | Some s => getItem TOKEN_KEY s
  | None => None
  end.

(** [this.localStorage?.setItem(this.TOKEN_KEY, token)] *)
Definition setToken (token : jstr) (ls : option St) : option St :=
  match ls with
  | Some s => Some (setItem TOKEN_KEY token s)
  | None => None
  end.

(** [this.localStorage?.removeItem(this.TOKEN_KEY)] *)
Definition removeToken (ls : option St) : option St :=
  match ls with
  | Some s => Some (removeItem TOKEN_KEY s)
  | None => None
  end.

(** [getUserId()]: [0] without a token (or with the empty, falsy, token);
    otherwise [parseInt(userObject['userId'])] when ['userId' in
    userObject], else [0]. *)
Definition getUserId (ls : option St) : completion jsnum :=
  match getToken ls with
  | None => Normal (num_of_Z 0)
  | Some token =>
      if bool_decide (units token = []) then Normal (num_of_Z 0)
      else
        cbind (jwt_decodeToken token) (fun userObject =>
        cbind (has_property userId_key userObject) (fun has =>
          if has then
            cbind (get_prop userObject userId_key) (fun claim =>
            cbind (to_string claim) (fun s => Normal (parse_int s)))
          else Normal (num_of_Z 0)))
  end.

(** [isTokenExpired()]: [token ? jwtHelperService.isTokenExpired(token) : false],
    at the time [now] of the call. *)
Definition isTokenExpired (now : Z) (ls : option St) : completion bool :=
  match getToken ls with
  | Some token =>
      if bool_decide (units token = []) then Normal false
      else jwt_isTokenExpired now token
  | None => Normal false
  end.
End TokenService.

Section TokenServiceProps.
Context {St : Type} `{WebStorageLaws St} `{JwtHelper}.

(** ** Storage *)

(** C32: storing a token and reading it back gives the same token, and the
    write touches no other key of the shared storage (the persisted
    latest order id survives a login). *)
Theorem setToken_getToken (s : St) (token : jstr) :
  getToken (setToken token (Some s)) = Some token /\
  forall k, k <> TOKEN_KEY ->
    getItem k (match setToken token (Some s) with Some s' => s' | None => s end) = getItem k s.
Proof.
  cbn. split; [apply getItem_setItem_eq|].
  intros k Hk. apply getItem_setItem_ne. congruence.
Qed.

(** [removeToken] leaves no token, removing twice leaves no token
    either, and no other key is touched. *)
Theorem removeToken_idempotent (ls : option St) :
  getToken (removeToken ls) = None /\ getToken (removeToken (removeToken ls)) = None /\
  forall k s, ls = Some s -> k <> TOKEN_KEY ->
    getItem k (match removeToken (removeToken ls) with Some s' => s' | None => s end) = getItem k s.
Proof.
  destruct ls as [s|]; cbn; [|repeat split; intros; congruence].
  rewrite !getItem_removeItem_eq. repeat split.
  intros k s' [= <-] Hk. rewrite !getItem_removeItem_ne by congruence. reflexivity.
Qed.

(** ** Session reads *)

(** C24: without a token (no key, or no window), the user id is [0] and
    the token is reported as not expired. *)
Theorem no_token_session (now : Z) (ls : option St) :
  getToken ls = None ->
  getUserId ls = Normal (num_of_Z 0) /\ isTokenExpired now ls = Normal false.
Proof. unfold getUserId, isTokenExpired. intros ->. split; reflexivity. Qed.

(** The empty token is falsy: it counts as no token. *)
Lemma empty_token_session (now : Z) (ls : option St) :
  getToken ls = Some "" ->
  getUserId ls = Normal (num_of_Z 0) /\ isTokenExpired now ls = Normal false.
Proof. unfold getUserId, isTokenExpired. intros ->. split; reflexivity. Qed.

(** The user id of a token whose payload is an object with a [userId]
    claim: [parseInt] of the claim's string form. *)
Lemma getUserId_claim (ls : option St) token ps claim s :
  getToken ls = Some token -> units token <> [] ->
  jwt_decodeToken token = Normal (JObj ps) ->
  assoc_lookup userId_key ps = Some claim ->
  to_string claim = Normal s ->
  getUserId ls = Normal (parse_int s).
Proof.
  intros Ht Hne Hdec Hk Hs. unfold getUserId. rewrite Ht, bool_decide_eq_false_2 by exact Hne.
  rewrite Hdec. cbn [cbind has_property own_prop get_prop]. rewrite Hk. cbn [cbind]. rewrite Hs. reflexivity.
Qed.

(** C25: a numeric [userId] claim below [10^21] is the user id. *)
Theorem getUserId_numeric_claim (ls : option St) token ps n :
  getToken ls = Some token -> units token <> [] ->
  jwt_decodeToken token = Normal (JObj ps) ->
  assoc_lookup userId_key ps = Some (JNum (num_of_Z n)) ->
  Z.abs n < 10 ^ 21 ->
  getUserId ls = Normal (num_of_Z n).
Proof.
  intros Ht Hne Hdec Hk Hn.
  rewrite (getUserId_claim ls token ps (JNum (num_of_Z n)) _ Ht Hne Hdec Hk eq_refl).
  now rewrite parse_int_num_to_string.
Qed.

(** C26: a payload object without a [userId] claim gives the user id [0]. *)
Theorem getUserId_missing_claim (ls : option St) token ps :
  getToken ls = Some token -> units token <> [] ->
  jwt_decodeToken token = Normal (JObj ps) ->
  assoc_lookup userId_key ps = None ->
  getUserId ls = Normal (num_of_Z 0).
Proof.
  intros Ht Hne Hdec Hk. unfold getUserId. rewrite Ht, bool_decide_eq_false_2 by exact Hne.
  rewrite Hdec. cbn [cbind has_property own_prop]. rewrite Hk. reflexivity.
Qed.

(** C27: a payload that decodes to a primitive ([null], a number, a
    string, a boolean) makes [getUserId] throw a TypeError: the [in]
    operator needs an object. *)
Theorem getUserId_primitive_payload (ls : option St) token v :
  getToken ls = Some token -> units token <> [] ->
  jwt_decodeToken token = Normal v ->
  (match v with JObj _ | JArr _ => False | _ => True end) ->
  getUserId ls = Throw TypeError.
Proof.
  intros Ht Hne Hdec Hv. unfold getUserId. rewrite Ht, bool_decide_eq_false_2 by exact Hne.
  rewrite Hdec. destruct v; try contradiction; reflexivity.
Qed.

(** C28: A numeric [userId] claim of [10^21] is read back as [1]:
    [String(1e21)] is ["1e+21"] and [parseInt] stops at the ["e"]. *)
Theorem getUserId_exponent_claim (ls : option St) token ps :
  getToken ls = Some token -> units token <> [] ->
  jwt_decodeToken token = Normal (JObj ps) ->
  assoc_lookup userId_key ps = Some (JNum (num_of_Z (10 ^ 21))) ->
  getUserId ls = Normal (num_of_Z 1).
Proof.
  intros Ht Hne Hdec Hk.
  rewrite (getUserId_claim ls token ps _ _ Ht Hne Hdec Hk eq_refl). vm_compute. reflexivity.
Qed.

(** A token that does not decode: [getUserId] throws the decoder's error. *)
Lemma getUserId_decode_error (ls : option St) token e :
  getToken ls = Some token -> units token <> [] ->
  jwt_decodeToken token = Throw e -> getUserId ls = Throw e.
Proof.
  intros Ht Hne Hdec. unfold getUserId. rewrite Ht, bool_decide_eq_false_2 by exact Hne.
  rewrite Hdec. reflexivity.
Qed.

Lemma isTokenExpired_token (now : Z) (ls : option St) token :
  getToken ls = Some token -> units token <> [] ->
  isTokenExpired now ls = jwt_isTokenExpired now token.
Proof.
  intros Ht Hne. unfold isTokenExpired. now rewrite Ht, bool_decide_eq_false_2 by exact Hne.
Qed.
End TokenServiceProps.

(** ** The fuel of [JSON.parse] *)

Section Fuel.
Context {St : Type} `{WebStorage St}.

(** Adequacy of the fuel of the model: the bound on the recursion of
    [JSON.parse] never shows in the session: run with any fuel at least [json_fuel], the helper gives
    [getUserId()] and [isTokenExpired()] the answers it gives with
    [json_fuel], for every storage, token and time, so those answers are
    the ones of the parser's unbounded recursion, which [json_fuel] never
    exhausts ([json_parse_fuel]). *)
Theorem session_fuel_enough (ls : option St) now fuel :
  (forall l, json_fuel l <= fuel l)%nat ->
  @getUserId St _ (angular_jwt_with fuel) ls = @getUserId St _ angular_jwt ls /\
  @isTokenExpired St _ (angular_jwt_with fuel) now ls = @isTokenExpired St _ angular_jwt now ls.
Proof.
  intros Hf. unfold getUserId, isTokenExpired. cbn [jwt_decodeToken jwt_isTokenExpired angular_jwt angular_jwt_with].
  destruct (getToken ls) as [token|]; [|split; reflexivity].
  now rewrite decode_token_fuel, is_token_expired_fuel by exact Hf.
Qed.
End Fuel.

(** ** Witnesses, on the browser's storage and the angular-jwt helper *)

(** A storage area holding the token [t]. *)
Definition storage_with_token (t : jstr) : gmap jstr jstr := <[TOKEN_KEY := t]> ∅.

Lemma setToken_getToken_witness :
  getToken (setToken "tok" (Some (∅ : gmap jstr jstr))) = Some "tok" /\
  forall k, k <> TOKEN_KEY ->
    getItem k (match setToken "tok" (Some (∅ : gmap jstr jstr)) with Some s' => s' | None => ∅ end)
    = getItem k (∅ : gmap jstr jstr).
Proof. exact (setToken_getToken ∅ "tok"). Defined.

Lemma removeToken_idempotent_witness :
  let ls := Some (storage_with_token "tok") in
  getToken (removeToken ls) = None /\ getToken (removeToken (removeToken ls)) = None /\
  forall k s, ls = Some s -> k <> TOKEN_KEY ->
    getItem k (match removeToken (removeToken ls) with Some s' => s' | None => s end) = getItem k s.
Proof. exact (removeToken_idempotent (Some (storage_with_token "tok"))). Defined.

Lemma no_token_session_witness :
  getToken (Some (∅ : gmap jstr jstr)) = None /\
  getUserId (Some (∅ : gmap jstr jstr)) = Normal (num_of_Z 0) /\
  isTokenExpired 0 (Some (∅ : gmap jstr jstr)) = Normal false.
Proof.
  assert (Ht : getToken (Some (∅ : gmap jstr jstr)) = None) by reflexivity.
  split; [exact Ht|]. exact (no_token_session 0 (Some ∅) Ht).
Defined.

Lemma getUserId_numeric_claim_witness :
  let ls := Some (storage_with_token sample_token) in
  getToken ls = Some sample_token /\ units sample_token <> [] /\
  jwt_decodeToken sample_token = Normal (JObj sample_claims) /\
  assoc_lookup userId_key sample_claims = Some (JNum (num_of_Z 42)) /\ Z.abs 42 < 10 ^ 21 /\
  getUserId ls = Normal (num_of_Z 42).
Proof.
  assert (Ht : getToken (Some (storage_with_token sample_token)) = Some sample_token) by reflexivity.
  assert (Hne : units sample_token <> []) by discriminate.
  assert (Hd : jwt_decodeToken sample_token = Normal (JObj sample_claims)) by (vm_compute; reflexivity).
  assert (Hk : assoc_lookup userId_key sample_claims = Some (JNum (num_of_Z 42))) by (vm_compute; reflexivity).
  assert (Hb : Z.abs 42 < 10 ^ 21) by lia.
  split; [exact Ht|]. split; [exact Hne|]. split; [exact Hd|]. split; [exact Hk|]. split; [exact Hb|].
  exact (getUserId_numeric_claim _ sample_token sample_claims 42 Ht Hne Hd Hk Hb).
Defined.

Lemma getUserId_missing_claim_witness :
  let ls := Some (storage_with_token sample_token_no_claims) in
  let ps := [("phoneNumber", JStr "0123")] in
  getToken ls = Some sample_token_no_claims /\ units sample_token_no_claims <> [] /\
  jwt_decodeToken sample_token_no_claims = Normal (JObj ps) /\
  assoc_lookup userId_key ps = None /\ getUserId ls = Normal (num_of_Z 0).
Proof.
  assert (Ht : getToken (Some (storage_with_token sample_token_no_claims)) = Some sample_token_no_claims)
    by reflexivity.
  assert (Hne : units sample_token_no_claims <> []) by discriminate.
  assert (Hd : jwt_decodeToken sample_token_no_claims = Normal (JObj [("phoneNumber", JStr "0123")]))
    by (vm_compute; reflexivity).
  assert (Hk : assoc_lookup userId_key [("phoneNumber", JStr "0123")] = None) by (vm_compute; reflexivity).
  split; [exact Ht|]. split; [exact Hne|]. split; [exact Hd|]. split; [exact Hk|].
  exact (getUserId_missing_claim _ sample_token_no_claims _ Ht Hne Hd Hk).
Defined.

Lemma getUserId_primitive_payload_witness :
  let ls := Some (storage_with_token sample_token_null) in
  getToken ls = Some sample_token_null /\ units sample_token_null <> [] /\
  jwt_decodeToken sample_token_null = Normal JNull /\ getUserId ls = Throw TypeError.
Proof.
  assert (Ht : getToken (Some (storage_with_token sample_token_null)) = Some sample_token_null) by reflexivity.
  assert (Hne : units sample_token_null <> []) by discriminate.
  assert (Hd : jwt_decodeToken sample_token_null = Normal JNull) by (vm_compute; reflexivity).
  split; [exact Ht|]. split; [exact Hne|]. split; [exact Hd|].
  exact (getUserId_primitive_payload _ sample_token_null JNull Ht Hne Hd I).
Defined.

(** A token whose payload is [{"userId":1000000000000000000000,"exp":1700000000}]. *)
Definition sample_token_big_id : jstr :=
  "x.eyJ1c2VySWQiOjEwMDAwMDAwMDAwMDAwMDAwMDAwMDAsImV4cCI6MTcwMDAwMDAwMH0.y".

Lemma getUserId_exponent_claim_witness :
  getUserId (Some (storage_with_token sample_token_big_id)) = Normal (num_of_Z 1).
Proof.
  apply (getUserId_exponent_claim _ sample_token_big_id
           [("userId", JNum (num_of_Z (10 ^ 21))); ("exp", JNum (num_of_Z 1700000000))]);
    [reflexivity | discriminate | vm_compute; reflexivity | vm_compute; reflexivity].
Defined.

(** ** With the angular-jwt helper *)

Section WithAngularJwt.
Variable s : gmap jstr jstr.
Variable token : jstr.
Hypothesis Hstored : s !! TOKEN_KEY = Some token.
Hypothesis Hnonempty : units token <> [].

Let Hget : getToken (Some s) = Some token := Hstored.

(** C29: with a stored token whose payload object has a numeric [exp]
    claim [E] (seconds), [isTokenExpired()] answers [E * 1000 <= now]. *)
Theorem isTokenExpired_numeric_exp now ps E :
  decode_token token = Normal (JObj ps) ->
  assoc_lookup exp_key ps = Some (JNum (num_of_Z E)) ->
  Z.abs (E * 1000) <= max_time_value -> Z.abs now <= max_time_value ->
  isTokenExpired now (Some s) = Normal (E * 1000 <=? now).
Proof.
  intros Hdec Hexp HE Hnow. rewrite (isTokenExpired_token now _ token Hget Hnonempty).
  exact (is_token_expired_numeric_exp now token ps E Hnonempty Hdec Hexp HE Hnow).
Qed.

(** C30: a stored token whose payload object has no own [exp] claim is
    never reported as expired. *)
Theorem isTokenExpired_no_exp now ps :
  decode_token token = Normal (JObj ps) -> assoc_lookup exp_key ps = None ->
  isTokenExpired now (Some s) = Normal false.
Proof.
  intros Hdec Hexp. rewrite (isTokenExpired_token now _ token Hget Hnonempty).
  exact (is_token_expired_no_exp now token ps Hnonempty Hdec Hexp).
Qed.

(** C31: a stored token that does not split on ["."] into three parts
    makes both [isTokenExpired()] and [getUserId()] throw the helper's
    format error. *)
Theorem session_malformed_token now :
  length (split_on 46 (units token)) <> 3%nat ->
  isTokenExpired now (Some s) = Throw JwtFormatError /\ getUserId (Some s) = Throw JwtFormatError.
Proof.
  intros Hlen. destruct (decode_token_not_three_parts now token Hnonempty Hlen) as [Hd He].
  split.
  - rewrite (isTokenExpired_token now _ token Hget Hnonempty). exact He.
  - exact (getUserId_decode_error _ token _ Hget Hnonempty Hd).
Qed.

(** The session of a stored token whose payload object has numeric
    [userId] and [exp] claims: expired when [E * 1000 <= now], user id
    [uid]. *)
Lemma session_numeric_claims now ps uid E :
  decode_token token = Normal (JObj ps) ->
  assoc_lookup userId_key ps = Some (JNum (num_of_Z uid)) -> Z.abs uid < 10 ^ 21 ->
  assoc_lookup exp_key ps = Some (JNum (num_of_Z E)) ->
  Z.abs (E * 1000) <= max_time_value -> Z.abs now <= max_time_value ->
  isTokenExpired now (Some s) = Normal (E * 1000 <=? now) /\ getUserId (Some s) = Normal (num_of_Z uid).
Proof.
  intros Hdec Huid Hb Hexp HE Hnow. split.
  - rewrite (isTokenExpired_token now _ token Hget Hnonempty).
    exact (is_token_expired_numeric_exp now token ps E Hnonempty Hdec Hexp HE Hnow).
  - assert (Hdec' : jwt_decodeToken token = Normal (JObj ps)) by exact Hdec.
    rewrite (getUserId_claim (Some s) token ps _ _ Hget Hnonempty Hdec' Huid eq_refl).
    now rewrite parse_int_num_to_string by exact Hb.
Qed.
End WithAngularJwt.

Lemma isTokenExpired_numeric_exp_witness :
  storage_with_token sample_token !! TOKEN_KEY = Some sample_token /\ units sample_token <> [] /\
  decode_token sample_token = Normal (JObj sample_claims) /\
  assoc_lookup exp_key sample_claims = Some (JNum (num_of_Z 1700000000)) /\
  Z.abs (1700000000 * 1000) <= max_time_value /\ Z.abs 1600000000000 <= max_time_value /\
  isTokenExpired 1600000000000 (Some (storage_with_token sample_token)) = Normal (1700000000 * 1000 <=? 1600000000000).
Proof.
  assert (Hs : storage_with_token sample_token !! TOKEN_KEY = Some sample_token) by reflexivity.
  assert (Hne : units sample_token <> []) by discriminate.
  assert (Hd : decode_token sample_token = Normal (JObj sample_claims)) by (vm_compute; reflexivity).
  assert (He : assoc_lookup exp_key sample_claims = Some (JNum (num_of_Z 1700000000))) by (vm_compute; reflexivity).
  assert (HE : Z.abs (1700000000 * 1000) <= max_time_value) by (vm_compute; discriminate).
  assert (Hn : Z.abs 1600000000000 <= max_time_value) by (vm_compute; discriminate).
  do 6 (split; [assumption|]).
  exact (isTokenExpired_numeric_exp _ _ Hs Hne 1600000000000 sample_claims 1700000000 Hd He HE Hn).
Defined.

Lemma isTokenExpired_no_exp_witness :
  let ps := [("phoneNumber", JStr "0123")] in
  storage_with_token sample_token_no_claims !! TOKEN_KEY = Some sample_token_no_claims /\
  units sample_token_no_claims <> [] /\
  decode_token sample_token_no_claims = Normal (JObj ps) /\ assoc_lookup exp_key ps = None /\
  isTokenExpired 0 (Some (storage_with_token sample_token_no_claims)) = Normal false.
Proof.
  assert (Hs : storage_with_token sample_token_no_claims !! TOKEN_KEY = Some sample_token_no_claims)
    by reflexivity.
  assert (Hne : units sample_token_no_claims <> []) by discriminate.
  assert (Hd : decode_token sample_token_no_claims = Normal (JObj [("phoneNumber", JStr "0123")]))
    by (vm_compute; reflexivity).
  assert (He : assoc_lookup exp_key [("phoneNumber", JStr "0123")] = None) by (vm_compute; reflexivity).
  do 4 (split; [assumption|]).
  exact (isTokenExpired_no_exp _ _ Hs Hne 0 _ Hd He).
Defined.

Lemma session_malformed_token_witness :
  storage_with_token "abc" !! TOKEN_KEY = Some "abc" /\ units "abc" <> [] /\
  length (split_on 46 (units "abc")) <> 3%nat /\
  isTokenExpired 0 (Some (storage_with_token "abc")) = Throw JwtFormatError /\
  getUserId (Some (storage_with_token "abc")) = Throw JwtFormatError.
Proof.
  assert (Hs : storage_with_token "abc" !! TOKEN_KEY = Some "abc") by reflexivity.
  assert (Hne : units "abc" <> []) by discriminate.
  assert (Hl : length (split_on 46 (units "abc")) <> 3%nat) by (vm_compute; discriminate).
  do 3 (split; [assumption|]).
  exact (session_malformed_token _ _ Hs Hne 0 Hl).
Defined.
End TokenService.
