(* ===== verification/AuthGuard.v ===== *)
(** * AuthGuard ([frontend/src/app/guards/auth.guard.ts])

    [canActivate] asks the [TokenService] whether the token is expired and
    for the user id, in that order, and allows the navigation when the token
    is not expired and the id is positive; otherwise it asks the router to
    navigate to ["/login"] and refuses.  The router is modelled by the list
    of the navigations requested so far ([router.navigate(commands)] appends
    [commands]); the guard is a [handler] over it, so that an exception of
    the token service leaves the navigations requested before it in place.
    [AuthGuardFn], the functional guard, calls [canActivate]. *)

From Stdlib Require Import ZArith List Lia.
From stdpp Require Import base list gmap.
From S2P Require Import Prelude JsString JsNumber JsValue Router JsDate Storage AngularJwt TokenService.
Import ListNotations.
Open Scope Z_scope.
Open Scope jstr_scope.

Module AuthGuard.
Section AuthGuard.
Context {St : Type} `{WebStorage St} `{JwtHelper}.

Definition LOGIN_ROUTE : commands := [JStr "/login"].

(** [canActivate(next, state)] at time [now], with the token service's
    storage [ls]; the route snapshots are not read. *)
Definition canActivate (now : Z) (ls : option St) : handler nav_log bool :=
  hbind (hlift (TokenService.isTokenExpired now ls)) (fun isTokenExpired =>
  hbind (hlift (TokenService.getUserId ls)) (fun uid =>
  let isUserIdValid := num_gt uid (num_of_Z 0) in
  if negb isTokenExpired && isUserIdValid then hret true
  else hbind (hmodify (navigate LOGIN_ROUTE)) (fun _ => hret false))).

Definition AuthGuardFn (now : Z) (ls : option St) : handler nav_log bool :=
  canActivate now ls.
End AuthGuard.

Section AuthGuardProps.
Context {St : Type} `{WebStorage St} `{JwtHelper}.

(** The guard by cases on what the token service answers. *)
Lemma canActivate_cases now ls nav :
  canActivate now ls nav =
  match TokenService.isTokenExpired now ls with
  | Throw e => (Throw e, nav)
  | Normal expired =>
      match TokenService.getUserId ls with
      | Throw e => (Throw e, nav)
      | Normal uid =>
          if negb expired && num_gt uid (num_of_Z 0) then (Normal true, nav)
          else (Normal false, nav ++ [LOGIN_ROUTE])
      end
  end.
Proof.
  unfold canActivate, hbind, hlift, hret, hmodify.
  destruct (TokenService.isTokenExpired now ls); [|reflexivity].
  destruct (TokenService.getUserId ls); [|reflexivity].
  destruct (negb _ && _); reflexivity.
Qed.

(** The guard requests no navigation but ["/login"]. *)
Lemma canActivate_nav now ls nav :
  snd (canActivate now ls nav) = nav \/ snd (canActivate now ls nav) = nav ++ [LOGIN_ROUTE].
Proof.
  rewrite canActivate_cases.
  destruct (TokenService.isTokenExpired now ls); [|now left].
  destruct (TokenService.getUserId ls); [|now left].
  destruct (negb _ && _); [now left | now right].
Qed.

(** C1: the guard lets a navigation through exactly when the token is
    not expired and the user id is positive, and then requests no
    navigation. *)
Theorem canActivate_allow_iff now ls nav nav' :
  canActivate now ls nav = (Normal true, nav') <->
  nav' = nav /\ TokenService.isTokenExpired now ls = Normal false /\
  exists uid, TokenService.getUserId ls = Normal uid /\ num_gt uid (num_of_Z 0) = true.
Proof.
  rewrite canActivate_cases. split.
  - destruct (TokenService.isTokenExpired now ls) as [expired|e]; [|discriminate].
    destruct (TokenService.getUserId ls) as [uid|e]; [|discriminate].
    destruct expired; cbn; [intros [=]|].
    destruct (num_gt uid (num_of_Z 0)) eqn:Hgt; intros [=]; subst.
    split; [reflexivity | split; [reflexivity | exists uid; split; [reflexivity | exact Hgt]]].
  - intros (-> & He & uid & Hu & Hgt). rewrite He, Hu, Hgt. reflexivity.
Qed.

(** C3: when both answers are normal and the condition fails, the guard
    refuses and asks the router for ["/login"]. *)
Theorem canActivate_deny now ls nav expired uid :
  TokenService.isTokenExpired now ls = Normal expired ->
  TokenService.getUserId ls = Normal uid ->
  negb expired && num_gt uid (num_of_Z 0) = false ->
  canActivate now ls nav = (Normal false, nav ++ [LOGIN_ROUTE]).
Proof.
  intros He Hu Hc. rewrite canActivate_cases, He, Hu, Hc. reflexivity.
Qed.

(** without a token the guard refuses and
    redirects to ["/login"]. *)
Theorem canActivate_no_token now ls nav :
  TokenService.getToken ls = None ->
  canActivate now ls nav = (Normal false, nav ++ [LOGIN_ROUTE]).
Proof.
  intros Ht. rewrite canActivate_cases. unfold TokenService.isTokenExpired, TokenService.getUserId.
  rewrite Ht. reflexivity.
Qed.

(** C4: a stored token that the JWT helper cannot decode makes the guard
    throw the helper's error; no redirection to ["/login"] is requested. *)
Theorem canActivate_decode_error `{!JwtHelperLaws} now ls nav token e :
  TokenService.getToken ls = Some token -> units token <> [] ->
  jwt_decodeToken token = Throw e ->
  canActivate now ls nav = (Throw e, nav).
Proof.
  intros Ht Hne Hdec. rewrite canActivate_cases.
  rewrite (TokenService.isTokenExpired_token now ls token Ht Hne).
  rewrite (jwt_isTokenExpired_decode_error now token e Hdec). reflexivity.
Qed.
End AuthGuardProps.

(** ** The guard with the angular-jwt helper and the browser's storage *)

(** C2: for a stored token whose payload is an object with numeric claims
    [userId = uid] and [exp = E] (seconds), the guard allows the navigation
    exactly when the token expires after [now] and [uid > 0]; otherwise it
    refuses and redirects to ["/login"]. *)
Theorem canActivate_numeric_claims (s : gmap jstr jstr) now token ps uid E nav :
  s !! TokenService.TOKEN_KEY = Some token -> units token <> [] ->
  decode_token token = Normal (JObj ps) ->
  assoc_lookup TokenService.userId_key ps = Some (JNum (num_of_Z uid)) -> Z.abs uid < 10 ^ 21 ->
  assoc_lookup exp_key ps = Some (JNum (num_of_Z E)) ->
  Z.abs (E * 1000) <= max_time_value -> Z.abs now <= max_time_value ->
  canActivate now (Some s) nav =
  if (now <? E * 1000) && (0 <? uid) then (Normal true, nav)
  else (Normal false, nav ++ [LOGIN_ROUTE]).
Proof.
  intros Hs Hne Hdec Huid Hb Hexp HE Hnow. rewrite canActivate_cases.
  destruct (TokenService.session_numeric_claims s token Hs Hne now ps uid E Hdec Huid Hb Hexp HE Hnow)
    as [-> ->].
  rewrite num_gt_int by (cbn; lia).
  destruct (Z.leb_spec (E * 1000) now), (Z.ltb_spec now (E * 1000)); try lia; reflexivity.
Qed.

(** ** Witnesses *)

Definition token_storage (t : jstr) : gmap jstr jstr := TokenService.storage_with_token t.

Lemma canActivate_allow_iff_witness :
  canActivate 1600000000000 (Some (token_storage sample_token)) [] = (Normal true, []) <->
  [] = ([] : nav_log) /\
  TokenService.isTokenExpired 1600000000000 (Some (token_storage sample_token)) = Normal false /\
  exists uid, TokenService.getUserId (Some (token_storage sample_token)) = Normal uid
              /\ num_gt uid (num_of_Z 0) = true.
Proof. exact (canActivate_allow_iff 1600000000000 (Some (token_storage sample_token)) [] []). Defined.

Lemma canActivate_deny_witness :
  let ls := Some (token_storage sample_token) in
  TokenService.isTokenExpired 1800000000000 ls = Normal true /\
  TokenService.getUserId ls = Normal (num_of_Z 42) /\
  negb true && num_gt (num_of_Z 42) (num_of_Z 0) = false /\
  canActivate 1800000000000 ls [] = (Normal false, [LOGIN_ROUTE]).
Proof.
  assert (He : TokenService.isTokenExpired 1800000000000 (Some (token_storage sample_token)) = Normal true)
    by (vm_compute; reflexivity).
  assert (Hu : TokenService.getUserId (Some (token_storage sample_token)) = Normal (num_of_Z 42))
    by (vm_compute; reflexivity).
  assert (Hc : negb true && num_gt (num_of_Z 42) (num_of_Z 0) = false) by reflexivity.
  split; [exact He|]. split; [exact Hu|]. split; [exact Hc|].
  exact (canActivate_deny 1800000000000 _ [] true _ He Hu Hc).
Defined.

Lemma canActivate_no_token_witness :
  TokenService.getToken (Some (∅ : gmap jstr jstr)) = None /\
  canActivate 0 (Some (∅ : gmap jstr jstr)) [] = (Normal false, [LOGIN_ROUTE]).
Proof.
  assert (Ht : TokenService.getToken (Some (∅ : gmap jstr jstr)) = None) by reflexivity.
  split; [exact Ht|]. exact (canActivate_no_token 0 _ [] Ht).
Defined.

Lemma canActivate_decode_error_witness :
  TokenService.getToken (Some (token_storage "abc")) = Some "abc" /\ units "abc" <> [] /\
  jwt_decodeToken "abc" = Throw JwtFormatError /\
  canActivate 0 (Some (token_storage "abc")) [] = (Throw JwtFormatError, []).
Proof.
  assert (Ht : TokenService.getToken (Some (token_storage "abc")) = Some "abc") by reflexivity.
  assert (Hne : units "abc" <> []) by discriminate.
  assert (Hd : jwt_decodeToken "abc" = Throw JwtFormatError) by (vm_compute; reflexivity).
  split; [exact Ht|]. split; [exact Hne|]. split; [exact Hd|].
  exact (canActivate_decode_error 0 _ [] "abc" _ Ht Hne Hd).
Defined.

Lemma canActivate_numeric_claims_witness :
  let s := token_storage sample_token in
  s !! TokenService.TOKEN_KEY = Some sample_token /\ units sample_token <> [] /\
  decode_token sample_token = Normal (JObj sample_claims) /\
  assoc_lookup TokenService.userId_key sample_claims = Some (JNum (num_of_Z 42)) /\ Z.abs 42 < 10 ^ 21 /\
  assoc_lookup exp_key sample_claims = Some (JNum (num_of_Z 1700000000)) /\
  Z.abs (1700000000 * 1000) <= max_time_value /\ Z.abs 1600000000000 <= max_time_value /\
  canActivate 1600000000000 (Some s) [] =
  if (1600000000000 <? 1700000000 * 1000) && (0 <? 42) then (Normal true, [])
  else (Normal false, [] ++ [LOGIN_ROUTE]).
Proof.
  assert (Hs : token_storage sample_token !! TokenService.TOKEN_KEY = Some sample_token) by reflexivity.
  assert (Hne : units sample_token <> []) by discriminate.
  assert (Hd : decode_token sample_token = Normal (JObj sample_claims)) by (vm_compute; reflexivity).
  assert (Hu : assoc_lookup TokenService.userId_key sample_claims = Some (JNum (num_of_Z 42)))
    by (vm_compute; reflexivity).
  assert (Hb : Z.abs 42 < 10 ^ 21) by lia.
  assert (He : assoc_lookup exp_key sample_claims = Some (JNum (num_of_Z 1700000000))) by (vm_compute; reflexivity).
  assert (HE : Z.abs (1700000000 * 1000) <= max_time_value) by (vm_compute; discriminate).
  assert (Hn : Z.abs 1600000000000 <= max_time_value) by (vm_compute; discriminate).
  do 8 (split; [assumption|]).
  exact (canActivate_numeric_claims _ 1600000000000 sample_token sample_claims 42 1700000000 []
           Hs Hne Hd Hu Hb He HE Hn).
Defined.
End AuthGuard.
