(* ===== verification/OrderService.v ===== *)
(** * OrderService ([src/src/app/services/order.service.ts])

    The service keeps [latestOrderId], mirrored in the storage under
    ["latestOrderId"].  The constructor restores it ([saved ? +saved :
    null]); [placeOrder] posts the order and, in its [tap], assigns the
    response's [id] to [latestOrderId] and then writes [res.id.toString()]
    to the storage.  At run time [latestOrderId] holds whatever JS value the
    code assigns, so it is a [jsval].  The tap is a [handler] over the
    service and the storage: an exception thrown by [toString] keeps the
    assignment made before it.  The other methods only build HTTP requests,
    modelled as [http_request] values; [environment.apiBaseUrl] is a
    configuration value outside the repository, a section variable. *)

From Stdlib Require Import ZArith List Lia.
From stdpp Require Import base list gmap.
From S2P Require Import Prelude JsString JsNumber JsValue Storage.
Import ListNotations.
Open Scope Z_scope.
Open Scope jstr_scope.

Inductive http_method := GET | POST | PUT | DELETE.

Record http_request := {
  req_method : http_method;
  req_url : jstr;
  req_params : list (jstr * jstr);
  req_body : option jsval;
  req_text : bool   (** [responseType: 'text'] *)
}.

Module OrderService.

Definition LATEST_KEY : jstr := "latestOrderId".

Definition id_key : jstr := "id".

Record order_service := { latestOrderId : jsval }.

Section OrderService.
Context {St : Type} `{WebStorage St}.
Variable apiBaseUrl : jstr.

Definition apiUrl : jstr := apiBaseUrl +++ "/orders".

Definition apiGetAllOrders : jstr := apiBaseUrl +++ "/orders/get-orders-by-keyword".

(** The constructor: [saved ? +saved : null] on the stored value. *)
Definition construct (s : St) : order_service :=
  match getItem LATEST_KEY s with
  | Some saved =>
      if to_boolean (JStr saved) then {| latestOrderId := JNum (string_to_number saved) |}
      else {| latestOrderId := JNull |}
  | None => {| latestOrderId := JNull |}
  end.

Definition placeOrder_request (orderData : jsval) : http_request :=
  {| req_method := POST; req_url := apiUrl; req_params := []; req_body := Some orderData;
     req_text := false |}.

(** The [tap] of [placeOrder], run on the response body [res]. *)
Definition placeOrder_tap (res : jsval) : handler (order_service * St) unit :=
  hbind (hlift (get_prop res id_key)) (fun id =>
  hbind (hmodify (fun st => ({| latestOrderId := id |}, snd st))) (fun _ =>
  hbind (hlift (get_prop res id_key)) (fun id' =>
  hbind (hlift (call_toString id')) (fun str =>
  hmodify (fun st => (fst st, setItem LATEST_KEY str (snd st))))))).

Definition order_url (orderId : jsnum) : jstr :=
  apiBaseUrl +++ "/orders/" +++ num_to_string orderId.

Definition getOrderById (orderId : jsnum) : http_request :=
  {| req_method := GET; req_url := order_url orderId; req_params := []; req_body := None;
     req_text := false |}.

Definition getAllOrders (keyword : jstr) (page limit : jsnum) : http_request :=
  {| req_method := GET; req_url := apiGetAllOrders;
     req_params := [("keyword", keyword); ("page", num_to_string page);
                    ("limit", num_to_string limit)];
     req_body := None; req_text := false |}.

Definition updateOrder (orderId : jsnum) (orderData : jsval) : http_request :=
  {| req_method := PUT; req_url := order_url orderId; req_params := [];
     req_body := Some orderData; req_text := false |}.

Definition deleteOrder (orderId : jsnum) : http_request :=
  {| req_method := DELETE; req_url := order_url orderId; req_params := []; req_body := None;
     req_text := true |}.

Definition getLatestOrder : http_request :=
  {| req_method := GET; req_url := apiUrl +++ "/latest"; req_params := []; req_body := None;
     req_text := false |}.
End OrderService.

Section OrderServiceProps.
Context {St : Type} `{WebStorageLaws St}.

(** The tap on a response object whose [id] is an integer below [10^21]. *)
Lemma placeOrder_tap_int ps n (os : order_service) (s : St) :
  assoc_lookup id_key ps = Some (JNum (num_of_Z n)) ->
  placeOrder_tap (JObj ps) (os, s) =
  (Normal tt, ({| latestOrderId := JNum (num_of_Z n) |},
               setItem LATEST_KEY (num_to_string (num_of_Z n)) s)).
Proof.
  intros Hid. unfold placeOrder_tap, hbind, hlift, hmodify. cbn [get_prop own_prop].
  rewrite Hid. reflexivity.
Qed.

(** C11: after [placeOrder]'s tap on a response whose [id] is an integer
    [n], the service holds [n], the storage holds [String(n)] under
    ["latestOrderId"], and no other key of the storage changes. *)
Theorem placeOrder_records_id ps n os s :
  assoc_lookup id_key ps = Some (JNum (num_of_Z n)) ->
  let '(r, (os', s')) := placeOrder_tap (JObj ps) (os, s) in
  r = Normal tt /\ latestOrderId os' = JNum (num_of_Z n) /\
  getItem LATEST_KEY s' = Some (num_to_string (num_of_Z n)) /\
  forall k, k <> LATEST_KEY -> getItem k s' = getItem k s.
Proof.
  intros Hid. rewrite (placeOrder_tap_int ps n os s Hid).
  split; [reflexivity|]. split; [reflexivity|]. split; [apply getItem_setItem_eq|].
  intros k Hk. apply getItem_setItem_ne. congruence.
Qed.

(** The constructor on a storage holding [String(n)]. *)
Lemma construct_setItem_int n s :
  Z.abs n < 10 ^ 21 ->
  construct (setItem LATEST_KEY (num_to_string (num_of_Z n)) s) = {| latestOrderId := JNum (num_of_Z n) |}.
Proof.
  intros Hn. unfold construct. rewrite getItem_setItem_eq. cbn [to_boolean].
  rewrite bool_decide_eq_false_2 by apply num_to_string_nonempty. cbn [negb].
  now rewrite string_to_number_num_to_string_int.
Qed.

(** C12: the id survives a reload: a service constructed on the storage
    written by the tap holds the same number [n] (for [|n| < 10^21]). *)
Theorem placeOrder_reload ps n os s :
  assoc_lookup id_key ps = Some (JNum (num_of_Z n)) -> Z.abs n < 10 ^ 21 ->
  construct (snd (snd (placeOrder_tap (JObj ps) (os, s)))) = {| latestOrderId := JNum (num_of_Z n) |}.
Proof.
  intros Hid Hn. rewrite (placeOrder_tap_int ps n os s Hid). exact (construct_setItem_int n s Hn).
Qed.

(** C36: on a response object without an [id], the tap assigns [undefined]
    to [latestOrderId] and then throws a TypeError from [toString], leaving
    the stored id as it was: memory and storage disagree. *)
Theorem placeOrder_tap_missing_id ps os s :
  assoc_lookup id_key ps = None ->
  placeOrder_tap (JObj ps) (os, s) = (Throw TypeError, ({| latestOrderId := JUndef |}, s)).
Proof.
  intros Hid. unfold placeOrder_tap, hbind, hlift, hmodify. cbn [get_prop own_prop].
  rewrite Hid. reflexivity.
Qed.
End OrderServiceProps.

(** ** Witnesses *)

Definition sample_order_response : list (jstr * jsval) :=
  [("id", JNum (num_of_Z 42)); ("status", JStr "pending")].

Definition fresh_service : order_service := {| latestOrderId := JNull |}.

Lemma placeOrder_records_id_witness :
  assoc_lookup id_key sample_order_response = Some (JNum (num_of_Z 42)) /\
  let '(r, (os', s')) := placeOrder_tap (JObj sample_order_response) (fresh_service, (∅ : gmap jstr jstr)) in
  r = Normal tt /\ latestOrderId os' = JNum (num_of_Z 42) /\
  getItem LATEST_KEY s' = Some (num_to_string (num_of_Z 42)) /\
  forall k, k <> LATEST_KEY -> getItem k s' = getItem k (∅ : gmap jstr jstr).
Proof.
  assert (Hid : assoc_lookup id_key sample_order_response = Some (JNum (num_of_Z 42))) by reflexivity.
  split; [exact Hid|]. exact (placeOrder_records_id _ 42 fresh_service ∅ Hid).
Defined.

Lemma placeOrder_reload_witness :
  assoc_lookup id_key sample_order_response = Some (JNum (num_of_Z 42)) /\ Z.abs 42 < 10 ^ 21 /\
  construct (snd (snd (placeOrder_tap (JObj sample_order_response) (fresh_service, (∅ : gmap jstr jstr)))))
  = {| latestOrderId := JNum (num_of_Z 42) |}.
Proof.
  assert (Hid : assoc_lookup id_key sample_order_response = Some (JNum (num_of_Z 42))) by reflexivity.
  assert (Hn : Z.abs 42 < 10 ^ 21) by lia.
  split; [exact Hid|]. split; [exact Hn|]. exact (placeOrder_reload _ 42 fresh_service ∅ Hid Hn).
Defined.

Lemma placeOrder_tap_missing_id_witness :
  assoc_lookup id_key [("status", JStr "pending")] = None /\
  placeOrder_tap (JObj [("status", JStr "pending")]) (fresh_service, (<[LATEST_KEY := "7"]> ∅ : gmap jstr jstr))
  = (Throw TypeError, ({| latestOrderId := JUndef |}, <[LATEST_KEY := "7"]> ∅)).
Proof.
  assert (Hid : assoc_lookup id_key [("status", JStr "pending")] = None) by reflexivity.
  split; [exact Hid|]. exact (placeOrder_tap_missing_id _ fresh_service _ Hid).
Defined.
End OrderService.
