(* ===== verification/OrderDetail.v ===== *)
(** * OrderDetailComponent ([frontend/src/app/components/detail-order/order.detail.component.ts])

    [getOrderDetails] reads the route parameter [id], asks the
    [OrderService] for the order ([GET <apiBaseUrl>/orders/<id>]) and, in
    the [next] callback, copies the response into the component's
    [orderResponse] one property at a time, after assigning [response.id]
    to the service's [latestOrderId].  Dates arrive as arrays
    [[year, month, day]] and become [new Date(y, m - 1, d)]; each product
    thumbnail is rewritten in place to a URL under
    [<apiBaseUrl>/products/images/].  [orderResponse] is a JS object: an
    association list of its properties in the order of the object literal,
    the two [Date] properties holding time values.  The callback is a
    [handler]: an exception thrown half-way keeps the properties assigned
    before it.  [environment.apiBaseUrl] and the local time-zone offset are
    section variables.  The declared type of [orderResponse] is the
    invariant [well_typed], preserved by every callback of the observer
    ([next], [error], [complete]); [normalized] is the object literal the
    callback's statements are proved equivalent to. *)

From Stdlib Require Import ZArith List Lia.
From stdpp Require Import base list.
From S2P Require Import Prelude JsString JsNumber JsValue Router JsDate Storage OrderService.
Import ListNotations.
Open Scope Z_scope.
Open Scope jstr_scope.
Open Scope completion_scope.
Open Scope handler_scope.

Module OrderDetail.

(** A property of [orderResponse]: a JS value or a [Date] (its time value). *)
Inductive field := FVal (v : jsval) | FDate (t : jsnum).

Definition order_response := list (jstr * field).

(** The component's state the callback touches: the injected service, the
    [orderResponse] object and the console. *)
Record detail_state := {
  orderService : OrderService.order_service;
  orderResponse : order_response;
  console : console_log
}.

(** The initial [orderResponse]; [new Date()] is the time value [now]. *)
Definition initial_response (now : jsnum) : order_response :=
  [("id", FVal (JNum (num_of_Z 0))); ("user_id", FVal (JNum (num_of_Z 0)));
   ("fullname", FVal (JStr "")); ("phone_number", FVal (JStr "")); ("email", FVal (JStr ""));
   ("address", FVal (JStr "")); ("note", FVal (JStr "")); ("order_date", FDate now);
   ("status", FVal (JStr "")); ("total_money", FVal (JNum (num_of_Z 0)));
   ("shipping_method", FVal (JStr "")); ("shipping_address", FVal (JStr ""));
   ("shipping_date", FDate now); ("payment_method", FVal (JStr ""));
   ("order_details", FVal (JArr []))].

Definition init (svc : OrderService.order_service) (now : jsnum) : detail_state :=
  {| orderService := svc; orderResponse := initial_response now; console := [] |}.

(** [Array.prototype.map] with a callback that may throw: the first
    exception ends the loop. *)
Fixpoint map_c {A B} (f : A -> completion B) (l : list A) : completion (list B) :=
  match l with
  | [] => Normal []
  | x :: l' => let* y := f x in let* ys := map_c f l' in Normal (y :: ys)
  end.

Section OrderDetail.
Variable apiBaseUrl : jstr.
(** The local time zone's offset from UTC, in milliseconds. *)
Variable tza : Z.

(** [this.orderResponse.k = x]. *)
Definition assign (k : jstr) (x : field) : handler detail_state unit :=
  hmodify (fun st => {| orderService := orderService st; orderResponse := assoc_set k x (orderResponse st);
                        console := console st |}).

(** [this.orderResponse.k = response.k]. *)
Definition copy_prop (response : jsval) (k : jstr) : handler detail_state unit :=
  let! v := hlift (get_prop response k) in assign k (FVal v).

(** [new Date(response.k[0], response.k[1] - 1, response.k[2])]: the three
    arguments are evaluated left to right, each reading [response.k]
    again, and the subtraction converts [response.k[1]] first. *)
Definition date_arg (response : jsval) (k : jstr) : completion jsnum :=
  let* a0 := get_prop response k in
  let* y := get_prop a0 "0" in
  let* a1 := get_prop response k in
  let* m := get_prop a1 "1" in
  let* mn := to_number m in
  let* a2 := get_prop response k in
  let* d := get_prop a2 "2" in
  new_date3 tza y (JNum (num_sub mn (num_of_Z 1))) d.

Definition images_path : jstr := "/products/images/".

(** The [map] callback: [order_detail.product.thumbnail =
    `${environment.apiBaseUrl}/products/images/${order_detail.product.thumbnail}`;
    return order_detail;].  The target [order_detail.product] is read
    before the right-hand side, which reads it again.  The product object
    is shared with [order_detail], so the element returned holds the
    updated product. *)
Definition rewrite_thumbnail (order_detail : jsval) : completion jsval :=
  let* product := get_prop order_detail "product" in
  let* product' := get_prop order_detail "product" in
  let* thumbnail := get_prop product' "thumbnail" in
  let* ts := to_string thumbnail in
  let* product'' := set_prop product "thumbnail" (JStr (apiBaseUrl +++ images_path +++ ts)) in
  set_prop order_detail "product" product''.

(** [response.order_details.map(...)]: only an array has a [map] method. *)
Definition map_order_details (order_details : jsval) : completion jsval :=
  match order_details with
  | JArr xs => cmap JArr (map_c rewrite_thumbnail xs)
  | _ => Throw TypeError
  end.

(** The [next] callback of [getOrderDetails]. *)
Definition next (response : jsval) : handler detail_state unit :=
  let! latest := hlift (get_prop response "id") in
  let! _ := hmodify (fun st => {| orderService := {| OrderService.latestOrderId := latest |};
                                  orderResponse := orderResponse st; console := console st |}) in
  let! _ := copy_prop response "id" in
  let! _ := copy_prop response "user_id" in
  let! _ := copy_prop response "fullname" in
  let! _ := copy_prop response "email" in
  let! _ := copy_prop response "phone_number" in
  let! _ := copy_prop response "address" in
  let! _ := copy_prop response "note" in
  let! od := hlift (date_arg response "order_date") in
  let! _ := assign "order_date" (FDate od) in
  let! details := hlift (let* ds := get_prop response "order_details" in map_order_details ds) in
  let! _ := assign "order_details" (FVal details) in
  let! _ := copy_prop response "payment_method" in
  let! sd := hlift (date_arg response "shipping_date") in
  let! _ := assign "shipping_date" (FDate sd) in
  let! _ := copy_prop response "shipping_method" in
  let! _ := copy_prop response "status" in
  copy_prop response "total_money".

(** The [error] callback: [console.error('Error fetching detail:', error)]. *)
Definition error (err : jsval) : handler detail_state unit :=
  hmodify (fun st => {| orderService := orderService st; orderResponse := orderResponse st;
                        console := console_error [JStr "Error fetching detail:"; err] (console st) |}).

(** The [complete] callback: its body is a comment. *)
Definition complete : handler detail_state unit := hret tt.

(** What the HTTP observable delivers: a response, an error, or the
    completion that follows a response. *)
Inductive http_outcome := HttpNext (body : jsval) | HttpError (err : jsval) | HttpComplete.

(** [getOrderDetails()]: the request sent for the route parameter [param]
    ([paramMap.get('id')], [null] when absent), and the callback of the
    observer object run on each notification. *)
Definition getOrderDetails_request (param : option jstr) : completion http_request :=
  let* orderId := to_number (match param with Some s => JStr s | None => JNull end) in
  Normal (OrderService.getOrderById apiBaseUrl orderId).

Definition getOrderDetails_callback (o : http_outcome) : handler detail_state unit :=
  match o with
  | HttpNext body => next body
  | HttpError err => error err
  | HttpComplete => complete
  end.

(** [ngOnInit()] calls [getOrderDetails()]: the page sends its request as
    soon as it is initialised. *)
Definition ngOnInit (param : option jstr) : completion http_request := getOrderDetails_request param.
End OrderDetail.

(** ** What a handler leaves alone *)

Create HintDb detail discriminated.

(** [h] never changes the observation [obs] of the state, whether it
    returns or throws. *)
Definition keeps {B A} (obs : detail_state -> B) (h : handler detail_state A) : Prop :=
  forall st, obs (snd (h st)) = obs st.

(** The property [k] of [orderResponse]. *)
Definition prop_at (k : jstr) (st : detail_state) : option field := assoc_lookup k (orderResponse st).

Lemma keeps_hbind {B A C} (obs : detail_state -> B) (h : handler detail_state A) (f : A -> handler detail_state C) :
  keeps obs h -> (forall x, keeps obs (f x)) -> keeps obs (hbind h f).
Proof.
  intros Hh Hf st. unfold hbind. specialize (Hh st). destruct (h st) as [[x|e] st']; cbn in *;
    [rewrite Hf|]; exact Hh.
Qed.

Lemma keeps_hlift {B A} (obs : detail_state -> B) (c : completion A) : keeps obs (hlift c).
Proof. intros st. unfold hlift. now destruct c. Qed.

Lemma keeps_assign k k' x : k' <> k -> keeps (prop_at k) (assign k' x).
Proof. intros Hne st. cbn. apply assoc_lookup_set_ne. congruence. Qed.

Lemma keeps_assign_service k x : keeps orderService (assign k x).
Proof. intros st. reflexivity. Qed.

Lemma keeps_copy_prop k k' response : k' <> k -> keeps (prop_at k) (copy_prop response k').
Proof.
  intros Hne. unfold copy_prop. apply keeps_hbind; [apply keeps_hlift|]. intros v. now apply keeps_assign.
Qed.

Lemma keeps_copy_prop_service k response : keeps orderService (copy_prop response k).
Proof.
  unfold copy_prop. apply keeps_hbind; [apply keeps_hlift|]. intros v. apply keeps_assign_service.
Qed.

Lemma keeps_set_service k svc :
  keeps (prop_at k) (hmodify (fun st => {| orderService := svc; orderResponse := orderResponse st;
                                           console := console st |})).
Proof. intros st. reflexivity. Qed.

#[export] Hint Resolve keeps_hbind keeps_hlift keeps_assign keeps_copy_prop keeps_set_service
  keeps_assign_service keeps_copy_prop_service : detail.
#[export] Hint Extern 1 (_ <> _) => discriminate : detail.

Ltac keeps := repeat (apply keeps_hbind; [|intros ?]); auto with detail.

(** Runs the binds of a handler whose steps return normally, keeping the
    state a record literal (projecting eagerly avoids re-copying it). *)
Ltac run_steps :=
  repeat (erewrite hbind_normal by reflexivity; cbn [orderService orderResponse console]).

(** The callback's first statement assigns [response.id] to the shared
    service; nothing after it touches the service, so the assignment stays
    whether the rest returns or throws. *)
Lemma next_sets_latest apiBaseUrl tza response st v :
  get_prop response "id" = Normal v ->
  orderService (snd (next apiBaseUrl tza response st)) = {| OrderService.latestOrderId := v |}.
Proof.
  intros Hv. unfold next. rewrite (hbind_normal _ _ st v st) by (unfold hlift; now rewrite Hv).
  erewrite hbind_normal by reflexivity.
  match goal with |- orderService (snd (?h ?s)) = _ =>
    assert (Hk : keeps orderService h) by keeps; rewrite (Hk s) end.
  reflexivity.
Qed.

(** ** The type of [orderResponse]

    The field is declared [OrderResponse]: the fifteen properties of the
    object literal, [order_date] and [shipping_date] of type [Date].  The
    payload is [any], so nothing is checked at run time; what the code
    guarantees is that it only writes declared properties and writes the
    two dates with [new Date(...)]. *)

Definition response_keys : list jstr := map fst (initial_response (num_of_Z 0)).

Definition date_key (k : jstr) : bool :=
  bool_decide (k = "order_date") || bool_decide (k = "shipping_date").

(** A property holds a [Date] exactly when it is one of the two dates. *)
Definition field_ok (k : jstr) (f : field) : bool :=
  match f with FDate _ => date_key k | FVal _ => negb (date_key k) end.

Definition well_typed (r : order_response) : Prop :=
  map fst r = response_keys /\ Forall (fun kf => field_ok kf.1 kf.2 = true) r.

#[export] Instance well_typed_dec r : Decision (well_typed r).
Proof. unfold well_typed. apply _. Defined.

Definition typed_state (st : detail_state) : Prop := well_typed (orderResponse st).

Lemma well_typed_initial now : well_typed (initial_response now).
Proof. split; [reflexivity | repeat constructor]. Qed.

Lemma well_typed_assoc_set k x r :
  k ∈ response_keys -> field_ok k x = true -> well_typed r -> well_typed (assoc_set k x r).
Proof.
  intros Hk Hx [Hkeys Hf]. split.
  - rewrite assoc_set_keys; [exact Hkeys|]. apply assoc_lookup_key_in. now rewrite Hkeys.
  - exact (assoc_set_Forall (fun k f => field_ok k f = true) k x r Hf Hx).
Qed.

Lemma preserves_assign k x :
  k ∈ response_keys -> field_ok k x = true -> hpreserves typed_state (assign k x).
Proof. intros Hk Hx. apply hpreserves_hmodify. intros st. exact (well_typed_assoc_set k x _ Hk Hx). Qed.

Lemma preserves_copy_prop response k :
  k ∈ response_keys -> date_key k = false -> hpreserves typed_state (copy_prop response k).
Proof.
  intros Hk Hd. apply hpreserves_hbind; [apply hpreserves_hlift|]. intros v.
  apply preserves_assign; [exact Hk | cbn; now rewrite Hd].
Qed.

Lemma preserves_set_service svc :
  hpreserves typed_state (hmodify (fun st => {| orderService := svc; orderResponse := orderResponse st;
                                               console := console st |})).
Proof. apply hpreserves_hmodify. intros st Hst. exact Hst. Qed.

#[export] Hint Resolve hpreserves_hbind hpreserves_hlift hpreserves_hret preserves_assign
  preserves_copy_prop preserves_set_service : detail.
#[export] Hint Extern 1 (_ ∈ response_keys) => apply (bool_decide_unpack _); vm_compute; exact I : detail.
#[export] Hint Extern 1 (_ = _ :> bool) => reflexivity : detail.

(** Every callback of the observer, on any notification, keeps
    [orderResponse] of its declared type, whether it returns or throws. *)
Lemma getOrderDetails_callback_typed apiBaseUrl tza o :
  hpreserves typed_state (getOrderDetails_callback apiBaseUrl tza o).
Proof.
  destruct o as [response|err|]; cbn [getOrderDetails_callback].
  - unfold next. repeat (apply hpreserves_hbind; [|intros ?]); auto with detail.
  - apply hpreserves_hmodify. intros st Hst. exact Hst.
  - apply hpreserves_hret.
Qed.

(** ** The date arrays *)

Lemma get_prop_index012 xs :
  get_prop (JArr xs) "0" = Normal (default JUndef (xs !! 0%nat)) /\
  get_prop (JArr xs) "1" = Normal (default JUndef (xs !! 1%nat)) /\
  get_prop (JArr xs) "2" = Normal (default JUndef (xs !! 2%nat)).
Proof. destruct xs as [|a [|b [|c xs]]]; (split; [|split]); vm_compute; reflexivity. Qed.

(** [date_arg] on an object whose property [k] is an array: [new Date] of
    its first three elements (undefined where missing), the month shifted
    by one after its conversion. *)
Lemma date_arg_array tza ps k xs :
  assoc_lookup k ps = Some (JArr xs) ->
  date_arg tza (JObj ps) k =
  let* mn := to_number (default JUndef (xs !! 1%nat)) in
  new_date3 tza (default JUndef (xs !! 0%nat)) (JNum (num_sub mn (num_of_Z 1))) (default JUndef (xs !! 2%nat)).
Proof.
  intros Hk. pose proof (get_prop_index012 xs) as (H0 & H1 & H2).
  unfold date_arg. cbn [get_prop own_prop]. rewrite Hk. cbn [cbind]. rewrite H0, H1, H2. reflexivity.
Qed.

Lemma date_arg_numbers tza ps k y mo d rest :
  assoc_lookup k ps = Some (JArr (JNum y :: JNum mo :: JNum d :: rest)) ->
  date_arg tza (JObj ps) k = new_date3 tza (JNum y) (JNum (num_sub mo (num_of_Z 1))) (JNum d).
Proof. intros Hk. now rewrite (date_arg_array tza ps k _ Hk). Qed.

(** The payload's date [[y, M, d]]: integers of the range the Date
    constructor keeps, [M] counted from 1 and [d] a day of that month;
    elements past the third are ignored by the code. *)
Definition calendar_triple (v : jsval) (y M d : Z) : Prop :=
  exists rest, v = JArr (JNum (num_of_Z y) :: JNum (num_of_Z M) :: JNum (num_of_Z d) :: rest) /\
    -270000 <= y <= 270000 /\ 1 <= M <= 12 /\
    1 <= d <= month_start M (leap_year (full_year y)) - month_start (M - 1) (leap_year (full_year y)).

(** The local year, month (from 0) and day of the time value [t]. *)
Definition date_shows (tza : Z) (t : jsnum) (y M d : Z) : Prop :=
  getFullYear tza t = num_of_Z (full_year y) /\ getMonth tza t = num_of_Z (M - 1) /\
  getDate tza t = num_of_Z d.

Lemma date_arg_calendar tza ps k v y M d :
  assoc_lookup k ps = Some v -> calendar_triple v y M d -> Z.abs tza <= msPerDay ->
  exists t, date_arg tza (JObj ps) k = Normal t /\ date_shows tza t y M d.
Proof.
  intros Hk (rest & -> & Hy & HM & Hd) Htz. rewrite (date_arg_numbers tza ps _ _ _ _ _ Hk).
  rewrite num_sub_int by lia.
  apply new_date3_components; [lia | lia | now replace (M - 1 + 1) with M by lia | exact Htz].
Qed.

(** C10: a date property [k] sent as [[y, M, d]] (integers, [M] counted
    from 1, [d] a day of that month) becomes a Date whose local year, month
    (counted from 0) and day are [full_year y], [M - 1] and [d], for every
    time-zone offset: the components map exactly, with no shift. *)
Theorem date_arg_components tza ps k y M d rest :
  assoc_lookup k ps = Some (JArr (JNum (num_of_Z y) :: JNum (num_of_Z M) :: JNum (num_of_Z d) :: rest)) ->
  -270000 <= y <= 270000 -> 1 <= M <= 12 ->
  1 <= d <= month_start M (leap_year (full_year y)) - month_start (M - 1) (leap_year (full_year y)) ->
  Z.abs tza <= msPerDay ->
  exists t, date_arg tza (JObj ps) k = Normal t /\
    getFullYear tza t = num_of_Z (full_year y) /\ getMonth tza t = num_of_Z (M - 1) /\
    getDate tza t = num_of_Z d.
Proof.
  intros Hk Hy HM Hd Htz. apply (date_arg_calendar tza ps k _ y M d Hk); [|exact Htz].
  exists rest. auto.
Qed.

(** C35: an order date array with fewer than three numbers is not
    rejected: the stored Date is invalid (its time value is NaN) and no
    exception is thrown. *)
Theorem order_date_short_array tza ps xs :
  assoc_lookup "order_date" ps = Some (JArr xs) -> (length xs < 3)%nat ->
  Forall (fun x => exists n, x = JNum n) xs ->
  date_arg tza (JObj ps) "order_date" = Normal NaN.
Proof.
  intros Hk Hlen Hnum. rewrite (date_arg_array _ _ _ _ Hk).
  destruct xs as [|a [|b [|c xs]]]; cbn in Hlen; [..|lia];
    repeat match goal with H : Forall _ (_ :: _) |- _ => inversion H as [|? ? [? ->] ?]; subst; clear H end;
    cbn [lookup list_lookup default to_number cbind];
    (eapply new_date3_nan; [reflexivity .. | right; right; reflexivity]).
Qed.

(** ** The line items *)

(** [v.k1.k2]. *)
Definition read2 (v : jsval) (k1 k2 : jstr) : completion jsval :=
  let* a := get_prop v k1 in get_prop a k2.

(** A line item as the payload of the spec has it: an object whose
    [product] is an object with a string [thumbnail]. *)
Definition line_item (x : jsval) : Prop :=
  exists ps qs s, x = JObj ps /\ assoc_lookup "product" ps = Some (JObj qs) /\
                  assoc_lookup "thumbnail" qs = Some (JStr s).

(** [y] is the line item [x] with its thumbnail prefixed by
    [<base>/products/images/], and nothing else changed. *)
Definition thumbnail_rewritten (base : jstr) (x y : jsval) : Prop :=
  exists s, read2 x "product" "thumbnail" = Normal (JStr s) /\
    read2 y "product" "thumbnail" = Normal (JStr (base +++ images_path +++ s)) /\
    (forall k, k <> "thumbnail" -> read2 y "product" k = read2 x "product" k) /\
    (forall k, k <> "product" -> get_prop y k = get_prop x k).

Lemma map_c_forall2 {A B} (f : A -> completion B) (P : A -> Prop) (R : A -> B -> Prop) xs :
  (forall x, P x -> exists y, f x = Normal y /\ R x y) -> Forall P xs ->
  exists ys, map_c f xs = Normal ys /\ Forall2 R xs ys.
Proof.
  intros Hf Hxs. induction Hxs as [|x xs Hx _ IH]; [exists []; split; constructor|].
  destruct (Hf x Hx) as (y & Hy & Hr), IH as (ys & Hys & Hrs).
  exists (y :: ys). cbn. rewrite Hy, Hys. split; [reflexivity | now constructor].
Qed.

Lemma rewrite_thumbnail_line_item base x :
  line_item x -> exists y, rewrite_thumbnail base x = Normal y /\ thumbnail_rewritten base x y.
Proof.
  intros (ps & qs & s & -> & Hp & Ht). unfold rewrite_thumbnail, thumbnail_rewritten, read2.
  cbn [get_prop own_prop]. rewrite Hp. cbn [cbind get_prop own_prop]. rewrite Ht. cbn [cbind to_string set_prop].
  eexists. split; [reflexivity|]. exists s. cbn [get_prop own_prop cbind].
  rewrite !assoc_lookup_set_eq. cbn [cbind get_prop own_prop].
  split; [reflexivity|]. split; [now rewrite assoc_lookup_set_eq|]. split.
  - intros k Hk. now rewrite assoc_lookup_set_ne by congruence.
  - intros k Hk. now rewrite assoc_lookup_set_ne by congruence.
Qed.

(** on an array of line items, the [map] returns an array of the same
    length whose every item has its product thumbnail [s] replaced by
    [<base>/products/images/s], the other properties of the item and of
    its product unchanged. *)
Theorem map_order_details_thumbnails base xs :
  Forall line_item xs ->
  exists ys, map_order_details base (JArr xs) = Normal (JArr ys) /\ Forall2 (thumbnail_rewritten base) xs ys.
Proof.
  intros Hxs. destruct (map_c_forall2 (rewrite_thumbnail base) line_item (thumbnail_rewritten base) xs
                          (rewrite_thumbnail_line_item base) Hxs) as (ys & Hys & Hr).
  exists ys. cbn [map_order_details]. rewrite Hys. split; [reflexivity | exact Hr].
Qed.

(** ** The [next] callback *)

(** C33: the callback never writes [orderResponse.shipping_address]: after
    it, returned or thrown, the property is what it was before (the empty
    string of the initial object), whatever the response. *)
Theorem next_keeps_shipping_address apiBaseUrl tza response st :
  assoc_lookup "shipping_address" (orderResponse (snd (next apiBaseUrl tza response st))) =
  assoc_lookup "shipping_address" (orderResponse st).
Proof. revert st. change (keeps (prop_at "shipping_address") (next apiBaseUrl tza response)). unfold next. keeps. Qed.

(** [response.k] on a response object. *)
Definition prop_or_undef (ps : list (jstr * jsval)) (k : jstr) : jsval :=
  match assoc_lookup k ps with Some x => x | None => JUndef end.

(** The writes a callback run makes to [orderResponse], in order, when
    the two dates and the line items evaluate to [od], [ds] and [sd]. *)
Definition next_writes (ps : list (jstr * jsval)) (od : jsnum) (ds : jsval) (sd : jsnum) :
    list (jstr * field) :=
  [("id", FVal (prop_or_undef ps "id")); ("user_id", FVal (prop_or_undef ps "user_id"));
   ("fullname", FVal (prop_or_undef ps "fullname")); ("email", FVal (prop_or_undef ps "email"));
   ("phone_number", FVal (prop_or_undef ps "phone_number"));
   ("address", FVal (prop_or_undef ps "address")); ("note", FVal (prop_or_undef ps "note"));
   ("order_date", FDate od); ("order_details", FVal ds);
   ("payment_method", FVal (prop_or_undef ps "payment_method")); ("shipping_date", FDate sd);
   ("shipping_method", FVal (prop_or_undef ps "shipping_method"));
   ("status", FVal (prop_or_undef ps "status")); ("total_money", FVal (prop_or_undef ps "total_money"))].

Definition apply_writes (ws : list (jstr * field)) (r : order_response) : order_response :=
  fold_left (fun r kx => assoc_set (fst kx) (snd kx) r) ws r.

Lemma next_obj apiBaseUrl tza ps st od ds sd :
  date_arg tza (JObj ps) "order_date" = Normal od ->
  map_order_details apiBaseUrl (prop_or_undef ps "order_details") = Normal ds ->
  date_arg tza (JObj ps) "shipping_date" = Normal sd ->
  next apiBaseUrl tza (JObj ps) st =
  (Normal tt, {| orderService := {| OrderService.latestOrderId := prop_or_undef ps "id" |};
                 orderResponse := apply_writes (next_writes ps od ds sd) (orderResponse st);
                 console := console st |}).
Proof.
  intros Hod Hds Hsd. unfold next.
  assert (Hds' : (let* v := get_prop (JObj ps) "order_details" in map_order_details apiBaseUrl v) = Normal ds)
    by exact Hds.
  rewrite Hod, Hds', Hsd. run_steps. reflexivity.
Qed.

Lemma lookup_apply_writes k ws r :
  assoc_lookup k (apply_writes ws r) =
  match assoc_lookup k (rev ws) with Some x => Some x | None => assoc_lookup k r end.
Proof.
  revert r. induction ws as [|[k' x] ws IH] using rev_ind; intros r; [reflexivity|].
  unfold apply_writes in *. rewrite fold_left_app, rev_unit. cbn [fold_left fst snd assoc_lookup].
  destruct (decide (k = k')) as [->|Hne].
  - apply assoc_lookup_set_eq.
  - rewrite assoc_lookup_set_ne by congruence. apply IH.
Qed.

(** The properties the callback copies from the response unchanged. *)
Definition copied_keys : list jstr :=
  ["id"; "user_id"; "fullname"; "email"; "phone_number"; "address"; "note"; "payment_method";
   "shipping_method"; "status"; "total_money"].

(** C8: on a response object whose two dates are calendar triples and
    whose [order_details] is an array of line items, the callback returns
    normally; afterwards the service's [latestOrderId] is [response.id],
    both dates are Dates showing the payload's components, the line items
    carry absolute thumbnail URLs, the other copied properties hold the
    response's values, and [shipping_address] is left as it was. *)
Theorem next_normalizes apiBaseUrl tza ps st vo yo Mo dd vs ys Ms ds xs :
  assoc_lookup "order_date" ps = Some vo -> calendar_triple vo yo Mo dd ->
  assoc_lookup "shipping_date" ps = Some vs -> calendar_triple vs ys Ms ds ->
  assoc_lookup "order_details" ps = Some (JArr xs) -> Forall line_item xs ->
  Z.abs tza <= msPerDay ->
  exists od sd items st',
    next apiBaseUrl tza (JObj ps) st = (Normal tt, st') /\
    OrderService.latestOrderId (orderService st') = prop_or_undef ps "id" /\
    assoc_lookup "order_date" (orderResponse st') = Some (FDate od) /\ date_shows tza od yo Mo dd /\
    assoc_lookup "shipping_date" (orderResponse st') = Some (FDate sd) /\ date_shows tza sd ys Ms ds /\
    assoc_lookup "order_details" (orderResponse st') = Some (FVal (JArr items)) /\
    Forall2 (thumbnail_rewritten apiBaseUrl) xs items /\
    (forall k, In k copied_keys -> assoc_lookup k (orderResponse st') = Some (FVal (prop_or_undef ps k))) /\
    assoc_lookup "shipping_address" (orderResponse st') = assoc_lookup "shipping_address" (orderResponse st).
Proof.
  intros Hvo Hco Hvs Hcs Hxs Hitems Htz.
  destruct (date_arg_calendar tza ps _ _ _ _ _ Hvo Hco Htz) as (od & Hod & Hshow_o).
  destruct (date_arg_calendar tza ps _ _ _ _ _ Hvs Hcs Htz) as (sd & Hsd & Hshow_s).
  destruct (map_c_forall2 (rewrite_thumbnail apiBaseUrl) line_item (thumbnail_rewritten apiBaseUrl) xs
              (rewrite_thumbnail_line_item apiBaseUrl) Hitems) as (items & Hmap & Hrel).
  assert (Hds : map_order_details apiBaseUrl (prop_or_undef ps "order_details") = Normal (JArr items))
    by (unfold prop_or_undef; rewrite Hxs; cbn [map_order_details]; now rewrite Hmap).
  exists od, sd, items. eexists. split; [exact (next_obj apiBaseUrl tza ps st od _ sd Hod Hds Hsd)|].
  cbn [orderService orderResponse OrderService.latestOrderId]. rewrite !lookup_apply_writes.
  split; [reflexivity|]. split; [vm_compute; reflexivity|]. split; [exact Hshow_o|].
  split; [vm_compute; reflexivity|]. split; [exact Hshow_s|].
  split; [vm_compute; reflexivity|]. split; [exact Hrel|]. split; [|vm_compute; reflexivity].
  intros k Hk. rewrite lookup_apply_writes. cbn in Hk.
  repeat match goal with H : _ \/ _ |- _ => destruct H as [<- | H] end; [..|contradiction];
    vm_compute; reflexivity.
Qed.

(** The reference the callback is compared with: the [OrderResponse]
    object literal filled from the response, in the literal's order, with
    the [shipping_address] it had. *)
Definition normalized (ps : list (jstr * jsval)) (od : jsnum) (ds : jsval) (sd : jsnum)
    (shipping_address : field) : order_response :=
  [("id", FVal (prop_or_undef ps "id")); ("user_id", FVal (prop_or_undef ps "user_id"));
   ("fullname", FVal (prop_or_undef ps "fullname")); ("phone_number", FVal (prop_or_undef ps "phone_number"));
   ("email", FVal (prop_or_undef ps "email")); ("address", FVal (prop_or_undef ps "address"));
   ("note", FVal (prop_or_undef ps "note")); ("order_date", FDate od);
   ("status", FVal (prop_or_undef ps "status")); ("total_money", FVal (prop_or_undef ps "total_money"));
   ("shipping_method", FVal (prop_or_undef ps "shipping_method")); ("shipping_address", shipping_address);
   ("shipping_date", FDate sd); ("payment_method", FVal (prop_or_undef ps "payment_method"));
   ("order_details", FVal ds)].

Lemma keys_combine {A} (r : list (jstr * A)) : r = combine (map fst r) (map snd r).
Proof. induction r as [|[k v] r IH]; cbn; [reflexivity | now rewrite <- IH]. Qed.

(** The writes of the callback, on an object with the declared keys. *)
Lemma apply_writes_typed ps od ds sd r :
  well_typed r ->
  apply_writes (next_writes ps od ds sd) r =
  normalized ps od ds sd (default (FVal JUndef) (assoc_lookup "shipping_address" r)).
Proof.
  intros [Hkeys _]. rewrite (keys_combine r), Hkeys.
  assert (Hlen : length (map snd r) = 15%nat) by (rewrite length_map, <- (length_map fst), Hkeys; reflexivity).
  revert Hlen. generalize (map snd r) as vs. intros vs Hlen.
  do 15 (destruct vs as [|? vs]; [discriminate|]). destruct vs; [reflexivity | discriminate].
Qed.

(** C9: on a response object whose two dates and line items convert,
    the callback's seventeen statements are equivalent to replacing
    [orderResponse] by the [OrderResponse] object literal filled from the
    response: the declared keys in the literal's order, [shipping_address]
    as it was, and nothing else; this holds whenever [orderResponse] had
    its declared type. *)
Theorem next_equiv_literal apiBaseUrl tza ps st od ds sd :
  well_typed (orderResponse st) ->
  date_arg tza (JObj ps) "order_date" = Normal od ->
  map_order_details apiBaseUrl (prop_or_undef ps "order_details") = Normal ds ->
  date_arg tza (JObj ps) "shipping_date" = Normal sd ->
  next apiBaseUrl tza (JObj ps) st =
  (Normal tt, {| orderService := {| OrderService.latestOrderId := prop_or_undef ps "id" |};
                 orderResponse := normalized ps od ds sd (default (FVal JUndef) (prop_at "shipping_address" st));
                 console := console st |}).
Proof.
  intros Hwt Hod Hds Hsd. rewrite (next_obj apiBaseUrl tza ps st od ds sd Hod Hds Hsd).
  now rewrite apply_writes_typed by exact Hwt.
Qed.

Lemma date_arg_missing tza ps k : assoc_lookup k ps = None -> date_arg tza (JObj ps) k = Throw TypeError.
Proof. intros Hk. unfold date_arg. cbn [get_prop own_prop]. now rewrite Hk. Qed.

(** C34: a response without [order_date] makes the callback throw a
    TypeError, after it has already overwritten the service's
    [latestOrderId] and copied [id] to [note]: the order date, the line
    items and the later properties keep their previous values. *)
Theorem next_missing_order_date apiBaseUrl tza ps st :
  assoc_lookup "order_date" ps = None ->
  exists st', next apiBaseUrl tza (JObj ps) st = (Throw TypeError, st') /\
    OrderService.latestOrderId (orderService st') = prop_or_undef ps "id" /\
    assoc_lookup "note" (orderResponse st') = Some (FVal (prop_or_undef ps "note")) /\
    (forall k, k = "order_date" \/ k = "order_details" \/ k = "shipping_date" \/ k = "status" ->
               assoc_lookup k (orderResponse st') = assoc_lookup k (orderResponse st)).
Proof.
  intros Hk. unfold next. rewrite (date_arg_missing tza ps _ Hk). run_steps.
  eexists. split; [erewrite hbind_throw by reflexivity; reflexivity|].
  cbn [orderService orderResponse OrderService.latestOrderId]. split; [reflexivity|].
  split; [now rewrite assoc_lookup_set_eq|].
  intros k Hks. repeat match goal with H : _ \/ _ |- _ => destruct H as [-> | H] end; subst;
    now rewrite !assoc_lookup_set_ne by discriminate.
Qed.

(** ** The request *)

(** a route parameter that is the decimal form of an integer [n]
    (below [10^21]) requests [GET <base>/orders/<the same digits>]. *)
Theorem getOrderDetails_request_int apiBaseUrl n :
  Z.abs n < 10 ^ 21 ->
  exists r, getOrderDetails_request apiBaseUrl (Some (num_to_string (num_of_Z n))) = Normal r /\
    req_method r = GET /\ req_url r = apiBaseUrl +++ "/orders/" +++ num_to_string (num_of_Z n).
Proof.
  intros Hn. eexists. split; [unfold getOrderDetails_request; cbn [to_number cbind]; reflexivity|].
  cbn. now rewrite string_to_number_num_to_string_int.
Qed.

(** C38: a route without an [id] parameter requests the order ["0"], and
    a parameter that is not a number requests the order ["NaN"]: neither
    is rejected before the request is sent. *)
Theorem getOrderDetails_request_bad_param apiBaseUrl s :
  string_to_number s = NaN ->
  getOrderDetails_request apiBaseUrl None = Normal (OrderService.getOrderById apiBaseUrl (Fin dzero)) /\
  req_url (OrderService.getOrderById apiBaseUrl (Fin dzero)) = apiBaseUrl +++ "/orders/" +++ "0" /\
  exists r, getOrderDetails_request apiBaseUrl (Some s) = Normal r /\
    req_url r = apiBaseUrl +++ "/orders/" +++ "NaN".
Proof.
  intros Hs. split; [reflexivity|]. split; [reflexivity|].
  eexists. split; [reflexivity|]. cbn. now rewrite Hs.
Qed.

(** ** Witnesses, on the payload of the spec's example *)

Definition sample_base : jstr := "https://api.example.com".

(** UTC+7: local time is seven hours ahead of UTC. *)
Definition sample_tza : Z := 25200000.

Definition sample_item : jsval :=
  JObj [("id", JNum (num_of_Z 1));
        ("product", JObj [("name", JStr "Shoe"); ("thumbnail", JStr "shoe1.png")]);
        ("quantity", JNum (num_of_Z 2))].

Definition sample_order : list (jstr * jsval) :=
  [("id", JNum (num_of_Z 7)); ("user_id", JNum (num_of_Z 42)); ("fullname", JStr "An");
   ("email", JStr "an@example.com"); ("phone_number", JStr "0123"); ("address", JStr "Hanoi");
   ("note", JStr ""); ("order_date", JArr [JNum (num_of_Z 2023); JNum (num_of_Z 11); JNum (num_of_Z 5)]);
   ("status", JStr "pending"); ("total_money", JNum (num_of_Z 100));
   ("shipping_method", JStr "express"); ("shipping_address", JStr "Hanoi");
   ("shipping_date", JArr [JNum (num_of_Z 2023); JNum (num_of_Z 11); JNum (num_of_Z 8)]);
   ("payment_method", JStr "cod"); ("order_details", JArr [sample_item])].

Definition sample_state : OrderDetail.detail_state :=
  OrderDetail.init {| OrderService.latestOrderId := JNull |} (num_of_Z 0).

Lemma date_arg_components_witness :
  exists t, OrderDetail.date_arg sample_tza (JObj sample_order) "order_date" = Normal t /\
    getFullYear sample_tza t = num_of_Z (full_year 2023) /\ getMonth sample_tza t = num_of_Z (11 - 1) /\
    getDate sample_tza t = num_of_Z 5.
Proof.
  apply (OrderDetail.date_arg_components sample_tza sample_order "order_date" 2023 11 5 []);
    [vm_compute; reflexivity | lia | lia | vm_compute; split; discriminate | vm_compute; discriminate].
Defined.

Lemma order_date_short_array_witness :
  OrderDetail.date_arg sample_tza (JObj [("order_date", JArr [JNum (num_of_Z 2023); JNum (num_of_Z 11)])])
    "order_date" = Normal NaN.
Proof.
  apply (OrderDetail.order_date_short_array sample_tza _ [JNum (num_of_Z 2023); JNum (num_of_Z 11)]);
    [reflexivity | cbn; lia | repeat constructor; eexists; reflexivity].
Defined.

Lemma sample_line_items : Forall OrderDetail.line_item [sample_item].
Proof. repeat constructor. do 3 eexists. split; [reflexivity|]. split; vm_compute; reflexivity. Qed.

Lemma map_order_details_thumbnails_witness :
  exists ys, OrderDetail.map_order_details sample_base (JArr [sample_item]) = Normal (JArr ys) /\
    Forall2 (OrderDetail.thumbnail_rewritten sample_base) [sample_item] ys.
Proof. exact (OrderDetail.map_order_details_thumbnails sample_base [sample_item] sample_line_items). Defined.

Lemma sample_calendar_triple y M d :
  (y, M, d) = (2023, 11, 5) \/ (y, M, d) = (2023, 11, 8) ->
  OrderDetail.calendar_triple (JArr [JNum (num_of_Z y); JNum (num_of_Z M); JNum (num_of_Z d)]) y M d.
Proof.
  intros [[= -> -> ->] | [= -> -> ->]]; exists []; (split; [reflexivity|]); vm_compute;
    repeat split; discriminate.
Qed.

Lemma next_normalizes_witness :
  exists od sd items st',
    OrderDetail.next sample_base sample_tza (JObj sample_order) sample_state = (Normal tt, st') /\
    OrderService.latestOrderId (OrderDetail.orderService st') = OrderDetail.prop_or_undef sample_order "id" /\
    assoc_lookup "order_date" (OrderDetail.orderResponse st') = Some (OrderDetail.FDate od) /\
    OrderDetail.date_shows sample_tza od 2023 11 5 /\
    assoc_lookup "shipping_date" (OrderDetail.orderResponse st') = Some (OrderDetail.FDate sd) /\
    OrderDetail.date_shows sample_tza sd 2023 11 8 /\
    assoc_lookup "order_details" (OrderDetail.orderResponse st') = Some (OrderDetail.FVal (JArr items)) /\
    Forall2 (OrderDetail.thumbnail_rewritten sample_base) [sample_item] items /\
    (forall k, In k OrderDetail.copied_keys ->
       assoc_lookup k (OrderDetail.orderResponse st') = Some (OrderDetail.FVal (OrderDetail.prop_or_undef sample_order k))) /\
    assoc_lookup "shipping_address" (OrderDetail.orderResponse st') =
    assoc_lookup "shipping_address" (OrderDetail.orderResponse sample_state).
Proof.
  apply (OrderDetail.next_normalizes sample_base sample_tza sample_order sample_state
           (JArr [JNum (num_of_Z 2023); JNum (num_of_Z 11); JNum (num_of_Z 5)]) 2023 11 5
           (JArr [JNum (num_of_Z 2023); JNum (num_of_Z 11); JNum (num_of_Z 8)]) 2023 11 8 [sample_item]);
    [vm_compute; reflexivity | apply sample_calendar_triple; auto | vm_compute; reflexivity
    | apply sample_calendar_triple; auto | vm_compute; reflexivity | exact sample_line_items
    | vm_compute; discriminate].
Defined.

(** The sample line item after the callback's rewrite. *)
Definition sample_item_rewritten : jsval :=
  JObj [("id", JNum (num_of_Z 1));
        ("product", JObj [("name", JStr "Shoe");
                          ("thumbnail", JStr "https://api.example.com/products/images/shoe1.png")]);
        ("quantity", JNum (num_of_Z 2))].

Lemma next_equiv_literal_witness :
  OrderDetail.next sample_base sample_tza (JObj sample_order) sample_state =
  (Normal tt, {| OrderDetail.orderService := {| OrderService.latestOrderId := JNum (num_of_Z 7) |};
                 OrderDetail.orderResponse :=
                   OrderDetail.normalized sample_order (num_of_Z 1699117200000) (JArr [sample_item_rewritten])
                     (num_of_Z 1699376400000) (OrderDetail.FVal (JStr ""));
                 OrderDetail.console := [] |}).
Proof.
  apply (OrderDetail.next_equiv_literal sample_base sample_tza sample_order sample_state);
    [apply (bool_decide_unpack _); vm_compute; exact I | vm_compute; reflexivity
    | vm_compute; reflexivity | vm_compute; reflexivity].
Defined.

Lemma next_missing_order_date_witness :
  exists st', OrderDetail.next sample_base sample_tza (JObj [("id", JNum (num_of_Z 7))]) sample_state
              = (Throw TypeError, st') /\
    OrderService.latestOrderId (OrderDetail.orderService st') = OrderDetail.prop_or_undef [("id", JNum (num_of_Z 7))] "id" /\
    assoc_lookup "note" (OrderDetail.orderResponse st') =
      Some (OrderDetail.FVal (OrderDetail.prop_or_undef [("id", JNum (num_of_Z 7))] "note")) /\
    (forall k, k = "order_date" \/ k = "order_details" \/ k = "shipping_date" \/ k = "status" ->
       assoc_lookup k (OrderDetail.orderResponse st') = assoc_lookup k (OrderDetail.orderResponse sample_state)).
Proof. apply OrderDetail.next_missing_order_date. vm_compute. reflexivity. Defined.

Lemma getOrderDetails_request_int_witness :
  exists r, OrderDetail.getOrderDetails_request sample_base (Some (num_to_string (num_of_Z 7))) = Normal r /\
    req_method r = GET /\ req_url r = sample_base +++ "/orders/" +++ num_to_string (num_of_Z 7).
Proof. apply OrderDetail.getOrderDetails_request_int. lia. Defined.

Lemma getOrderDetails_request_bad_param_witness :
  OrderDetail.getOrderDetails_request sample_base None =
    Normal (OrderService.getOrderById sample_base (Fin dzero)) /\
  req_url (OrderService.getOrderById sample_base (Fin dzero)) = sample_base +++ "/orders/" +++ "0" /\
  exists r, OrderDetail.getOrderDetails_request sample_base (Some "abc") = Normal r /\
    req_url r = sample_base +++ "/orders/" +++ "NaN".
Proof. apply OrderDetail.getOrderDetails_request_bad_param. vm_compute. reflexivity. Defined.
(** the example of the spec, run through the callback in UTC+7:
    [order_date = [2023, 11, 5]] shows 5 November 2023 (month 10 counted
    from 0) and the thumbnail ["shoe1.png"] becomes
    ["https://api.example.com/products/images/shoe1.png"]. *)
Example next_spec_example :
  let st' := snd (next sample_base sample_tza (JObj sample_order) sample_state) in
  match assoc_lookup "order_date" (orderResponse st') with
  | Some (FDate t) => (getFullYear sample_tza t, getMonth sample_tza t, getDate sample_tza t)
  | _ => (NaN, NaN, NaN)
  end = (num_of_Z 2023, num_of_Z 10, num_of_Z 5) /\
  match assoc_lookup "order_details" (orderResponse st') with
  | Some (FVal v) => let* item := get_prop v "0" in read2 item "product" "thumbnail"
  | _ => Throw TypeError
  end = Normal (JStr "https://api.example.com/products/images/shoe1.png").
Proof. vm_compute. split; reflexivity. Qed.

End OrderDetail.
