(* ===== verification/Http.v ===== *)
(** * The HTTP transport, as a subscriber of [HttpClient] sees it

    The order page subscribes to the observable [getOrderById] returns.
    [HttpClient] delivers, asynchronously and for each subscription on
    its own, either one response followed by the completion or one error
    (spec, section 5: a fetch resolves through a single completion
    callback, and responses of different requests may arrive in any
    order).  A [subscription] is the request sent and the phase it is in;
    [admits] says which notification it can receive next and [after] what
    it becomes.  An exception thrown by the subscriber's callback does not
    change the subscription: RxJS reports it and goes on.  The transport
    is framework code outside [src/], modelled from the spec and the
    [Observable] contract; the bodies of the responses are arbitrary. *)

From stdpp Require Import base.
From S2P Require Import Prelude JsString JsValue OrderService OrderDetail.

Module Http.

Inductive phase := Awaiting | Answered.

Record subscription := {
  request : http_request;
  phase_of : phase
}.

(** [subscribe()]: the request is sent and its answer awaited. *)
Definition subscribe (r : http_request) : subscription := {| request := r; phase_of := Awaiting |}.

(** The notifications the subscription can receive next. *)
Definition admits (p : phase) (o : OrderDetail.http_outcome) : bool :=
  match p, o with
  | Awaiting, OrderDetail.HttpNext _ | Awaiting, OrderDetail.HttpError _ => true
  | Answered, OrderDetail.HttpComplete => true
  | _, _ => false
  end.

(** The subscription after a notification: answered after the response,
    closed ([None]) after an error or the completion. *)
Definition after (sb : subscription) (o : OrderDetail.http_outcome) : option subscription :=
  match o with
  | OrderDetail.HttpNext _ => Some {| request := request sb; phase_of := Answered |}
  | _ => None
  end.

(** A subscription receives at most one response: once answered, only
    its completion is admitted, and the completion closes it. *)
Lemma admits_after sb o sb' o' :
  admits (phase_of sb) o = true -> after sb o = Some sb' -> admits (phase_of sb') o' = true ->
  o' = OrderDetail.HttpComplete /\ after sb' o' = None.
Proof.
  intros _ Haf Hb. destruct o; cbn in Haf; try discriminate. injection Haf as <-.
  destruct o'; cbn in Hb; [discriminate | discriminate | split; reflexivity].
Qed.

End Http.
