(* ===== verification/Header.v ===== *)
(** * HeaderComponent ([src/app/components/header/header.component.ts])

    The header keeps [userResponse], [isPopoverOpen] and [activeNavItem].
    [handleItemClick(index)] serves the popover's three items: the profile
    page, the latest order ([['/orders', latestOrderId]] when the service's
    [latestOrderId] is truthy, a console error otherwise) and logout
    (remove the user, remove the token, re-read the user); it then closes
    the popover.  The handlers run over a [header_world]: the component,
    the browser's storage ([None] without a [window]), the [OrderService]
    singleton shared with the other components, the router's navigation
    log and the console.  [UserService] is not part of the repository: it
    is an interface, a [Class] whose two operations the header calls. *)

From Stdlib Require Import ZArith List Lia.
From stdpp Require Import base list gmap.
From S2P Require Import Prelude JsString JsNumber JsValue Router Storage AngularJwt TokenService OrderService.
Import ListNotations.
Open Scope Z_scope.
Open Scope jstr_scope.
Open Scope handler_scope.

(** What the header uses of [UserService]: reading the stored user (which
    may throw, e.g. on malformed JSON) and removing it. *)
Class UserService (St : Type) := {
  getUserResponseFromLocalStorage : option St -> completion jsval;
  removeUserFromLocalStorage : option St -> completion (option St)
}.

Module Header.

Record header := {
  userResponse : jsval;
  isPopoverOpen : bool;
  activeNavItem : jsval
}.

(** The field initialisers: [userResponse] is [undefined]. *)
Definition initial_header : header :=
  {| userResponse := JUndef; isPopoverOpen := false; activeNavItem := JNum (num_of_Z 0) |}.

Section Header.
Context {St : Type} `{WebStorage St} `{UserService St}.

Record header_world := {
  hdr : header;
  storage : option St;
  orderService : OrderService.order_service;
  nav : nav_log;
  console : console_log
}.

Definition set_hdr (h : header) (w : header_world) : header_world :=
  {| hdr := h; storage := storage w; orderService := orderService w; nav := nav w; console := console w |}.

Definition set_storage (ls : option St) (w : header_world) : header_world :=
  {| hdr := hdr w; storage := ls; orderService := orderService w; nav := nav w; console := console w |}.

Definition push_nav (cmds : commands) (w : header_world) : header_world :=
  {| hdr := hdr w; storage := storage w; orderService := orderService w; nav := navigate cmds (nav w);
     console := console w |}.

Definition log_error (args : list jsval) (w : header_world) : header_world :=
  {| hdr := hdr w; storage := storage w; orderService := orderService w; nav := nav w;
     console := console_error args (console w) |}.

Definition with_userResponse (u : jsval) (h : header) : header :=
  {| userResponse := u; isPopoverOpen := isPopoverOpen h; activeNavItem := activeNavItem h |}.

Definition with_popover (b : bool) (h : header) : header :=
  {| userResponse := userResponse h; isPopoverOpen := b; activeNavItem := activeNavItem h |}.

Definition with_activeNavItem (i : jsval) (h : header) : header :=
  {| userResponse := userResponse h; isPopoverOpen := isPopoverOpen h; activeNavItem := i |}.

(** [index === k] for a number literal [k]. *)
Definition index_is (index : jsval) (k : Z) : bool :=
  match index with
  | JNum n => num_strict_eq n (num_of_Z k)
  | _ => false
  end.

Definition PROFILE_ROUTE : commands := [JStr "/user-profile"].

Definition ORDERS_PATH : jstr := "/orders".

(** ["Không có đơn hàng nào được lưu."] ("no order has been saved"), as
    UTF-16 code units. *)
Definition NO_ORDER_MSG : jstr :=
  JS [75; 104; 244; 110; 103; 32; 99; 243; 32; 273; 417; 110; 32; 104; 224; 110; 103; 32; 110; 224;
      111; 32; 273; 432; 7907; 99; 32; 108; 432; 117; 46].

(** [this.userResponse = this.userService.getUserResponseFromLocalStorage()]. *)
Definition reload_user : handler header_world unit :=
  let! w := hget in
  let! u := hlift (getUserResponseFromLocalStorage (storage w)) in
  hmodify (fun w => set_hdr (with_userResponse u (hdr w)) w).

Definition ngOnInit : handler header_world unit := reload_user.

(** [togglePopover(event)]; [event.preventDefault()] acts on the DOM event
    only. *)
Definition togglePopover : handler header_world unit :=
  hmodify (fun w => set_hdr (with_popover (negb (isPopoverOpen (hdr w))) (hdr w)) w).

(** The latest-order item: navigate to the order when the id is truthy. *)
Definition open_latest_order : handler header_world unit :=
  let! w := hget in
  let orderId := OrderService.latestOrderId (orderService w) in
  if to_boolean orderId then hmodify (push_nav [JStr ORDERS_PATH; orderId])
  else hmodify (log_error [JStr NO_ORDER_MSG]).

(** The logout item. *)
Definition logout : handler header_world unit :=
  let! w := hget in
  let! ls := hlift (removeUserFromLocalStorage (storage w)) in
  let! _ := hmodify (set_storage ls) in
  let! _ := hmodify (fun w => set_storage (TokenService.removeToken (storage w)) w) in
  reload_user.

Definition handleItemClick (index : jsval) : handler header_world unit :=
  let! _ := (if index_is index 0 then hmodify (push_nav PROFILE_ROUTE)
             else if index_is index 1 then open_latest_order
             else if index_is index 2 then logout
             else hret tt) in
  hmodify (fun w => set_hdr (with_popover false (hdr w)) w).

Definition setActiveNavItem (index : jsval) : handler header_world unit :=
  hmodify (fun w => set_hdr (with_activeNavItem index (hdr w)) w).
End Header.

(** ** Properties *)

Section HeaderProps.
Context {St : Type} `{WebStorageLaws St} `{UserService St}.

Lemma index_is_int (n k : Z) : Z.abs n < 10 ^ 21 -> Z.abs k < 10 ^ 21 ->
  index_is (JNum (num_of_Z n)) k = (n =? k).
Proof.
  intros Hn Hk. unfold index_is. rewrite !num_of_Z_small by assumption. cbn [num_strict_eq].
  destruct (dnorm_int_value n) as [Hvn Hen], (dnorm_int_value k) as [Hvk Hek].
  rewrite dcompare_nonneg_ex, Hvn, Hvk by assumption.
  destruct (Z.compare_spec n k); destruct (Z.eqb_spec n k); congruence || lia.
Qed.

Lemma handleItemClick_cases index (w : header_world) :
  handleItemClick index w =
  let close w := set_hdr (with_popover false (hdr w)) w in
  match (if index_is index 0 then hmodify (push_nav PROFILE_ROUTE)
         else if index_is index 1 then open_latest_order
         else if index_is index 2 then logout
         else hret tt) w with
  | (Normal _, w') => (Normal tt, close w')
  | (Throw e, w') => (Throw e, w')
  end.
Proof. reflexivity. Qed.

(** [ngOnInit] only writes [userResponse]. *)
Lemma ngOnInit_frame (w : header_world) :
  let w' := snd (ngOnInit w) in
  nav w' = nav w /\ orderService w' = orderService w /\ storage w' = storage w.
Proof.
  unfold ngOnInit, reload_user, hbind, hget, hlift, hmodify.
  destruct (getUserResponseFromLocalStorage (storage w)); cbn; auto.
Qed.

(** A click never touches the shared service; only logout changes the
    storage, to what removing the user and then the token leave. *)
Lemma handleItemClick_frame index (w : header_world) :
  let w' := snd (handleItemClick index w) in
  orderService w' = orderService w /\
  (storage w' = storage w \/
   exists ls', removeUserFromLocalStorage (storage w) = Normal ls' /\ storage w' = TokenService.removeToken ls').
Proof.
  cbn zeta. rewrite handleItemClick_cases.
  destruct (index_is index 0); [split; [reflexivity | now left]|].
  destruct (index_is index 1).
  { unfold open_latest_order, hbind, hget. destruct (to_boolean _); split; auto. }
  destruct (index_is index 2); [|split; [reflexivity | now left]].
  unfold logout, reload_user, hbind, hget, hlift, hmodify.
  destruct (removeUserFromLocalStorage (storage w)) as [ls'|] eqn:Hrm; [|split; [reflexivity | now left]].
  destruct (getUserResponseFromLocalStorage _); cbn; (split; [reflexivity | right; eauto]).
Qed.

(** The latest-order item, as one step. *)
Lemma handleItemClick_1 (w : header_world) :
  let id := OrderService.latestOrderId (orderService w) in
  handleItemClick (JNum (num_of_Z 1)) w =
  (Normal tt, let w1 := if to_boolean id then push_nav [JStr ORDERS_PATH; id] w
                        else log_error [JStr NO_ORDER_MSG] w in
              set_hdr (with_popover false (hdr w1)) w1).
Proof.
  cbn zeta. rewrite handleItemClick_cases.
  rewrite (index_is_int 1 0), (index_is_int 1 1) by lia. cbn -[to_boolean].
  destruct (to_boolean _); reflexivity.
Qed.

(** Logout, when the user service returns. *)
Lemma handleItemClick_2 (w : header_world) ls' u :
  removeUserFromLocalStorage (storage w) = Normal ls' ->
  getUserResponseFromLocalStorage (TokenService.removeToken ls') = Normal u ->
  handleItemClick (JNum (num_of_Z 2)) w =
  (Normal tt, {| hdr := with_popover false (with_userResponse u (hdr w));
                 storage := TokenService.removeToken ls'; orderService := orderService w;
                 nav := nav w; console := console w |}).
Proof.
  intros Hrm Hget. rewrite handleItemClick_cases.
  rewrite (index_is_int 2 0), (index_is_int 2 1), (index_is_int 2 2) by lia. cbn -[TokenService.removeToken].
  rewrite Hrm. cbn -[TokenService.removeToken]. rewrite Hget. reflexivity.
Qed.

(** A click requests at most one navigation: the profile page or an order
    whose id is truthy. *)
Lemma handleItemClick_nav index (w : header_world) :
  let w' := snd (handleItemClick index w) in
  nav w' = nav w \/ nav w' = nav w ++ [PROFILE_ROUTE] \/
  exists v, to_boolean v = true /\ nav w' = nav w ++ [[JStr ORDERS_PATH; v]].
Proof.
  cbn zeta. rewrite handleItemClick_cases.
  destruct (index_is index 0); [right; left; reflexivity|].
  destruct (index_is index 1).
  { unfold open_latest_order, hbind, hget. destruct (to_boolean _) eqn:Hb; [|now left].
    right; right. eexists. split; [exact Hb | reflexivity]. }
  destruct (index_is index 2); [|now left].
  unfold logout, reload_user, hbind, hget, hlift, hmodify.
  destruct (removeUserFromLocalStorage (storage w)); [|now left].
  destruct (getUserResponseFromLocalStorage _); now left.
Qed.

(** the latest-order item navigates to [['/orders', id]] when the
    service's [latestOrderId] is truthy and logs the "no order saved"
    error otherwise; either way it returns, requests nothing else, and
    closes the popover. *)
Theorem handleItemClick_latest_order (w : header_world) :
  let id := OrderService.latestOrderId (orderService w) in
  let '(r, w') := handleItemClick (JNum (num_of_Z 1)) w in
  r = Normal tt /\ isPopoverOpen (hdr w') = false /\ orderService w' = orderService w /\
  storage w' = storage w /\
  (if to_boolean id then nav w' = nav w ++ [[JStr "/orders"; id]] /\ console w' = console w
   else nav w' = nav w /\ console w' = console w ++ [[JStr NO_ORDER_MSG]]).
Proof. rewrite handleItemClick_1. cbn zeta. destruct (to_boolean _); cbn; repeat split. Qed.

(** a [latestOrderId] of [0], [NaN], [null] or [undefined] never
    leads to a navigation: the click logs the error instead. *)
Theorem handleItemClick_no_sentinel (w : header_world) :
  OrderService.latestOrderId (orderService w) = JNum (num_of_Z 0) \/
  OrderService.latestOrderId (orderService w) = JNum NaN \/
  OrderService.latestOrderId (orderService w) = JNull \/
  OrderService.latestOrderId (orderService w) = JUndef ->
  nav (snd (handleItemClick (JNum (num_of_Z 1)) w)) = nav w.
Proof.
  intros Hid. rewrite handleItemClick_1. cbn zeta.
  replace (to_boolean (OrderService.latestOrderId (orderService w))) with false
    by (destruct Hid as [-> | [-> | [-> | ->]]]; reflexivity).
  reflexivity.
Qed.

(** C37: logout, when the user service returns, leaves no token in the
    storage, reloads [userResponse] from the storage it leaves, closes the
    popover and requests no navigation; the shared service keeps its
    [latestOrderId], and so does the storage when removing the user
    touches no other key. *)
Theorem handleItemClick_logout (w : header_world) ls' u :
  removeUserFromLocalStorage (storage w) = Normal ls' ->
  getUserResponseFromLocalStorage (TokenService.removeToken ls') = Normal u ->
  let '(r, w') := handleItemClick (JNum (num_of_Z 2)) w in
  r = Normal tt /\ TokenService.getToken (storage w') = None /\ storage w' = TokenService.removeToken ls' /\
  userResponse (hdr w') = u /\ isPopoverOpen (hdr w') = false /\ nav w' = nav w /\
  orderService w' = orderService w /\
  (forall s s', storage w = Some s -> ls' = Some s' ->
     getItem OrderService.LATEST_KEY s' = getItem OrderService.LATEST_KEY s ->
     exists s'', storage w' = Some s'' /\ getItem OrderService.LATEST_KEY s'' = getItem OrderService.LATEST_KEY s).
Proof.
  intros Hrm Hget. rewrite (handleItemClick_2 w ls' u Hrm Hget). repeat split.
  - destruct ls'; cbn; [apply getItem_removeItem_eq | reflexivity].
  - intros s s' _ -> Hkeep. exists (removeItem TokenService.TOKEN_KEY s'). split; [reflexivity|].
    rewrite getItem_removeItem_ne by discriminate. exact Hkeep.
Qed.

(** every click that returns leaves the popover closed; a click
    throws only on the logout item, when the user service throws. *)
Theorem handleItemClick_closes_popover index (w : header_world) :
  match handleItemClick index w with
  | (Normal _, w') => isPopoverOpen (hdr w') = false
  | (Throw _, _) => index_is index 2 = true /\ index_is index 0 = false /\ index_is index 1 = false
  end.
Proof.
  rewrite handleItemClick_cases.
  destruct (index_is index 0) eqn:Hi0; [reflexivity|].
  destruct (index_is index 1) eqn:Hi1.
  { unfold open_latest_order, hbind, hget. destruct (to_boolean _); reflexivity. }
  destruct (index_is index 2) eqn:Hi2; [|reflexivity].
  unfold logout, reload_user, hbind, hget, hlift, hmodify.
  destruct (removeUserFromLocalStorage (storage w)); [|auto].
  destruct (getUserResponseFromLocalStorage _); auto.
Qed.
End HeaderProps.

(** ** Witnesses *)

(** A user service over the browser's storage keeping the user under
    ["user"], for the witnesses. *)
#[export] Instance key_user_service : UserService (gmap jstr jstr) := {
  getUserResponseFromLocalStorage ls :=
    match ls with
    | Some s => Normal (match getItem "user" s with Some u => JStr u | None => JNull end)
    | None => Normal JNull
    end;
  removeUserFromLocalStorage ls := Normal (match ls with Some s => Some (removeItem "user" s) | None => None end)
}.

Definition sample_storage : gmap jstr jstr :=
  <[TokenService.TOKEN_KEY := "tok"]> (<[OrderService.LATEST_KEY := "7"]> (<["user" := "an"]> ∅)).

Definition sample_world (latest : jsval) : header_world :=
  {| hdr := with_popover true initial_header; storage := Some sample_storage;
     orderService := {| OrderService.latestOrderId := latest |}; nav := []; console := [] |}.

Lemma handleItemClick_no_sentinel_witness :
  nav (snd (handleItemClick (JNum (num_of_Z 1)) (sample_world JNull))) = nav (sample_world JNull).
Proof. apply handleItemClick_no_sentinel. right; right; left; reflexivity. Defined.

Lemma handleItemClick_logout_witness :
  let w := sample_world (JNum (num_of_Z 7)) in
  let ls' := Some (removeItem "user" sample_storage) in
  let '(r, w') := handleItemClick (JNum (num_of_Z 2)) w in
  r = Normal tt /\ TokenService.getToken (storage w') = None /\ storage w' = TokenService.removeToken ls' /\
  userResponse (hdr w') = JNull /\ isPopoverOpen (hdr w') = false /\ nav w' = nav w /\
  orderService w' = orderService w /\
  (forall s s', storage w = Some s -> ls' = Some s' ->
     getItem OrderService.LATEST_KEY s' = getItem OrderService.LATEST_KEY s ->
     exists s'', storage w' = Some s'' /\ getItem OrderService.LATEST_KEY s'' = getItem OrderService.LATEST_KEY s).
Proof.
  apply (handleItemClick_logout (sample_world (JNum (num_of_Z 7))) (Some (removeItem "user" sample_storage)) JNull);
    vm_compute; reflexivity.
Defined.
End Header.
