(* ===== verification/Client.v ===== *)
(** * The client as a whole

    The components share one browser: the storage (token and latest order
    id), the [OrderService] singleton ([providedIn: 'root'], so the header,
    the order page and the checkout see the same [latestOrderId]), the
    router and the console.  A [world] holds these, the header, and every
    [OrderDetailComponent] instance the router has created since the page
    load, each with its own [orderResponse] object and the subscription of
    its [getOrderById] request ([Http]), and every placement the checkout
    has sent through [placeOrder] with its subscription; an [event] is one
    of the triggers of the code (a guarded navigation, a login storing a
    token through [TokenService.setToken], a placement sent, a
    notification of a placement, whose response goes through the [tap], a
    notification of the order page's request, a header click, the popover toggle, a nav
    item, the creation of the order page, a page reload), and [step] runs
    the component handler it triggers; for a guarded navigation the router
    keeps the guard's verdict.  A handler
    that throws leaves the state it reached: the exception escapes to the
    framework and nothing is rolled back.  [reachable] closes the initial
    world under [step]; invariants are proved by rule induction on it. *)

From Stdlib Require Import ZArith List Lia.
From stdpp Require Import base list gmap.
From S2P Require Import Prelude JsString JsNumber JsValue Router JsDate Storage AngularJwt TokenService AuthGuard OrderService OrderDetail Http Header.
Import ListNotations.
Open Scope Z_scope.
Open Scope jstr_scope.

Module Client.

Section Client.
Context {St : Type} `{WebStorage St} `{JwtHelper} `{UserService St}.
Variable apiBaseUrl : jstr.
Variable tza : Z.

(** [pages] holds every [OrderDetailComponent] instance created since the
    page load, numbered in creation order ([created] of them); each has its
    own [orderResponse] object, and the page on screen is the last one.
    [subs] holds the open subscription of each instance's [getOrderById]
    request, [orders] that of each [placeOrder] request sent by the
    checkout ([placed] of them were sent since the page load).  [verdicts]
    are the results of the guard the router received, one per guarded
    navigation in order: [Normal true] activates the route, [Normal false]
    cancels the navigation, and an exception fails it. *)
Record world := {
  store : St;
  svc : OrderService.order_service;
  pages : gmap nat OrderDetail.order_response;
  created : nat;
  subs : gmap nat Http.subscription;
  orders : gmap nat Http.subscription;
  placed : nat;
  header : Header.header;
  navs : nav_log;
  logs : console_log;
  verdicts : list (completion bool)
}.

Inductive event :=
| EvGuard (now : Z)                           (** a navigation to a guarded route *)
| EvLogin (token : jstr)                      (** [tokenService.setToken(token)] *)
| EvPlaceOrder (k : nat) (o : OrderDetail.http_outcome)
                                              (** a notification of the [k]-th [placeOrder] request *)
| EvPlaceOrderRequest (orderData : jsval)     (** the checkout calls [placeOrder(orderData)] *)
| EvOrderDetail (i : nat) (o : OrderDetail.http_outcome)
                                              (** a notification of page [i]'s request *)
| EvHeaderClick (index : jsval)               (** [handleItemClick(index)] *)
| EvTogglePopover                             (** [togglePopover(event)] *)
| EvSetActiveNav (index : jsval)              (** [setActiveNavItem(index)] *)
| EvOrderPage (now : jsnum) (param : option jstr)
                                              (** an order page is created for the route parameter [param] *)
| EvReload (now : jsnum).                     (** a page load: services and components rebuilt *)

(** The header's view of the world and back. *)
Definition header_view (w : world) : Header.header_world :=
  {| Header.hdr := header w; Header.storage := Some (store w); Header.orderService := svc w;
     Header.nav := navs w; Header.console := logs w |}.

Definition from_header (w : world) (hw : Header.header_world) : world :=
  {| store := match Header.storage hw with Some s => s | None => store w end;
     svc := Header.orderService hw; pages := pages w; created := created w; subs := subs w;
     orders := orders w; placed := placed w;
     header := Header.hdr hw; navs := Header.nav hw; logs := Header.console hw; verdicts := verdicts w |}.

(** Page [i]'s view of the world, its [orderResponse] being [r], and back. *)
Definition detail_view (w : world) (r : OrderDetail.order_response) : OrderDetail.detail_state :=
  {| OrderDetail.orderService := svc w; OrderDetail.orderResponse := r; OrderDetail.console := logs w |}.

Definition from_detail (w : world) (i : nat) (ds : OrderDetail.detail_state)
    (sbs : gmap nat Http.subscription) : world :=
  {| store := store w; svc := OrderDetail.orderService ds;
     pages := <[i := OrderDetail.orderResponse ds]> (pages w); created := created w; subs := sbs;
     orders := orders w; placed := placed w;
     header := header w; navs := navs w; logs := OrderDetail.console ds; verdicts := verdicts w |}.

(** The router runs the guard: its navigations are requested and its
    verdict is what the router acts on. *)
Definition guard_navigation (r : completion bool * nav_log) (w : world) : world :=
  {| store := store w; svc := svc w; pages := pages w; created := created w; subs := subs w;
     orders := orders w; placed := placed w;
     header := header w; navs := snd r; logs := logs w; verdicts := verdicts w ++ [fst r] |}.

Definition with_store_svc (s : St) (os : OrderService.order_service) (w : world) : world :=
  {| store := s; svc := os; pages := pages w; created := created w; subs := subs w;
     orders := orders w; placed := placed w;
     header := header w; navs := navs w; logs := logs w; verdicts := verdicts w |}.

(** The world after a token-service call on the browser's storage, which
    is always present ([localStorage?.] never short-circuits). *)
Definition with_storage (ls : option St) (w : world) : world :=
  match ls with Some s => with_store_svc s (svc w) w | None => w end.

(** The router creates a new [OrderDetailComponent] (the previous one, if
    any, is left behind but its subscription stays open): its
    [orderResponse] initialiser, with [new Date()] read at [now], and its
    [ngOnInit], which subscribes to the request for [param]. *)
Definition open_page (now : jsnum) (param : option jstr) (w : world) : world :=
  let i := created w in
  {| store := store w; svc := svc w;
     pages := <[i := OrderDetail.initial_response now]> (pages w); created := S i;
     subs := match OrderDetail.ngOnInit apiBaseUrl param with
             | Normal r => <[i := Http.subscribe r]> (subs w)
             | Throw _ => subs w
             end;
     orders := orders w; placed := placed w;
     header := header w; navs := navs w; logs := logs w; verdicts := verdicts w |}.

(** The notification [o] of page [i]'s subscription runs that instance's
    callback on its own [orderResponse] and the shared service and
    console; the subscription moves on.  A notification the subscription
    cannot receive does not happen. *)
Definition deliver (i : nat) (o : OrderDetail.http_outcome) (w : world) : world :=
  match subs w !! i, pages w !! i with
  | Some sb, Some r =>
      if Http.admits (Http.phase_of sb) o then
        from_detail w i (snd (OrderDetail.getOrderDetails_callback apiBaseUrl tza o (detail_view w r)))
          (match Http.after sb o with Some sb' => <[i := sb']> (subs w) | None => delete i (subs w) end)
      else w
  | _, _ => w
  end.

Definition with_orders (os : gmap nat Http.subscription) (w : world) : world :=
  {| store := store w; svc := svc w; pages := pages w; created := created w; subs := subs w;
     orders := os; placed := placed w; header := header w; navs := navs w; logs := logs w; verdicts := verdicts w |}.

(** The checkout (not in [src/]) calls [placeOrder(orderData)] and
    subscribes to the observable: the [POST] is sent. *)
Definition place_request (orderData : jsval) (w : world) : world :=
  let k := placed w in
  {| store := store w; svc := svc w; pages := pages w; created := created w; subs := subs w;
     orders := <[k := Http.subscribe (OrderService.placeOrder_request apiBaseUrl orderData)]> (orders w);
     placed := S k; header := header w; navs := navs w; logs := logs w; verdicts := verdicts w |}.

(** The [tap] of [placeOrder] runs on the response, and only there. *)
Definition order_tap (o : OrderDetail.http_outcome) (w : world) : completion unit * world :=
  match o with
  | OrderDetail.HttpNext res =>
      let r := OrderService.placeOrder_tap res (svc w, store w) in
      (fst r, with_store_svc (snd (snd r)) (fst (snd r)) w)
  | _ => (Normal tt, w)
  end.

(** A notification of the [k]-th placement: the [tap] runs on a response;
    an exception it throws becomes the observable's error, which closes
    the subscription, as an error or the completion do. *)
Definition deliver_order (k : nat) (o : OrderDetail.http_outcome) (w : world) : world :=
  match orders w !! k with
  | Some sb =>
      if Http.admits (Http.phase_of sb) o then
        let r := order_tap o w in
        with_orders (match fst r, Http.after sb o with
                     | Normal _, Some sb' => <[k := sb']> (orders w)
                     | _, _ => delete k (orders w)
                     end) (snd r)
      else w
  | None => w
  end.

(** Whether the event can happen in [w]. *)
Definition enabled (w : world) (e : event) : bool :=
  match e with
  | EvOrderDetail i o =>
      match subs w !! i, pages w !! i with
      | Some sb, Some _ => Http.admits (Http.phase_of sb) o
      | _, _ => false
      end
  | EvPlaceOrder k o =>
      match orders w !! k with
      | Some sb => Http.admits (Http.phase_of sb) o
      | None => false
      end
  | _ => true
  end.

(** A page load: the service restores [latestOrderId], the header starts
    from its initialiser and its [ngOnInit] reads the user; the previous
    document's components and requests are gone. *)
Definition reload (now : jsnum) (w : world) : world :=
  let w0 := {| store := store w; svc := OrderService.construct (store w);
               pages := ∅; created := 0; subs := ∅; orders := ∅; placed := 0;
               header := Header.initial_header;
               navs := navs w; logs := logs w; verdicts := verdicts w |} in
  from_header w0 (snd (Header.ngOnInit (header_view w0))).

Inductive step : world -> event -> world -> Prop :=
| StepGuard w now :
    step w (EvGuard now) (guard_navigation (AuthGuard.canActivate now (Some (store w)) (navs w)) w)
| StepLogin w token :
    step w (EvLogin token) (with_storage (TokenService.setToken token (Some (store w))) w)
| StepPlaceOrder w k o sb :
    orders w !! k = Some sb -> Http.admits (Http.phase_of sb) o = true ->
    step w (EvPlaceOrder k o) (deliver_order k o w)
| StepPlaceOrderRequest w orderData :
    step w (EvPlaceOrderRequest orderData) (place_request orderData w)
| StepOrderDetail w i o sb r :
    subs w !! i = Some sb -> pages w !! i = Some r -> Http.admits (Http.phase_of sb) o = true ->
    step w (EvOrderDetail i o) (deliver i o w)
| StepHeaderClick w index :
    step w (EvHeaderClick index) (from_header w (snd (Header.handleItemClick index (header_view w))))
| StepTogglePopover w :
    step w EvTogglePopover (from_header w (snd (Header.togglePopover (header_view w))))
| StepSetActiveNav w index :
    step w (EvSetActiveNav index) (from_header w (snd (Header.setActiveNavItem index (header_view w))))
| StepOrderPage w now param :
    step w (EvOrderPage now param) (open_page now param w)
| StepReload w now :
    step w (EvReload now) (reload now w).

(** The same rules as a function: the client runs one handler per event. *)
Definition run_event (w : world) (e : event) : world :=
  match e with
  | EvGuard now => guard_navigation (AuthGuard.canActivate now (Some (store w)) (navs w)) w
  | EvLogin token => with_storage (TokenService.setToken token (Some (store w))) w
  | EvPlaceOrder k o => deliver_order k o w
  | EvPlaceOrderRequest orderData => place_request orderData w
  | EvOrderDetail i o => deliver i o w
  | EvHeaderClick index => from_header w (snd (Header.handleItemClick index (header_view w)))
  | EvTogglePopover => from_header w (snd (Header.togglePopover (header_view w)))
  | EvSetActiveNav index => from_header w (snd (Header.setActiveNavItem index (header_view w)))
  | EvOrderPage now param => open_page now param w
  | EvReload now => reload now w
  end.

(** A sequence of events, run one after the other; [run_events] runs them
    while each is enabled. *)
Inductive steps : world -> list event -> world -> Prop :=
| steps_nil w : steps w [] w
| steps_cons w e w' es w'' : step w e w' -> steps w' es w'' -> steps w (e :: es) w''.

Fixpoint run_events (w : world) (es : list event) : option world :=
  match es with
  | [] => Some w
  | e :: es' => if enabled w e then run_events (run_event w e) es' else None
  end.

Definition init (s : St) (now : jsnum) : world :=
  reload now {| store := s; svc := {| OrderService.latestOrderId := JNull |};
                pages := ∅; created := 0; subs := ∅; orders := ∅; placed := 0;
               header := Header.initial_header;
                navs := []; logs := []; verdicts := [] |}.

Inductive reachable (s0 : St) (now0 : jsnum) : world -> Prop :=
| reach_init : reachable s0 now0 (init s0 now0)
| reach_step w e w' : reachable s0 now0 w -> step w e w' -> reachable s0 now0 w'.
End Client.

(** ** Navigations *)

(** A navigation the client may request: the login page, the profile page,
    or an order whose id is truthy. *)
Definition nav_entry_ok (c : commands) : Prop :=
  c = AuthGuard.LOGIN_ROUTE \/ c = Header.PROFILE_ROUTE \/
  exists v, to_boolean v = true /\ c = [JStr Header.ORDERS_PATH; v].

Section ClientProps.
Context {St : Type} `{WebStorageLaws St} `{JwtHelper} `{UserService St}.
Variable apiBaseUrl : jstr.
Variable tza : Z.

(** ** The relation and the event loop *)

Lemma step_run_event (w : world) e :
  enabled w e = true -> step apiBaseUrl tza w e (run_event apiBaseUrl tza w e).
Proof.
  destruct e as [| |k o| |i o| | | | |]; cbn [enabled]; intros He; try constructor.
  - destruct (orders w !! k) as [sb|] eqn:Hs; [|discriminate]. exact (StepPlaceOrder _ _ w k o sb Hs He).
  - destruct (subs w !! i) as [sb|] eqn:Hs; [|discriminate].
    destruct (pages w !! i) as [r|] eqn:Hp; [|discriminate]. exact (StepOrderDetail _ _ w i o sb r Hs Hp He).
Qed.

Lemma run_events_steps (w w' : world) es :
  run_events apiBaseUrl tza w es = Some w' -> steps apiBaseUrl tza w es w'.
Proof.
  revert w. induction es as [|e es IH]; intros w; cbn [run_events]; [intros [= ->]; constructor|].
  destruct (enabled w e) eqn:He; [|discriminate]. intros Hr.
  econstructor; [exact (step_run_event w e He) | exact (IH _ Hr)].
Qed.

(** The relation is the event loop: each event has at most one successor. *)
Lemma step_run_event_inv (w w' : world) e : step apiBaseUrl tza w e w' -> w' = run_event apiBaseUrl tza w e.
Proof. destruct 1; reflexivity. Qed.

(** A notification that can happen runs the instance's callback. *)
Lemma deliver_eq (w : @world St) i o sb r :
  subs w !! i = Some sb -> pages w !! i = Some r -> Http.admits (Http.phase_of sb) o = true ->
  deliver apiBaseUrl tza i o w =
  from_detail w i (snd (OrderDetail.getOrderDetails_callback apiBaseUrl tza o (detail_view w r)))
    (match Http.after sb o with Some sb' => <[i := sb']> (subs w) | None => delete i (subs w) end).
Proof. intros Hs Hp Ha. unfold deliver. now rewrite Hs, Hp, Ha. Qed.

(** A notification touches neither the navigations nor the storage. *)
Lemma deliver_frame (w : @world St) i o :
  navs (deliver apiBaseUrl tza i o w) = navs w /\ store (deliver apiBaseUrl tza i o w) = store w /\
  created (deliver apiBaseUrl tza i o w) = created w.
Proof.
  unfold deliver. destruct (subs w !! i), (pages w !! i); try destruct (Http.admits _ _); auto.
Qed.

(** A placement's notification runs the [tap] on a response and moves
    the subscription on. *)
Lemma deliver_order_eq (w : @world St) k o sb :
  orders w !! k = Some sb -> Http.admits (Http.phase_of sb) o = true ->
  deliver_order k o w =
  with_orders (match fst (order_tap o w), Http.after sb o with
               | Normal _, Some sb' => <[k := sb']> (orders w)
               | _, _ => delete k (orders w)
               end) (snd (order_tap o w)).
Proof. intros Hs Ha. unfold deliver_order. now rewrite Hs, Ha. Qed.

(** It touches neither the navigations nor the order pages. *)
Lemma deliver_order_frame (w : @world St) k o :
  let w' := deliver_order k o w in
  navs w' = navs w /\ pages w' = pages w /\ subs w' = subs w /\ created w' = created w /\
  placed w' = placed w.
Proof.
  cbn zeta. unfold deliver_order.
  destruct (orders w !! k); [destruct (Http.admits _ _)|]; [destruct o|..]; repeat split.
Qed.

(** A placement's notification leaves the other placements' subscriptions
    as they were. *)
Lemma deliver_order_lookup_ne (w : @world St) k k' o :
  k <> k' -> orders (deliver_order k o w) !! k' = orders w !! k'.
Proof.
  intros Hne. unfold deliver_order.
  destruct (orders w !! k) as [sb|]; [|reflexivity]. destruct (Http.admits _ _); [|reflexivity].
  destruct (fst (order_tap o w)), (Http.after sb o); cbn [orders with_orders];
    first [apply lookup_insert_ne | apply lookup_delete_ne]; exact Hne.
Qed.

(** A response whose [id] is an integer: the [tap] records it. *)
Lemma deliver_order_int (w : @world St) k sb ps n :
  orders w !! k = Some sb -> Http.admits (Http.phase_of sb) (OrderDetail.HttpNext (JObj ps)) = true ->
  assoc_lookup OrderService.id_key ps = Some (JNum (num_of_Z n)) ->
  let w' := deliver_order k (OrderDetail.HttpNext (JObj ps)) w in
  svc w' = {| OrderService.latestOrderId := JNum (num_of_Z n) |} /\
  store w' = setItem OrderService.LATEST_KEY (num_to_string (num_of_Z n)) (store w) /\ navs w' = navs w.
Proof.
  intros Hs Ha Hid. cbn zeta. rewrite (deliver_order_eq w k _ sb Hs Ha). unfold order_tap.
  rewrite (OrderService.placeOrder_tap_int ps n (svc w) (store w) Hid). repeat split.
Qed.

(** Two placements awaiting their responses: the first response leaves
    the second placement open, and the second response then decides the
    latest order, whatever the first one was. *)
Lemma placement_answered (w : @world St) k k' sb sb' ps ps' n' :
  k <> k' -> orders w !! k = Some sb -> orders w !! k' = Some sb' ->
  Http.phase_of sb = Http.Awaiting -> Http.phase_of sb' = Http.Awaiting ->
  assoc_lookup OrderService.id_key ps' = Some (JNum (num_of_Z n')) ->
  let w1 := deliver_order k (OrderDetail.HttpNext (JObj ps)) w in
  let w2 := deliver_order k' (OrderDetail.HttpNext (JObj ps')) w1 in
  steps apiBaseUrl tza w [EvPlaceOrder k (OrderDetail.HttpNext (JObj ps));
                          EvPlaceOrder k' (OrderDetail.HttpNext (JObj ps'))] w2 /\
  svc w2 = {| OrderService.latestOrderId := JNum (num_of_Z n') |} /\
  store w2 = setItem OrderService.LATEST_KEY (num_to_string (num_of_Z n')) (store w1).
Proof.
  intros Hne Hs Hs' Hp Hp' Hid'. cbn zeta.
  assert (Hs1 : orders (deliver_order k (OrderDetail.HttpNext (JObj ps)) w) !! k' = Some sb')
    by (rewrite deliver_order_lookup_ne by exact Hne; exact Hs').
  assert (Ha' : Http.admits (Http.phase_of sb') (OrderDetail.HttpNext (JObj ps')) = true)
    by (rewrite Hp'; reflexivity).
  destruct (deliver_order_int _ k' sb' ps' n' Hs1 Ha' Hid') as (Hv & Hst & _).
  split; [|split; [exact Hv | exact Hst]].
  econstructor; [eapply StepPlaceOrder; [exact Hs | rewrite Hp; reflexivity]|].
  econstructor; [eapply StepPlaceOrder; [exact Hs1 | exact Ha'] | constructor].
Qed.

Lemma reload_frame now (w : world) :
  navs (reload now w) = navs w /\ svc (reload now w) = OrderService.construct (store w) /\
  store (reload now w) = store w.
Proof.
  unfold reload. cbn zeta.
  match goal with |- context [Header.ngOnInit ?hw] => destruct (Header.ngOnInit_frame hw) as (Hn & Ho & Hs) end.
  unfold from_header. cbn [navs svc store]. rewrite Hn, Ho, Hs. auto.
Qed.

Lemma Forall_app_one {A} (P : A -> Prop) l x : Forall P l -> P x -> Forall P (l ++ [x]).
Proof. intros Hl Hx. apply Forall_app. split; [exact Hl | now constructor]. Qed.

(** ** Navigation safety *)

Lemma step_nav_ok (w w' : world) e :
  step apiBaseUrl tza w e w' -> Forall nav_entry_ok (navs w) -> Forall nav_entry_ok (navs w').
Proof.
  intros Hstep Hok. destruct Hstep; cbn [navs guard_navigation with_store_svc open_page from_header].
  - destruct (AuthGuard.canActivate_nav now (Some (store w)) (navs w)) as [-> | ->]; [exact Hok|].
    apply Forall_app_one; [exact Hok | now left].
  - exact Hok.
  - now rewrite (proj1 (deliver_order_frame w k o)).
  - exact Hok.
  - now rewrite (proj1 (deliver_frame w i o)).
  - destruct (Header.handleItemClick_nav index (header_view w)) as [-> | [-> | (v & Hv & ->)]];
      [exact Hok | apply Forall_app_one; [exact Hok | now right; left] |].
    apply Forall_app_one; [exact Hok | right; right; eauto].
  - exact Hok.
  - exact Hok.
  - exact Hok.
  - rewrite (proj1 (reload_frame now w)). exact Hok.
Qed.

(** C5: in every world reachable from a page load, each navigation the
    client has requested is to the login page, the profile page, or an
    order whose id is truthy: never to [/orders/0], [/orders/NaN] or
    [/orders/null]. *)
Theorem reachable_nav_safe s0 now0 w :
  reachable apiBaseUrl tza s0 now0 w -> Forall nav_entry_ok (navs w).
Proof.
  induction 1 as [|w e w' _ IH Hstep].
  - unfold init. rewrite (proj1 (reload_frame now0 _)). constructor.
  - exact (step_nav_ok w w' e Hstep IH).
Qed.

(** ** The type of every order page's [orderResponse] *)

Definition pages_typed (w : @world St) : Prop :=
  map_Forall (fun _ r => OrderDetail.well_typed r) (pages w).

Lemma step_pages_typed (w w' : world) e :
  step apiBaseUrl tza w e w' -> pages_typed w -> pages_typed w'.
Proof.
  unfold pages_typed. intros Hstep Hwt.
  destruct Hstep as [w now|w token|w k o sb Hs Ha|w orderData|w i o sb r Hs Hp Ha|w index|w|w index|w now param|w now];
    try exact Hwt.
  - now rewrite (proj1 (proj2 (deliver_order_frame w k o))).
  - rewrite (deliver_eq w i o sb r) by assumption. apply map_Forall_insert_2; [|exact Hwt].
    exact (OrderDetail.getOrderDetails_callback_typed apiBaseUrl tza o (detail_view w r) (Hwt i r Hp)).
  - apply map_Forall_insert_2; [apply OrderDetail.well_typed_initial | exact Hwt].
  - apply map_Forall_empty.
Qed.

(** C6: in every world reachable from a page load, the [orderResponse]
    of every order page created, the one on screen and the ones left
    behind, has its declared type [OrderResponse]: exactly the fifteen
    properties of the literal, in its order, with [Date]s in [order_date]
    and [shipping_date] and plain values elsewhere, whatever responses,
    errors and exceptions came before, in whatever order. *)
Theorem reachable_pages_typed s0 now0 w :
  reachable apiBaseUrl tza s0 now0 w ->
  map_Forall (fun _ r => OrderDetail.well_typed r) (pages w).
Proof.
  induction 1 as [|w e w' _ IH Hstep].
  - apply map_Forall_empty.
  - exact (step_pages_typed w w' e Hstep IH).
Qed.

(** ** The requests in flight *)

(** The order page's request is [GET <apiBaseUrl>/orders/<id>]. *)
Lemma ngOnInit_request param r :
  OrderDetail.ngOnInit apiBaseUrl param = Normal r ->
  req_method r = GET /\ req_body r = None /\
  exists id, req_url r = (apiBaseUrl +++ "/orders/" +++ num_to_string id).
Proof.
  unfold OrderDetail.ngOnInit, OrderDetail.getOrderDetails_request.
  destruct (to_number _) as [id|]; cbn; [intros [= <-]; cbn; eauto 6 | discriminate].
Qed.

(** The pages are the [created] instances, every open subscription of a
    page belongs to one of them and asks for an order, and every open
    placement is one of the [placed] ones and posts to [<apiBaseUrl>/orders]. *)
Definition transport_ok (w : @world St) : Prop :=
  (forall i, is_Some (pages w !! i) <-> (i < created w)%nat) /\
  (forall i sb, subs w !! i = Some sb ->
     (i < created w)%nat /\ req_method (Http.request sb) = GET /\ req_body (Http.request sb) = None /\
     exists id, req_url (Http.request sb) = (apiBaseUrl +++ "/orders/" +++ num_to_string id)) /\
  (forall k sb, orders w !! k = Some sb ->
     (k < placed w)%nat /\ req_method (Http.request sb) = POST /\
     req_url (Http.request sb) = (apiBaseUrl +++ "/orders")).

Lemma transport_ok_deliver (w : world) i o sb r :
  subs w !! i = Some sb -> pages w !! i = Some r -> Http.admits (Http.phase_of sb) o = true ->
  transport_ok w -> transport_ok (deliver apiBaseUrl tza i o w).
Proof.
  intros Hs Hp Ha (Hpg & Hsb & Hor). rewrite (deliver_eq w i o sb r Hs Hp Ha).
  split; [|split; [|exact Hor]]; cbn [pages created subs from_detail].
  - intros j. rewrite <- Hpg. destruct (decide (i = j)) as [<-|Hne].
    + rewrite lookup_insert_eq, Hp. split; eauto.
    + now rewrite lookup_insert_ne by exact Hne.
  - intros j sb'. destruct o; cbn [Http.after].
    + destruct (decide (i = j)) as [<-|Hne].
      * rewrite lookup_insert_eq. intros [= <-]. exact (Hsb i sb Hs).
      * rewrite lookup_insert_ne by exact Hne. apply Hsb.
    + intros Hj. apply lookup_delete_Some in Hj as [_ Hj]. exact (Hsb j sb' Hj).
    + intros Hj. apply lookup_delete_Some in Hj as [_ Hj]. exact (Hsb j sb' Hj).
Qed.

Lemma transport_ok_open_page (w : world) now param :
  transport_ok w -> transport_ok (open_page apiBaseUrl now param w).
Proof.
  intros (Hpg & Hsb & Hor). unfold open_page. split; [|split; [|exact Hor]]; cbn [pages created subs].
  - intros j. destruct (decide (created w = j)) as [<-|Hne].
    + rewrite lookup_insert_eq. split; [lia | eauto].
    + rewrite lookup_insert_ne by exact Hne. rewrite Hpg. lia.
  - intros j sb. destruct (OrderDetail.ngOnInit apiBaseUrl param) as [r|] eqn:Hr.
    + destruct (decide (created w = j)) as [<-|Hne].
      * rewrite lookup_insert_eq. intros [= <-]. split; [lia|]. exact (ngOnInit_request param r Hr).
      * rewrite lookup_insert_ne by exact Hne. intros Hj. destruct (Hsb j sb Hj) as (Hlt & Hrest). split; [lia | exact Hrest].
    + intros Hj. destruct (Hsb j sb Hj) as (Hlt & Hrest). split; [lia | exact Hrest].
Qed.

Lemma transport_ok_deliver_order (w : world) k o sb :
  orders w !! k = Some sb -> Http.admits (Http.phase_of sb) o = true ->
  transport_ok w -> transport_ok (deliver_order k o w).
Proof.
  intros Hs Ha (Hpg & Hsb & Hor). destruct (deliver_order_frame w k o) as (_ & Hp & Hsu & Hc & Hpl).
  split; [|split]; [rewrite Hp, Hc; exact Hpg | rewrite Hsu, Hc; exact Hsb|].
  rewrite Hpl, (deliver_order_eq w k o sb Hs Ha). cbn [orders with_orders]. intros j sb'.
  destruct (fst (order_tap o w)), (Http.after sb o) as [sb''|] eqn:Haf;
    try (intros Hj; apply lookup_delete_Some in Hj as [_ Hj]; exact (Hor j sb' Hj)).
  destruct (decide (k = j)) as [<-|Hne].
  - rewrite lookup_insert_eq. intros [= <-]. destruct o; cbn in Haf; try discriminate.
    injection Haf as <-. exact (Hor k sb Hs).
  - rewrite lookup_insert_ne by exact Hne. apply Hor.
Qed.

Lemma transport_ok_place_request (w : world) orderData :
  transport_ok w -> transport_ok (place_request apiBaseUrl orderData w).
Proof.
  intros (Hpg & Hsb & Hor). unfold place_request. split; [exact Hpg|]. split; [exact Hsb|].
  cbn [orders placed]. intros j sb. destruct (decide (placed w = j)) as [<-|Hne].
  - rewrite lookup_insert_eq. intros [= <-]. split; [lia | split; reflexivity].
  - rewrite lookup_insert_ne by exact Hne. intros Hj. destruct (Hor j sb Hj) as (Hlt & Hrest).
    split; [lia | exact Hrest].
Qed.

Lemma transport_ok_empty (w : @world St) :
  pages w = ∅ -> created w = 0%nat -> subs w = ∅ -> orders w = ∅ -> transport_ok w.
Proof.
  intros Hp Hc Hs Ho. unfold transport_ok. rewrite Hp, Hc, Hs, Ho. split; [|split].
  - intros i. rewrite lookup_empty. split; [intros [? ?]; discriminate | lia].
  - intros i sb. now rewrite lookup_empty.
  - intros k sb. now rewrite lookup_empty.
Qed.

Lemma step_transport_ok (w w' : world) e :
  step apiBaseUrl tza w e w' -> transport_ok w -> transport_ok w'.
Proof.
  intros Hstep Hok.
  destruct Hstep as [w now|w token|w k o sb Hs Ha|w orderData|w i o sb r Hs Hp Ha|w index|w|w index|w now param|w now];
    try exact Hok.
  - exact (transport_ok_deliver_order w k o sb Hs Ha Hok).
  - exact (transport_ok_place_request w orderData Hok).
  - exact (transport_ok_deliver w i o sb r Hs Hp Ha Hok).
  - exact (transport_ok_open_page w now param Hok).
  - apply transport_ok_empty; reflexivity.
Qed.

(** C7: in every world reachable from a page load, the order pages are
    exactly the instances the router created, every request of a page
    still in flight belongs to one of them and is
    [GET <apiBaseUrl>/orders/<id>], and every placement still in flight
    is one the checkout sent and is [POST <apiBaseUrl>/orders]: a
    notification can only reach a subscriber that asked for it. *)
Theorem reachable_transport_ok s0 now0 w :
  reachable apiBaseUrl tza s0 now0 w ->
  (forall i, is_Some (pages w !! i) <-> (i < created w)%nat) /\
  (forall i sb, subs w !! i = Some sb ->
     (i < created w)%nat /\ req_method (Http.request sb) = GET /\ req_body (Http.request sb) = None /\
     exists id, req_url (Http.request sb) = (apiBaseUrl +++ "/orders/" +++ num_to_string id)) /\
  (forall k sb, orders w !! k = Some sb ->
     (k < placed w)%nat /\ req_method (Http.request sb) = POST /\
     req_url (Http.request sb) = (apiBaseUrl +++ "/orders")).
Proof.
  induction 1 as [|w e w' _ IH Hstep].
  - apply transport_ok_empty; reflexivity.
  - exact (step_transport_ok w w' e Hstep IH).
Qed.

(** ** Responses that arrive late, and errors *)

(** C14: a response to a page the user has left (a newer order page was
    created since) still runs its callback: the page on screen keeps its
    [orderResponse] (each instance has its own object), but the shared
    [latestOrderId] is overwritten with the stale order's id; the code
    has no liveness check. *)
Theorem stale_response_overwrites_latest (w w' : world) i ps :
  step apiBaseUrl tza w (EvOrderDetail i (OrderDetail.HttpNext (JObj ps))) w' -> (S i < created w)%nat ->
  OrderService.latestOrderId (svc w') = OrderDetail.prop_or_undef ps "id" /\
  created w' = created w /\ pages w' !! pred (created w') = pages w !! pred (created w).
Proof.
  intros Hs1 Hlt. inversion Hs1 as [| | | |w1 i1 o1 sb r Hs Hp Ha| | | | |]; subst.
  rewrite (deliver_eq w i _ sb r Hs Hp Ha). cbn [from_detail svc created pages OrderDetail.getOrderDetails_callback].
  rewrite (OrderDetail.next_sets_latest apiBaseUrl tza (JObj ps) _ (OrderDetail.prop_or_undef ps "id"))
    by reflexivity.
  split; [reflexivity|]. split; [reflexivity|]. apply lookup_insert_ne. lia.
Qed.

(** C15: a transport error on the order fetch is only logged: the
    console gets ['Error fetching detail:', error] and the subscription
    closes, while the service, every page's [orderResponse], the storage
    and the navigations are unchanged; nothing tells the page that the
    fetch failed. *)
Theorem fetch_error_only_logs (w w' : world) i err :
  step apiBaseUrl tza w (EvOrderDetail i (OrderDetail.HttpError err)) w' ->
  logs w' = logs w ++ [[JStr "Error fetching detail:"; err]] /\ subs w' = delete i (subs w) /\
  svc w' = svc w /\ pages w' = pages w /\ store w' = store w /\ navs w' = navs w.
Proof.
  intros Hs1. inversion Hs1 as [| | | |w1 i1 o1 sb r Hs Hp Ha| | | | |]; subst.
  rewrite (deliver_eq w i _ sb r Hs Hp Ha). cbn.
  repeat split. now apply insert_id.
Qed.

(** ** Scenarios across components *)

Lemma header_click_1 (w : world) :
  navs (from_header w (snd (Header.handleItemClick (JNum (num_of_Z 1)) (header_view w)))) =
  if to_boolean (OrderService.latestOrderId (svc w))
  then navs w ++ [[JStr Header.ORDERS_PATH; OrderService.latestOrderId (svc w)]] else navs w.
Proof.
  rewrite Header.handleItemClick_1. cbn zeta. unfold header_view.
  destruct (to_boolean _); reflexivity.
Qed.

(** C13: the order page records the fetched order for the header (spec
    4.4, [recordFromFetch]): once the fetch of an order whose [id] is
    truthy has completed, the header's latest-order item navigates to that
    order, even when the rest of the callback has thrown. *)
Theorem fetched_order_is_latest (w w1 w2 : world) i ps :
  to_boolean (OrderDetail.prop_or_undef ps "id") = true ->
  step apiBaseUrl tza w (EvOrderDetail i (OrderDetail.HttpNext (JObj ps))) w1 ->
  step apiBaseUrl tza w1 (EvHeaderClick (JNum (num_of_Z 1))) w2 ->
  navs w2 = navs w ++ [[JStr Header.ORDERS_PATH; OrderDetail.prop_or_undef ps "id"]].
Proof.
  intros Hid Hs1 Hs2. inversion Hs1 as [| | | |w' i' o' sb r Hs Hp Ha| | | | |]; subst.
  inversion Hs2; subst. rewrite header_click_1.
  rewrite (deliver_eq w i _ sb r Hs Hp Ha). cbn [from_detail svc navs OrderDetail.getOrderDetails_callback].
  rewrite (OrderDetail.next_sets_latest apiBaseUrl tza (JObj ps) _ (OrderDetail.prop_or_undef ps "id"))
    by reflexivity.
  cbn [OrderService.latestOrderId]. now rewrite Hid.
Qed.

(** C17: the header and the order page agree on the latest order: once
    an order placed with an integer id [n <> 0] is recorded, the
    latest-order item navigates to ['/orders', n], and the order page the
    router creates for that route subscribes to
    [GET <apiBaseUrl>/orders/n]: the id survives [String] in the URL and
    [Number] in [getOrderDetails]. *)
Theorem latest_order_page_requests (w w1 w2 w3 : world) k ps n now :
  assoc_lookup OrderService.id_key ps = Some (JNum (num_of_Z n)) -> n <> 0 -> Z.abs n < 10 ^ 21 ->
  step apiBaseUrl tza w (EvPlaceOrder k (OrderDetail.HttpNext (JObj ps))) w1 ->
  step apiBaseUrl tza w1 (EvHeaderClick (JNum (num_of_Z 1))) w2 ->
  step apiBaseUrl tza w2 (EvOrderPage now (order_route_id (List.last (navs w2) []))) w3 ->
  List.last (navs w2) [] = [JStr "/orders"; JNum (num_of_Z n)] /\
  subs w3 !! created w2 = Some (Http.subscribe (OrderService.getOrderById apiBaseUrl (num_of_Z n))).
Proof.
  intros Hid Hn0 Hn Hs1 Hs2 Hs3. inversion Hs1 as [| |w' k' o' sb Hs Ha| | | | | | |]; subst.
  inversion Hs2; subst.
  match goal with Hs3 : step _ _ ?w2 _ _ |- _ =>
    assert (Hlast : List.last (navs w2) [] = [JStr "/orders"; JNum (num_of_Z n)]) end.
  { rewrite header_click_1. destruct (deliver_order_int w k sb ps n Hs Ha Hid) as (Hsv & _ & Hnv).
    rewrite Hsv, Hnv. cbn [OrderService.latestOrderId to_boolean].
    now rewrite (num_truthy_int n Hn0 Hn), List.last_last. }
  apply step_run_event_inv in Hs3. subst w3. split; [exact Hlast|]. rewrite Hlast. cbn [run_event].
  unfold open_page. cbn [subs created].
  unfold OrderDetail.ngOnInit, OrderDetail.getOrderDetails_request, order_route_id.
  rewrite decide_True by reflexivity. cbn [to_string to_number cbind].
  rewrite string_to_number_num_to_string_int by exact Hn. apply lookup_insert_eq.
Qed.

(** C18: after a logout that returns, the next guarded navigation is
    refused and redirected to ["/login"], whatever the token was. *)
Theorem logout_then_guard (w w1 w2 : world) s' u now :
  removeUserFromLocalStorage (Some (store w)) = Normal (Some s') ->
  getUserResponseFromLocalStorage (TokenService.removeToken (Some s')) = Normal u ->
  step apiBaseUrl tza w (EvHeaderClick (JNum (num_of_Z 2))) w1 ->
  step apiBaseUrl tza w1 (EvGuard now) w2 ->
  navs w1 = navs w /\ navs w2 = navs w ++ [AuthGuard.LOGIN_ROUTE].
Proof.
  intros Hrm Hget Hs1 Hs2. inversion Hs1; subst. inversion Hs2; subst.
  rewrite (Header.handleItemClick_2 (header_view w) (Some s') u Hrm Hget).
  cbn [snd from_header guard_navigation navs store Header.storage Header.nav TokenService.removeToken].
  split; [reflexivity|]. rewrite AuthGuard.canActivate_cases.
  unfold TokenService.isTokenExpired, TokenService.getUserId, TokenService.getToken.
  now rewrite getItem_removeItem_eq.
Qed.

(** C16: an order placed with an integer id [n <> 0] is still the latest
    order after a page reload: the header's latest-order item then
    navigates to [['/orders', n]]. *)
Theorem placed_order_survives_reload (w w1 w2 w3 : world) k ps n now :
  assoc_lookup OrderService.id_key ps = Some (JNum (num_of_Z n)) -> n <> 0 -> Z.abs n < 10 ^ 21 ->
  step apiBaseUrl tza w (EvPlaceOrder k (OrderDetail.HttpNext (JObj ps))) w1 ->
  step apiBaseUrl tza w1 (EvReload now) w2 ->
  step apiBaseUrl tza w2 (EvHeaderClick (JNum (num_of_Z 1))) w3 ->
  navs w3 = navs w ++ [[JStr Header.ORDERS_PATH; JNum (num_of_Z n)]].
Proof.
  intros Hid Hn0 Hn Hs1 Hs2 Hs3. inversion Hs1 as [| |w' k' o' sb Hs Ha| | | | | | |]; subst.
  inversion Hs2; subst. inversion Hs3; subst. rewrite header_click_1.
  destruct (deliver_order_int w k sb ps n Hs Ha Hid) as (_ & Hst & Hnv).
  destruct (reload_frame now (deliver_order k (OrderDetail.HttpNext (JObj ps)) w)) as (Hnav & Hsvc & _).
  rewrite Hnav, Hsvc, Hst, Hnv.
  rewrite (OrderService.construct_setItem_int n (store w) Hn). cbn [OrderService.latestOrderId].
  cbn [to_boolean]. rewrite (num_truthy_int n Hn0 Hn). reflexivity.
Qed.

(** C22: the latest order is decided by the order in which the
    placements' responses arrive: when two placements [k1] and [k2] are
    both awaiting their responses (ids [n1] and [n2]), the response to
    one leaves the other placement open, so both arrival orders can
    happen; the response that arrives last is the one the service and
    the storage keep.  So with [k1] placed before [k2] but answered after
    it, the latest order is the earlier one, [n1]. *)
Theorem placement_arrival_order_decides (w : world) k1 k2 sb1 sb2 ps1 ps2 n1 n2 :
  k1 <> k2 -> orders w !! k1 = Some sb1 -> orders w !! k2 = Some sb2 ->
  Http.phase_of sb1 = Http.Awaiting -> Http.phase_of sb2 = Http.Awaiting ->
  assoc_lookup OrderService.id_key ps1 = Some (JNum (num_of_Z n1)) ->
  assoc_lookup OrderService.id_key ps2 = Some (JNum (num_of_Z n2)) ->
  let o1 := OrderDetail.HttpNext (JObj ps1) in
  let o2 := OrderDetail.HttpNext (JObj ps2) in
  let w12 := deliver_order k2 o2 (deliver_order k1 o1 w) in
  let w21 := deliver_order k1 o1 (deliver_order k2 o2 w) in
  steps apiBaseUrl tza w [EvPlaceOrder k1 o1; EvPlaceOrder k2 o2] w12 /\
  steps apiBaseUrl tza w [EvPlaceOrder k2 o2; EvPlaceOrder k1 o1] w21 /\
  OrderService.latestOrderId (svc w12) = JNum (num_of_Z n2) /\
  getItem OrderService.LATEST_KEY (store w12) = Some (num_to_string (num_of_Z n2)) /\
  OrderService.latestOrderId (svc w21) = JNum (num_of_Z n1) /\
  getItem OrderService.LATEST_KEY (store w21) = Some (num_to_string (num_of_Z n1)).
Proof.
  intros Hne Hs1 Hs2 Hp1 Hp2 Hid1 Hid2. cbn zeta.
  destruct (placement_answered w k1 k2 sb1 sb2 ps1 ps2 n2 Hne Hs1 Hs2 Hp1 Hp2 Hid2) as (H12 & Hv12 & Hst12).
  destruct (placement_answered w k2 k1 sb2 sb1 ps2 ps1 n1 (not_eq_sym Hne) Hs2 Hs1 Hp2 Hp1 Hid1)
    as (H21 & Hv21 & Hst21).
  split; [exact H12|]. split; [exact H21|]. rewrite Hv12, Hst12, Hv21, Hst21.
  split; [reflexivity|]. split; [apply getItem_setItem_eq|]. split; [reflexivity | apply getItem_setItem_eq].
Qed.
End ClientProps.

(** ** Liveness of the guarded routes, with the browser's storage and the
    angular-jwt helper *)

Section Browser.
Context `{UserService (gmap jstr jstr)}.
Variable apiBaseUrl : jstr.
Variable tza : Z.

(** C19: the guard never locks a user out: from any world, whatever the
    storage held and whatever happened before, logging in with a token
    whose payload has a positive numeric [userId] and an [exp] after
    [now] makes the next guarded navigation go through: the router
    receives [true] from the guard, and no redirection is requested. *)
Theorem login_then_guard_allows (w w1 w2 : world) token ps uid E now :
  units token <> [] -> decode_token token = Normal (JObj ps) ->
  assoc_lookup TokenService.userId_key ps = Some (JNum (num_of_Z uid)) -> 0 < uid < 10 ^ 21 ->
  assoc_lookup exp_key ps = Some (JNum (num_of_Z E)) -> now < E * 1000 ->
  Z.abs (E * 1000) <= max_time_value -> Z.abs now <= max_time_value ->
  step apiBaseUrl tza w (EvLogin token) w1 -> step apiBaseUrl tza w1 (EvGuard now) w2 ->
  verdicts w2 = verdicts w ++ [Normal true] /\ navs w2 = navs w.
Proof.
  intros Hne Hdec Huid Hu Hexp Hlt HE Hnow Hs1 Hs2. inversion Hs1; subst. inversion Hs2; subst.
  cbn [guard_navigation with_storage TokenService.setToken with_store_svc navs verdicts store].
  rewrite AuthGuard.canActivate_cases.
  assert (Hst : setItem TokenService.TOKEN_KEY token (store w) !! TokenService.TOKEN_KEY = Some token)
    by exact (getItem_setItem_eq TokenService.TOKEN_KEY token (store w)).
  destruct (TokenService.session_numeric_claims _ token Hst Hne now ps uid E Hdec Huid ltac:(lia) Hexp HE Hnow)
    as [-> ->].
  rewrite num_gt_int by (cbn; lia). replace (E * 1000 <=? now) with false by lia.
  replace (0 <? uid) with true by lia. split; reflexivity.
Qed.
End Browser.

(** ** Witnesses, on the browser's storage, the angular-jwt helper and the
    user service keeping the user under ["user"] *)

#[local] Existing Instance Header.key_user_service.

Definition w0 : world := init Header.sample_storage (num_of_Z 0).

(** The order page of order 7 is created, then its response arrives. *)
Definition w_page : world := open_page OrderDetail.sample_base (num_of_Z 0) (Some "7") w0.

Definition after_fetch : world :=
  deliver OrderDetail.sample_base OrderDetail.sample_tza 0%nat
    (OrderDetail.HttpNext (JObj OrderDetail.sample_order)) w_page.

(** A second order page is created before the first one's response. *)
Definition w_two : world := open_page OrderDetail.sample_base (num_of_Z 0) (Some "8") w_page.

Definition after_click (index : Z) (w : world) : world :=
  from_header w (snd (Header.handleItemClick (JNum (num_of_Z index)) (header_view w))).

Lemma reachable_nav_safe_witness : Forall nav_entry_ok (navs (after_click 1 after_fetch)).
Proof.
  apply (reachable_nav_safe OrderDetail.sample_base OrderDetail.sample_tza Header.sample_storage (num_of_Z 0)).
  eapply reach_step with (w := after_fetch); [|apply StepHeaderClick].
  eapply reach_step with (w := w_page); [|eapply StepOrderDetail; reflexivity].
  eapply reach_step; [apply reach_init | apply StepOrderPage].
Defined.

Lemma reachable_pages_typed_witness :
  map_Forall (fun _ r => OrderDetail.well_typed r) (pages after_fetch).
Proof.
  apply (reachable_pages_typed OrderDetail.sample_base OrderDetail.sample_tza Header.sample_storage (num_of_Z 0)).
  eapply reach_step with (w := w_page); [|eapply StepOrderDetail; reflexivity].
  eapply reach_step; [apply reach_init | apply StepOrderPage].
Defined.

(** The checkout sends a placement (and, in [w_busy], while two order
    pages wait for their responses). *)
Definition sample_data : jsval := JObj [("items", JArr [JNum (num_of_Z 3)]); ("total", JNum (num_of_Z 30))].

Definition w_req : world := place_request OrderDetail.sample_base sample_data w0.

Definition w_busy : world := place_request OrderDetail.sample_base sample_data w_two.

Lemma reachable_transport_ok_witness :
  (forall i, is_Some (pages w_busy !! i) <-> (i < created w_busy)%nat) /\
  (forall i sb, subs w_busy !! i = Some sb ->
     (i < created w_busy)%nat /\ req_method (Http.request sb) = GET /\ req_body (Http.request sb) = None /\
     exists id, req_url (Http.request sb) = OrderDetail.sample_base +++ "/orders/" +++ num_to_string id) /\
  (forall k sb, orders w_busy !! k = Some sb ->
     (k < placed w_busy)%nat /\ req_method (Http.request sb) = POST /\
     req_url (Http.request sb) = OrderDetail.sample_base +++ "/orders").
Proof.
  apply (reachable_transport_ok OrderDetail.sample_base OrderDetail.sample_tza Header.sample_storage (num_of_Z 0)).
  eapply reach_step with (w := w_two); [|apply StepPlaceOrderRequest].
  eapply reach_step with (w := w_page); [|apply StepOrderPage].
  eapply reach_step; [apply reach_init | apply StepOrderPage].
Defined.

Lemma stale_response_overwrites_latest_witness :
  let w' := deliver OrderDetail.sample_base OrderDetail.sample_tza 0%nat
              (OrderDetail.HttpNext (JObj OrderDetail.sample_order)) w_two in
  OrderService.latestOrderId (svc w') = OrderDetail.prop_or_undef OrderDetail.sample_order "id" /\
  created w' = created w_two /\ pages w' !! pred (created w') = pages w_two !! pred (created w_two).
Proof.
  intros w'.
  apply (stale_response_overwrites_latest OrderDetail.sample_base OrderDetail.sample_tza w_two w' 0%nat
           OrderDetail.sample_order);
    [eapply StepOrderDetail; reflexivity | vm_compute; lia].
Defined.

Lemma fetch_error_only_logs_witness :
  let w' := deliver OrderDetail.sample_base OrderDetail.sample_tza 0%nat
              (OrderDetail.HttpError (JStr "timeout")) w_page in
  logs w' = logs w_page ++ [[JStr "Error fetching detail:"; JStr "timeout"]] /\
  subs w' = delete 0%nat (subs w_page) /\ svc w' = svc w_page /\ pages w' = pages w_page /\
  store w' = store w_page /\ navs w' = navs w_page.
Proof.
  intros w'. apply (fetch_error_only_logs OrderDetail.sample_base OrderDetail.sample_tza w_page w' 0%nat).
  eapply StepOrderDetail; reflexivity.
Defined.

Lemma fetched_order_is_latest_witness :
  navs (after_click 1 after_fetch) = navs w_page ++ [[JStr Header.ORDERS_PATH; OrderDetail.prop_or_undef OrderDetail.sample_order "id"]].
Proof.
  apply (fetched_order_is_latest OrderDetail.sample_base OrderDetail.sample_tza w_page after_fetch _ 0%nat
           OrderDetail.sample_order);
    [vm_compute; reflexivity | eapply StepOrderDetail; reflexivity | apply StepHeaderClick].
Defined.

Lemma logout_then_guard_witness :
  let w1 := after_click 2 w0 in
  let w2 := guard_navigation (AuthGuard.canActivate 0 (Some (store w1)) (navs w1)) w1 in
  navs w1 = navs w0 /\ navs w2 = navs w0 ++ [AuthGuard.LOGIN_ROUTE].
Proof.
  intros w1 w2.
  apply (logout_then_guard OrderDetail.sample_base OrderDetail.sample_tza w0 w1 w2
           (removeItem "user" (store w0)) JNull 0);
    [vm_compute; reflexivity | vm_compute; reflexivity | apply StepHeaderClick | apply StepGuard].
Defined.

Lemma login_then_guard_allows_witness :
  let w1 := with_store_svc (setItem TokenService.TOKEN_KEY sample_token (store w0)) (svc w0) w0 in
  let w2 := guard_navigation (AuthGuard.canActivate 1600000000000 (Some (store w1)) (navs w1)) w1 in
  verdicts w2 = verdicts w0 ++ [Normal true] /\ navs w2 = navs w0.
Proof.
  intros w1 w2.
  apply (login_then_guard_allows OrderDetail.sample_base OrderDetail.sample_tza w0 w1 w2 sample_token
           sample_claims 42 1700000000 1600000000000);
    [discriminate | vm_compute; reflexivity | vm_compute; reflexivity | lia | vm_compute; reflexivity
    | lia | vm_compute; discriminate | vm_compute; discriminate | apply StepLogin | apply StepGuard].
Defined.

Definition sample_placed : list (jstr * jsval) := [("id", JNum (num_of_Z 12)); ("status", JStr "pending")].

Definition w_placed : world :=
  deliver_order 0%nat (OrderDetail.HttpNext (JObj sample_placed)) w_req.

Lemma latest_order_page_requests_witness :
  let w2 := after_click 1 w_placed in
  let w3 := open_page OrderDetail.sample_base (num_of_Z 0) (order_route_id (List.last (navs w2) [])) w2 in
  List.last (navs w2) [] = [JStr "/orders"; JNum (num_of_Z 12)] /\
  subs w3 !! created w2 = Some (Http.subscribe (OrderService.getOrderById OrderDetail.sample_base (num_of_Z 12))).
Proof.
  intros w2 w3.
  apply (latest_order_page_requests OrderDetail.sample_base OrderDetail.sample_tza w_req w_placed w2 w3
           0%nat sample_placed 12 (num_of_Z 0));
    [reflexivity | lia | lia | eapply StepPlaceOrder; reflexivity | apply StepHeaderClick
    | apply StepOrderPage].
Defined.

Lemma placed_order_survives_reload_witness :
  let w2 := reload (num_of_Z 0) w_placed in
  navs (after_click 1 w2) = navs w_req ++ [[JStr Header.ORDERS_PATH; JNum (num_of_Z 12)]].
Proof.
  intros w2.
  apply (placed_order_survives_reload OrderDetail.sample_base OrderDetail.sample_tza w_req w_placed w2
           (after_click 1 w2) 0%nat sample_placed 12 (num_of_Z 0));
    [reflexivity | lia | lia | eapply StepPlaceOrder; reflexivity | apply StepReload
    | apply StepHeaderClick].
Defined.

(** Two placements are sent and await their responses: order 12 for the
    first, order 13 for the second. *)
Definition w_req2 : world := place_request OrderDetail.sample_base sample_data w_req.

Definition sample_placed2 : list (jstr * jsval) := [("id", JNum (num_of_Z 13)); ("status", JStr "pending")].

Lemma placement_arrival_order_decides_witness :
  let o1 := OrderDetail.HttpNext (JObj sample_placed) in
  let o2 := OrderDetail.HttpNext (JObj sample_placed2) in
  let w12 := deliver_order 1%nat o2 (deliver_order 0%nat o1 w_req2) in
  let w21 := deliver_order 0%nat o1 (deliver_order 1%nat o2 w_req2) in
  steps OrderDetail.sample_base OrderDetail.sample_tza w_req2 [EvPlaceOrder 0 o1; EvPlaceOrder 1 o2] w12 /\
  steps OrderDetail.sample_base OrderDetail.sample_tza w_req2 [EvPlaceOrder 1 o2; EvPlaceOrder 0 o1] w21 /\
  OrderService.latestOrderId (svc w12) = JNum (num_of_Z 13) /\
  getItem OrderService.LATEST_KEY (store w12) = Some (num_to_string (num_of_Z 13)) /\
  OrderService.latestOrderId (svc w21) = JNum (num_of_Z 12) /\
  getItem OrderService.LATEST_KEY (store w21) = Some (num_to_string (num_of_Z 12)).
Proof.
  exact (placement_arrival_order_decides OrderDetail.sample_base OrderDetail.sample_tza w_req2 0%nat 1%nat
           _ _ sample_placed sample_placed2 12 13 ltac:(discriminate) eq_refl eq_refl eq_refl eq_refl
           eq_refl eq_refl).
Defined.
End Client.
