(* ===== verification/OrderRef.v ===== *)
(** * The latest-order reference, against the spec's contract

    Section 4.4 of the spec describes an OrderRefStore: an in-memory
    latest order id and a durable copy, with [initialize] (read the durable
    copy), [recordFromPlacedOrder] (set both), [recordFromFetch] (set the
    in-memory value) and [current] (read the in-memory value; none means an
    error must be surfaced instead of a navigation).  [OrderRefSpec] states
    this contract on an abstract state; [refines] relates it to the code's
    state, the [OrderService] singleton's [latestOrderId] and the storage
    key ["latestOrderId"].  Each theorem shows that one operation of the
    code (the constructor, [placeOrder]'s tap, the order page's callback,
    the header's latest-order item) simulates the abstract one, for integer
    ids below [10^21]. *)

From Stdlib Require Import ZArith List Lia.
From stdpp Require Import base list gmap.
From S2P Require Import Prelude JsString JsNumber JsValue Router JsDate Storage AngularJwt TokenService AuthGuard OrderService OrderDetail Header Client.
Import ListNotations.
Open Scope Z_scope.
Open Scope jstr_scope.

Module OrderRefSpec.

Record ref_state := { mem : option Z; durable : option Z }.

Definition initialize (d : option Z) : ref_state := {| mem := d; durable := d |}.

Definition recordFromPlacedOrder (n : Z) (_ : ref_state) : ref_state := {| mem := Some n; durable := Some n |}.

Definition recordFromFetch (n : Z) (st : ref_state) : ref_state := {| mem := Some n; durable := durable st |}.

Definition current (st : ref_state) : option Z := mem st.
End OrderRefSpec.

Module OrderRef.
Import OrderRefSpec.

(** An id the code can hold exactly. *)
Definition small (n : Z) : Prop := Z.abs n < 10 ^ 21.

Definition mem_rel (m : option Z) (v : jsval) : Prop :=
  match m with
  | Some n => small n /\ v = JNum (num_of_Z n)
  | None => v = JNull
  end.

Definition durable_rel (d : option Z) (x : option jstr) : Prop :=
  match d with
  | Some n => small n /\ x = Some (num_to_string (num_of_Z n))
  | None => x = None
  end.

Section OrderRef.
Context {St : Type} `{WebStorageLaws St}.

Definition refines (a : ref_state) (os : OrderService.order_service) (s : St) : Prop :=
  mem_rel (mem a) (OrderService.latestOrderId os) /\ durable_rel (durable a) (getItem OrderService.LATEST_KEY s).

Lemma construct_mem_rel d (s : St) :
  durable_rel d (getItem OrderService.LATEST_KEY s) -> mem_rel d (OrderService.latestOrderId (OrderService.construct s)).
Proof.
  intros Hd. unfold OrderService.construct.
  destruct d as [n|]; cbn in Hd |- *.
  - destruct Hd as [Hn ->]. cbn [to_boolean OrderService.latestOrderId].
    rewrite bool_decide_eq_false_2 by apply num_to_string_nonempty. cbn [negb OrderService.latestOrderId].
    split; [exact Hn|]. now rewrite string_to_number_num_to_string_int.
  - now rewrite Hd.
Qed.

(** C21: The OrderService constructor implements [initialize]. *)
Theorem construct_refines d (s : St) :
  durable_rel d (getItem OrderService.LATEST_KEY s) ->
  refines (initialize d) (OrderService.construct s) s.
Proof. intros Hd. split; [exact (construct_mem_rel d s Hd) | exact Hd]. Qed.

(** C23: The header's latest-order item implements [current]: it navigates to
    the order when [current] holds a non-zero id, and otherwise (none, or
    the sentinel [0]) navigates nowhere and only writes the "no order
    saved" message to the console. *)
Theorem current_refines `{UserService St} a (w : Header.header_world) s :
  refines a (Header.orderService w) s ->
  let w' := snd (Header.handleItemClick (JNum (num_of_Z 1)) w) in
  match current a with
  | Some n =>
      if n =? 0 then Header.nav w' = Header.nav w /\ Header.console w' = Header.console w ++ [[JStr Header.NO_ORDER_MSG]]
      else Header.nav w' = Header.nav w ++ [[JStr Header.ORDERS_PATH; JNum (num_of_Z n)]] /\
           Header.console w' = Header.console w
  | None => Header.nav w' = Header.nav w /\ Header.console w' = Header.console w ++ [[JStr Header.NO_ORDER_MSG]]
  end.
Proof.
  intros [Hm _] w'. subst w'. rewrite Header.handleItemClick_1. cbn zeta. unfold current.
  destruct (mem a) as [n|]; cbn in Hm.
  - destruct Hm as [Hn ->]. destruct (Z.eqb_spec n 0) as [->|Hn0]; [split; reflexivity|].
    cbn [to_boolean]. rewrite (num_truthy_int n Hn0 Hn). split; reflexivity.
  - rewrite Hm. split; reflexivity.
Qed.
End OrderRef.

(** ** The whole client refines the contract *)

(** The integer an id value denotes, when it is one. *)
Definition id_of (v : jsval) : option Z :=
  match v with
  | JNum (Fin d) => if 0 <=? ex d then Some (mant d * 10 ^ ex d) else None
  | _ => None
  end.

Lemma id_of_int n : small n -> id_of (JNum (num_of_Z n)) = Some n.
Proof.
  intros Hn. unfold small in Hn. rewrite num_of_Z_small by exact Hn. cbn [id_of].
  destruct (dnorm_int_value n) as [Hv He]. rewrite (proj2 (Z.leb_le _ _) He). now rewrite Hv.
Qed.

(** The events whose order responses carry an integer id. *)
Definition good_event (e : Client.event) : Prop :=
  match e with
  | Client.EvPlaceOrder _ (OrderDetail.HttpNext res) =>
      exists ps n, res = JObj ps /\ assoc_lookup OrderService.id_key ps = Some (JNum (num_of_Z n)) /\ small n
  | Client.EvOrderDetail _ (OrderDetail.HttpNext res) =>
      exists ps n, res = JObj ps /\ OrderDetail.prop_or_undef ps "id" = JNum (num_of_Z n) /\ small n
  | _ => True
  end.

(** What each event does to the abstract store. *)
Definition abs_event (a : ref_state) (e : Client.event) : ref_state :=
  match e with
  | Client.EvPlaceOrder _ (OrderDetail.HttpNext (JObj ps)) =>
      match assoc_lookup OrderService.id_key ps with
      | Some v => match id_of v with Some n => recordFromPlacedOrder n a | None => a end
      | None => a
      end
  | Client.EvOrderDetail _ (OrderDetail.HttpNext (JObj ps)) =>
      match id_of (OrderDetail.prop_or_undef ps "id") with
      | Some n => recordFromFetch n a
      | None => a
      end
  | Client.EvReload _ => initialize (durable a)
  | _ => a
  end.

Section ClientRefines.
Context {St : Type} `{WebStorageLaws St} `{JwtHelper} `{UserService St}.
Variable apiBaseUrl : jstr.
Variable tza : Z.
(** Removing the user leaves the latest order id where it was. *)
Hypothesis removeUser_keeps_latest : forall s ls',
  removeUserFromLocalStorage (Some s) = Normal ls' ->
  exists s', ls' = Some s' /\ getItem OrderService.LATEST_KEY s' = getItem OrderService.LATEST_KEY s.

Lemma step_refines (w w' : Client.world) e a :
  Client.step apiBaseUrl tza w e w' -> good_event e ->
  refines a (Client.svc w) (Client.store w) -> refines (abs_event a e) (Client.svc w') (Client.store w').
Proof.
  intros Hstep Hgood [Hm Hd]. destruct Hstep as [w now|w token|w k o sb Hs Ha|w orderData|w i o sb r Hs Hp Ha|w index|w|w index|w now param|w now]; cbn [good_event] in Hgood.
  - split; assumption.
  - split; [exact Hm|]. cbn. rewrite getItem_setItem_ne by discriminate. exact Hd.
  - destruct o as [body|err|].
    + destruct Hgood as (ps & n & -> & Hid & Hn). cbn [abs_event]. rewrite Hid, id_of_int by exact Hn.
      destruct (Client.deliver_order_int w k sb ps n Hs Ha Hid) as (-> & -> & _).
      split; split; [exact Hn | reflexivity | exact Hn | apply getItem_setItem_eq].
    + rewrite (Client.deliver_order_eq w k _ sb Hs Ha). split; assumption.
    + rewrite (Client.deliver_order_eq w k _ sb Hs Ha). split; assumption.
  - split; assumption.
  - rewrite (Client.deliver_eq apiBaseUrl tza w i o sb r Hs Hp Ha).
    destruct o as [body|err|].
    + destruct Hgood as (ps & n & -> & Hid & Hn). cbn [abs_event]. rewrite Hid, id_of_int by exact Hn.
      cbn [Client.from_detail Client.svc Client.store OrderDetail.getOrderDetails_callback].
      rewrite (OrderDetail.next_sets_latest apiBaseUrl tza (JObj ps) _ (JNum (num_of_Z n)))
        by (cbn; unfold OrderDetail.prop_or_undef in Hid; now rewrite Hid).
      split; [split; [exact Hn | reflexivity] | exact Hd].
    + split; assumption.
    + split; assumption.
  - destruct (Header.handleItemClick_frame index (Client.header_view w)) as [Hsvc Hst].
    assert (Habs : abs_event a (Client.EvHeaderClick index) = a) by reflexivity. rewrite Habs.
    unfold Client.from_header. cbn [Client.svc Client.store]. rewrite Hsvc. split; [exact Hm|].
    destruct Hst as [-> | (ls' & Hrm & ->)]; [exact Hd|].
    destruct (removeUser_keeps_latest _ _ Hrm) as (s' & -> & Hkeep). cbn.
    rewrite getItem_removeItem_ne by discriminate. now rewrite Hkeep.
  - split; assumption.
  - split; assumption.
  - split; assumption.
  - destruct (Client.reload_frame now w) as (_ & Hsvc & Hst). rewrite Hsvc, Hst.
    split; [exact (construct_mem_rel _ _ Hd) | exact Hd].
Qed.

(** C20: Along any sequence of client events whose order responses carry
    integer ids, the service and the storage refine the spec's
    OrderRefStore run on the same events. *)
Theorem trace_refines (w w' : Client.world) es a :
  Client.steps apiBaseUrl tza w es w' -> Forall good_event es ->
  refines a (Client.svc w) (Client.store w) ->
  refines (fold_left abs_event es a) (Client.svc w') (Client.store w').
Proof.
  intros Hs. revert a. induction Hs as [w|w e w1 es w2 Hstep _ IH]; intros a Hgood Hr; [exact Hr|].
  inversion Hgood as [|? ? He Hes]; subst. cbn [fold_left].
  exact (IH _ Hes (step_refines w w1 e a Hstep He Hr)).
Qed.
End ClientRefines.

(** ** Witnesses, on the browser's storage *)

#[local] Existing Instance Header.key_user_service.

Definition stored_7 : gmap jstr jstr := <[OrderService.LATEST_KEY := "7"]> ∅.

Lemma construct_refines_witness : refines (initialize (Some 7)) (OrderService.construct stored_7) stored_7.
Proof. apply construct_refines. split; [unfold small; lia | vm_compute; reflexivity]. Defined.

Lemma current_refines_witness :
  let w := Header.sample_world (JNum (num_of_Z 7)) in
  let w' := snd (Header.handleItemClick (JNum (num_of_Z 1)) w) in
  match current (initialize (Some 7)) with
  | Some n =>
      if n =? 0 then Header.nav w' = Header.nav w /\ Header.console w' = Header.console w ++ [[JStr Header.NO_ORDER_MSG]]
      else Header.nav w' = Header.nav w ++ [[JStr Header.ORDERS_PATH; JNum (num_of_Z n)]] /\
           Header.console w' = Header.console w
  | None => Header.nav w' = Header.nav w /\ Header.console w' = Header.console w ++ [[JStr Header.NO_ORDER_MSG]]
  end.
Proof.
  apply (current_refines (initialize (Some 7)) _ Header.sample_storage).
  split; split; [unfold small; lia | reflexivity | unfold small; lia | vm_compute; reflexivity].
Defined.

Lemma key_user_service_keeps_latest (s : gmap jstr jstr) ls' :
  removeUserFromLocalStorage (Some s) = Normal ls' ->
  exists s', ls' = Some s' /\ getItem OrderService.LATEST_KEY s' = getItem OrderService.LATEST_KEY s.
Proof.
  cbn. intros [= <-]. eexists. split; [reflexivity|]. apply lookup_delete_ne. discriminate.
Qed.

Definition sample_events : list Client.event :=
  [Client.EvPlaceOrderRequest (JObj [("total", JNum (num_of_Z 30))]);
   Client.EvPlaceOrder 0 (OrderDetail.HttpNext (JObj [("id", JNum (num_of_Z 12))]));
   Client.EvPlaceOrder 0 OrderDetail.HttpComplete; Client.EvReload (num_of_Z 0);
   Client.EvOrderPage (num_of_Z 0) (Some "7");
   Client.EvOrderDetail 0 (OrderDetail.HttpNext (JObj OrderDetail.sample_order));
   Client.EvOrderDetail 0 OrderDetail.HttpComplete;
   Client.EvHeaderClick (JNum (num_of_Z 1)); Client.EvHeaderClick (JNum (num_of_Z 2))].

Lemma trace_refines_witness :
  refines (fold_left abs_event sample_events (initialize (Some 7)))
          (Client.svc (fold_left (Client.run_event OrderDetail.sample_base OrderDetail.sample_tza) sample_events Client.w0))
          (Client.store (fold_left (Client.run_event OrderDetail.sample_base OrderDetail.sample_tza) sample_events Client.w0)).
Proof.
  apply (trace_refines OrderDetail.sample_base OrderDetail.sample_tza key_user_service_keeps_latest Client.w0);
    [apply Client.run_events_steps; vm_compute; reflexivity | | split; split; [unfold small; lia | vm_compute; reflexivity | unfold small; lia | vm_compute; reflexivity]].
  repeat constructor.
  - exists [("id", JNum (num_of_Z 12))], 12. split; [reflexivity|]. split; [reflexivity | unfold small; lia].
  - exists OrderDetail.sample_order, 7. split; [reflexivity|]. split; [reflexivity | unfold small; lia].
Defined.
End OrderRef.
